(** * calibre: the content-server preferences panel
    ([src/calibre/gui2/preferences/server.py])

    A shallow embedding of the panel's logic: the option widgets of the
    "Advanced" tab and the form builder that creates them, the user-account
    editor, and the save / commit / start-server control flow.

    Python values are a small tagged universe, dictionaries are [gmap]s,
    Qt widgets are records holding the part of the widget state the module
    reads back, and calls into collaborators outside the module (dialogs,
    the configuration store, the user manager, the server object) are
    recorded in an event log. *)

From Stdlib Require Import ZArith QArith Qcanon Qround.
From Stdlib Require Import Ascii String OrderedTypeEx.
From stdpp Require Import base option list sorting gmap strings pretty.

Close Scope Q_scope.
Close Scope Qc_scope.
Open Scope string_scope.
Open Scope Z_scope.

(** ** Python values *)

(** The values an option can carry.  A finite Python float, an IEEE 754
    binary64 number, is represented by the rational number it denotes
    ([Qc], rationals in lowest terms, so that equality of values is
    equality of numbers); [Double] below gives the rounding that takes a
    number to the nearest float.  [nan] and the infinities are outside
    the model. *)
Inductive PyVal : Type :=
  | PyNone
  | PyBool (b : bool)
  | PyInt (z : Z)
  | PyFloat (q : Qc)
  | PyStr (s : string).

(** [isinstance(v, bool)]. *)
Definition isinstance_bool (v : PyVal) : bool :=
  match v with PyBool _ => true | _ => false end.

(** [isinstance(v, (int, long))]: [bool] is a subclass of [int]. *)
Definition isinstance_int (v : PyVal) : bool :=
  match v with PyBool _ | PyInt _ => true | _ => false end.

(** [isinstance(v, float)]. *)
Definition isinstance_float (v : PyVal) : bool :=
  match v with PyFloat _ => true | _ => false end.

(** Truth value of a Python object, as tested by [if v], [v or w] and
    [bool(v)]. *)
Definition truthy (v : PyVal) : bool :=
  match v with
  | PyNone => false
  | PyBool b => b
  | PyInt z => negb (z =? 0)
  | PyFloat q => negb (bool_decide (q = Q2Qc 0))
  | PyStr s => negb (bool_decide (s = ""))
  end.

(** Python exceptions the module can meet, and the outcome of a call that
    may raise. *)
Inductive exn : Type :=
  | TypeError | ValueError | OverflowError | KeyError | AttributeError
  | AbortCommit.

Inductive result (A : Type) : Type :=
  | Ok (a : A)
  | Raise (e : exn).
Arguments Ok {A}.
Arguments Raise {A}.

#[global] Instance result_ret : MRet result := fun A a => Ok a.
#[global] Instance result_bind : MBind result := fun A B f m =>
  match m with Ok a => f a | Raise e => Raise e end.
#[global] Instance result_fmap : FMap result := fun A B f m =>
  match m with Ok a => Ok (f a) | Raise e => Raise e end.

(** An optional value, or the given exception when it is missing. *)
Definition or_raise {A} (e : exn) (o : option A) : result A :=
  match o with Some a => Ok a | None => Raise e end.

(** ** Binary64 floats *)

Module Double.
(** [a / b] rounded to the nearest integer, a tie going to the even one
    ([b] positive). *)
Definition rne_div (a b : Z) : Z :=
  let f := a / b in
  match 2 * (a mod b) ?= b with
  | Lt => f
  | Gt => f + 1
  | Eq => if Z.even f then f else f + 1
  end.

(** Numerator and denominator of [(a / b) / 2 ^ e]. *)
Definition scaled (a b e : Z) : Z * Z :=
  if 0 <=? e then (a, b * 2 ^ e) else (a * 2 ^ (- e), b).

(** The exponent of the last place of the float nearest to [a / b]
    ([a], [b] positive): the [e] with [2 ^ 52 <= (a / b) / 2 ^ e < 2 ^ 53],
    but not below that of the subnormal numbers, -1074. *)
Definition ulp_exp (a b : Z) : Z :=
  let e0 := Z.log2 a - Z.log2 b - 53 in
  let '(x, y) := scaled a b e0 in
  Z.max (if 2 ^ 53 * y <=? x then e0 + 1 else e0) (-1074).

(** [m * 2 ^ e] *)
Definition ldexp (m e : Z) : Q :=
  if 0 <=? e then inject_Z (m * 2 ^ e) else Qmake m (Z.to_pos (2 ^ (- e))).

(** The float nearest to [a / b] ([a], [b] positive); [None] when that is
    beyond the largest float. *)
Definition of_pos (a b : Z) : option Q :=
  let e := ulp_exp a b in
  let '(x, y) := scaled a b e in
  let m := rne_div x y in
  if (0 <=? e) && (2 ^ 1024 <=? m * 2 ^ e) then None else Some (ldexp m e).

(** Round to nearest, ties to even; [None] on overflow. *)
Definition of_Q (q : Q) : option Qc :=
  let r := Qred q in
  match Qnum r with
  | 0 => Some (Q2Qc 0)
  | Z.pos a => Q2Qc <$> of_pos (Z.pos a) (Z.pos (Qden r))
  | Z.neg a => (fun x => Q2Qc (- x)) <$> of_pos (Z.pos a) (Z.pos (Qden r))
  end.

(** The largest float. *)
Definition max_double : Q := inject_Z ((2 ^ 53 - 1) * 2 ^ 971).

(** The float a decimal numeral is read as.  Beyond the largest float
    the reading is an infinity, which a spin box then forces into its
    range; here that is done from the largest float, to the same
    effect. *)
Definition nearest (q : Q) : Qc :=
  match of_Q q with
  | Some d => d
  | None => if Qnum (Qred q) <? 0 then Q2Qc (- max_double) else Q2Qc max_double
  end.
End Double.

(** The text side of the builtins [int()], [float()] and [unicode()]:
    Python's numeral parser and its float printer live in the interpreter,
    not in this module, and are taken as an interface. *)
Class PyText := {
  int_of_text : string -> option Z;
  float_of_text : string -> option Qc;
  text_of_float : Qc -> string;
}.

(** Rounding of a rational towards zero, as [int()] does on a float. *)
Definition Qc_truncate (q : Qc) : Z :=
  Z.quot (Qnum (this q)) (Z.pos (Qden (this q))).

(** [int(v)] *)
Definition py_int `{PyText} (v : PyVal) : result Z :=
  match v with
  | PyNone => Raise TypeError
  | PyBool b => Ok (Z.b2z b)
  | PyInt z => Ok z
  | PyFloat q => Ok (Qc_truncate q)
  | PyStr s => or_raise ValueError (int_of_text s)
  end.

(** [float(v)]: an integer goes to the nearest float, and is an
    [OverflowError] when that is beyond the largest one. *)
Definition py_float `{PyText} (v : PyVal) : result Qc :=
  match v with
  | PyNone => Raise TypeError
  | PyBool b => Ok (Q2Qc (inject_Z (Z.b2z b)))
  | PyInt z => or_raise OverflowError (Double.of_Q (inject_Z z))
  | PyFloat q => Ok q
  | PyStr s => or_raise ValueError (float_of_text s)
  end.

(** [type(u'')(v)], that is [unicode(v)]. *)
Definition py_unicode `{PyText} (v : PyVal) : string :=
  match v with
  | PyNone => "None"
  | PyBool true => "True"
  | PyBool false => "False"
  | PyInt z => pretty z
  | PyFloat q => text_of_float q
  | PyStr s => s
  end.

(** The text made of one double-quote character. *)
Definition dquote : string := String (ascii_of_N 34) EmptyString.

(** [v or w]. *)
Definition py_or (v w : PyVal) : PyVal := if truthy v then v else w.

(** Characters are code points below 256.  [unicode.isspace] on that range:
    TAB..CR, FS..US, SPACE, NEL and NBSP. *)
Definition isspace (c : ascii) : bool :=
  let n := N_of_ascii c in
  ((9 <=? n) && (n <=? 13) || (28 <=? n) && (n <=? 32)
   || (n =? 133) || (n =? 160))%N.

(** [s.lstrip()], [s.rstrip()] and [s.strip()]. *)
Fixpoint lstrip (s : string) : string :=
  match s with
  | String c s' => if isspace c then lstrip s' else s
  | EmptyString => EmptyString
  end.

Fixpoint rstrip (s : string) : string :=
  match s with
  | String c s' =>
      match rstrip s' with
      | EmptyString => if isspace c then EmptyString else String c EmptyString
      | r => String c r
      end
  | EmptyString => EmptyString
  end.

Definition strip (s : string) : string := rstrip (lstrip s).

(** [unicode.lower] on one code point below 256: the ASCII capitals and
    the Latin-1 capitals (all of U+00C0..U+00DE but the multiplication
    sign) move up by 32. *)
Definition lower_char (c : ascii) : ascii :=
  let n := N_of_ascii c in
  if ((65 <=? n) && (n <=? 90)
      || (192 <=? n) && (n <=? 222) && negb (n =? 215))%N
  then ascii_of_N (n + 32) else c.

Fixpoint lower (s : string) : string :=
  match s with
  | String c s' => String (lower_char c) (lower s')
  | EmptyString => EmptyString
  end.

(** ** The Qt widgets the module builds on

    Each widget is the record of the state the module can read back,
    with the documented behaviour of the calls the module makes. *)

Module QCheckBox.
Record t := { checked : bool }.
Definition new : t := {| checked := false |}.
Definition setChecked (b : bool) (w : t) : t := {| checked := b |}.
Definition isChecked (w : t) : bool := checked w.
End QCheckBox.

Module QSpinBox.
Record t := { minimum : Z; maximum : Z; value : Z }.

(** A fresh spin box ranges over 0..99 and shows 0. *)
Definition new : t := {| minimum := 0; maximum := 99; value := 0 |}.

(** Values are forced into the range. *)
Definition bound (mn mx v : Z) : Z :=
  if v <? mn then mn else if mx <? v then mx else v.

Definition setRange (mn mx : Z) (w : t) : t :=
  let mx' := if mn <? mx then mx else mn in
  {| minimum := mn; maximum := mx'; value := bound mn mx' (value w) |}.

Definition setValue (v : Z) (w : t) : t :=
  {| minimum := minimum w; maximum := maximum w;
     value := bound (minimum w) (maximum w) v |}.
End QSpinBox.

(** A Python integer handed to a Qt [int] parameter.  The binding reads
    it as a C [long long] ([OverflowError] beyond 64 bits) and narrows it
    to 32 bits by two's-complement wrap-around. *)
Definition to_c_int (z : Z) : result Z :=
  if (- 2 ^ 63 <=? z) && (z <? 2 ^ 63)
  then Ok ((z + 2 ^ 31) mod 2 ^ 32 - 2 ^ 31)
  else Raise OverflowError.

Module QDoubleSpinBox.
Record t := {
  actualMin : Qc; actualMax : Qc;   (* the range as given *)
  minimum : Qc; maximum : Qc;       (* the range rounded to [decimals] *)
  decimals : Z;
  value : Qc }.

(** The number that the numeral with [d] decimals for [q] denotes: [q]
    rounded to [d] decimal places, halves away from zero. *)
Definition decimal (d : Z) (q : Qc) : Q :=
  let s := inject_Z (10 ^ d) in
  let half := (1 # 2)%Q in
  if Qle_bool 0 (this q)
  then (inject_Z (Qfloor (this q * s + half)) / s)%Q
  else (- (inject_Z (Qfloor (- this q * s + half)) / s))%Q.

(** Qt rounds a value by writing it with [d] decimals and reading the
    numeral back: the result is the float nearest to the decimal. *)
Definition round (d : Z) (q : Qc) : Qc := Double.nearest (decimal d q).

Definition Qc_leb (a b : Qc) : bool := Qle_bool (this a) (this b).
Definition Qc_ltb (a b : Qc) : bool := negb (Qle_bool (this b) (this a)).

Definition bound (mn mx v : Qc) : Qc :=
  if Qc_ltb v mn then mn else if Qc_ltb mx v then mx else v.

(** A fresh box: range 0.00..99.99, two decimals, value 0.0. *)
Definition new : t :=
  {| actualMin := Q2Qc 0; actualMax := Double.nearest (9999 # 100);
     minimum := Q2Qc 0; maximum := Double.nearest (9999 # 100);
     decimals := 2; value := Q2Qc 0 |}.

Definition setRange (mn mx : Qc) (w : t) : t :=
  let rmn := round (decimals w) mn in
  let rmx := round (decimals w) mx in
  let rmx' := if Qc_ltb rmn rmx then rmx else rmn in
  {| actualMin := mn; actualMax := mx;
     minimum := rmn; maximum := rmx';
     decimals := decimals w;
     value := bound rmn rmx' (value w) |}.

Definition setValue (v : Qc) (w : t) : t :=
  {| actualMin := actualMin w; actualMax := actualMax w;
     minimum := minimum w; maximum := maximum w;
     decimals := decimals w;
     value := bound (minimum w) (maximum w) (round (decimals w) v) |}.

(** The precision is kept within 0..323; range and value are rounded
    again. *)
Definition setDecimals (d : Z) (w : t) : t :=
  let d' := Z.max 0 (Z.min d 323) in
  let w1 := {| actualMin := actualMin w; actualMax := actualMax w;
               minimum := minimum w; maximum := maximum w;
               decimals := d'; value := value w |} in
  let w2 := setRange (actualMin w) (actualMax w) w1 in
  setValue (value w2) w2.
End QDoubleSpinBox.

Module QLineEdit.
Record t := { text : string; maxLength : Z }.

(** A fresh line edit is empty and holds at most 32767 characters. *)
Definition new : t := {| text := ""; maxLength := 32767 |}.

(** The first [n] characters of [s]. *)
Fixpoint left (n : Z) (s : string) : string :=
  match s with
  | String c s' => if n <=? 0 then "" else String c (left (n - 1) s')
  | EmptyString => ""
  end.

(** Text longer than [maxLength] is truncated. *)
Definition setText (s : string) (w : t) : t :=
  {| text := left (maxLength w) s; maxLength := maxLength w |}.
End QLineEdit.

Module QComboBox.
(** A combo box that is not editable: its entries and the index of the
    current one, -1 when there is none. *)
Record t := { items : list string; currentIndex : Z }.

Definition new : t := {| items := []; currentIndex := -1 |}.

Definition count (w : t) : Z := Z.of_nat (length (items w)).

Definition valid (i : Z) (w : t) : bool := (0 <=? i) && (i <? count w).

Definition itemText (i : Z) (w : t) : string :=
  if valid i w then nth (Z.to_nat i) (items w) "" else "".

(** Index of the first entry equal to [s], -1 when there is none. *)
Fixpoint find_from (i : Z) (s : string) (l : list string) : Z :=
  match l with
  | [] => -1
  | x :: l' => if bool_decide (x = s) then i else find_from (i + 1) s l'
  end.

Definition findText (s : string) (w : t) : Z := find_from 0 s (items w).

Definition setCurrentIndex (i : Z) (w : t) : t :=
  {| items := items w; currentIndex := if valid i w then i else -1 |}.

(** The first entry added to an empty box becomes the current one. *)
Definition addItem (s : string) (w : t) : t :=
  let w' := {| items := (items w ++ [s])%list; currentIndex := currentIndex w |} in
  match items w with
  | [] => if valid (currentIndex w) w then w' else setCurrentIndex 0 w'
  | _ => w'
  end.

Definition setCurrentText (s : string) (w : t) : t :=
  let i := findText s w in
  if -1 <? i then setCurrentIndex i w else w.

Definition currentText (w : t) : string := itemText (currentIndex w) w.
End QComboBox.

(** ** Option descriptors ([calibre.srv.opts.Option]) and the registry *)

Module Option.
Record t := {
  name : string;
  default : PyVal;
  longdoc : option string;
  shortdoc : string;
  choices : option (list string) }.
End Option.

(** [options]: an ordered dictionary from option names to descriptors,
    kept as the list of its values in iteration order; the key of an entry
    is its [name]. *)
Definition registry := list Option.t.

(** [options[name]] *)
Fixpoint getitem (options : registry) (name : string) : result Option.t :=
  match options with
  | [] => Raise KeyError
  | o :: rest =>
      if bool_decide (Option.name o = name) then Ok o else getitem rest name
  end.

(** Iterating over the dictionary yields its keys. *)
Definition keys (options : registry) : list string :=
  map Option.name options.

(** Truth value of an optional text ([None] and the empty text are
    false) and of an optional list ([None] and the empty list are false). *)
Definition truthy_text (o : option string) : bool :=
  match o with Some s => negb (bool_decide (s = "")) | None => false end.

Definition truthy_list {A} (o : option (list A)) : bool :=
  match o with Some (_ :: _) => true | _ => false end.

(** ** The option widgets

    Each class gives [init], [get] and [set].  What the widgets notify on
    an edit ([changed_signal]) is not followed here; the log further down
    records the signals that the module's own methods emit. *)

(** What [init_opt] attaches to a Qt widget of type [Q]: the option's name
    and default, and the long help text when there is one (shown as
    "What's this" text, status tip and, re-wrapped, tool tip). *)
Record Widget (Q : Type) := mkWidget {
  name : string;
  default_val : PyVal;
  whatsThis : option string;
  qt : Q }.
Arguments mkWidget {Q}.
Arguments name {Q}.
Arguments default_val {Q}.
Arguments whatsThis {Q}.
Arguments qt {Q}.

(** The rows of a form layout: the label text and the name of the widget
    in the field column. *)
Definition QFormLayout := list (string * string).

Definition addRow (label field : string) (layout : QFormLayout) : QFormLayout :=
  (layout ++ [(label, field)])%list.

Definition init_opt {Q} (widget : Q) (opt : Option.t) (layout : QFormLayout)
  : Widget Q * QFormLayout :=
  ({| name := Option.name opt;
      default_val := Option.default opt;
      whatsThis :=
        if truthy_text (Option.longdoc opt) then Option.longdoc opt else None;
      qt := widget |},
   addRow (Option.shortdoc opt ++ ":") (Option.name opt) layout).

(** Replace the Qt part of a widget. *)
Definition with_qt {Q} (w : Widget Q) (q : Q) : Widget Q :=
  {| name := name w; default_val := default_val w;
     whatsThis := whatsThis w; qt := q |}.

Module Bool.
Definition t := Widget QCheckBox.t.

Definition init (options : registry) (name : string) (layout : QFormLayout)
  : result (t * QFormLayout) :=
  opt ← getitem options name;
  Ok (init_opt QCheckBox.new opt layout).

Definition get (self : t) : PyVal := PyBool (QCheckBox.isChecked (qt self)).

Definition set (val : PyVal) (self : t) : t :=
  with_qt self (QCheckBox.setChecked (truthy val) (qt self)).
End Bool.

Module Int.
Definition t := Widget QSpinBox.t.

Definition init (options : registry) (name : string) (layout : QFormLayout)
  : result (t * QFormLayout) :=
  let sb := QSpinBox.setRange 0 10000 QSpinBox.new in
  opt ← getitem options name;
  Ok (init_opt sb opt layout).

Definition get (self : t) : PyVal := PyInt (QSpinBox.value (qt self)).

Definition set `{PyText} (val : PyVal) (self : t) : result t :=
  i ← py_int val;
  c ← to_c_int i;
  Ok (with_qt self (QSpinBox.setValue c (qt self))).
End Int.

Module Float.
Definition t := Widget QDoubleSpinBox.t.

Definition init (options : registry) (name : string) (layout : QFormLayout)
  : result (t * QFormLayout) :=
  let sb :=
    QDoubleSpinBox.setDecimals 1
      (QDoubleSpinBox.setRange (Q2Qc (inject_Z 0)) (Q2Qc (inject_Z 10000))
         QDoubleSpinBox.new) in
  opt ← getitem options name;
  Ok (init_opt sb opt layout).

Definition get (self : t) : PyVal := PyFloat (QDoubleSpinBox.value (qt self)).

Definition set `{PyText} (val : PyVal) (self : t) : result t :=
  f ← py_float val;
  Ok (with_qt self (QDoubleSpinBox.setValue f (qt self))).
End Float.

Module Text.
Definition t := Widget QLineEdit.t.

Definition init (options : registry) (name : string) (layout : QFormLayout)
  : result (t * QFormLayout) :=
  opt ← getitem options name;
  Ok (init_opt QLineEdit.new opt layout).

(** [self.text().strip() or None] *)
Definition get (self : t) : PyVal :=
  py_or (PyStr (strip (QLineEdit.text (qt self)))) PyNone.

(** [self.setText(type(u'')(val or ''))] *)
Definition set `{PyText} (val : PyVal) (self : t) : t :=
  with_qt self (QLineEdit.setText (py_unicode (py_or val (PyStr ""))) (qt self)).
End Text.

Module Choices.
(** The combo box and the [choices] attribute kept beside it. *)
Record state := { choices : list string; combo : QComboBox.t }.
Definition t := Widget state.

(** Mapping [addItem] over a missing choice list is a [TypeError]. *)
Definition init (options : registry) (name : string) (layout : QFormLayout)
  : result (t * QFormLayout) :=
  opt ← getitem options name;
  cs ← or_raise TypeError (Option.choices opt);
  let cb := foldl (fun w c => QComboBox.addItem c w) QComboBox.new cs in
  Ok (init_opt {| choices := cs; combo := cb |} opt layout).

Definition get (self : t) : PyVal :=
  PyStr (QComboBox.currentText (combo (qt self))).

(** [val in self.choices] *)
Definition contains (val : PyVal) (cs : list string) : bool :=
  match val with
  | PyStr s => bool_decide (s ∈ cs)
  | _ => false
  end.

Definition set (val : PyVal) (self : t) : t :=
  let st := qt self in
  if contains val (choices st) then
    match val with
    | PyStr s =>
        with_qt self {| choices := choices st;
                        combo := QComboBox.setCurrentText s (combo st) |}
    | _ => self  (* not reached: the choice list holds texts only *)
    end
  else
    with_qt self {| choices := choices st;
                    combo := QComboBox.setCurrentIndex 0 (combo st) |}.
End Choices.

(** The five widget classes behind one interface ([name], [default_val],
    [get], [set]), as the tab's [widgets] list holds them. *)
Inductive AnyWidget : Type :=
  | WChoices (w : Choices.t)
  | WBool (w : Bool.t)
  | WInt (w : Int.t)
  | WFloat (w : Float.t)
  | WText (w : Text.t).

Definition widget_name (w : AnyWidget) : string :=
  match w with
  | WChoices w => name w | WBool w => name w | WInt w => name w
  | WFloat w => name w | WText w => name w
  end.

Definition widget_default_val (w : AnyWidget) : PyVal :=
  match w with
  | WChoices w => default_val w | WBool w => default_val w
  | WInt w => default_val w | WFloat w => default_val w
  | WText w => default_val w
  end.

Definition widget_get (w : AnyWidget) : PyVal :=
  match w with
  | WChoices w => Choices.get w | WBool w => Bool.get w | WInt w => Int.get w
  | WFloat w => Float.get w | WText w => Text.get w
  end.

Definition widget_set `{PyText} (val : PyVal) (w : AnyWidget) : result AnyWidget :=
  match w with
  | WChoices w => Ok (WChoices (Choices.set val w))
  | WBool w => Ok (WBool (Bool.set val w))
  | WInt w => WInt <$> Int.set val w
  | WFloat w => WFloat <$> Float.set val w
  | WText w => Ok (WText (Text.set val w))
  end.

(** ** [sorted(l, key=...)]

    A stable sort: keys are computed once for each element and compared
    with [<]; elements with equal keys keep their order. *)

Fixpoint insert_keyed {A} (kx : string * A) (l : list (string * A))
  : list (string * A) :=
  match l with
  | [] => [kx]
  | ky :: l' =>
      if String.ltb (fst ky) (fst kx) then ky :: insert_keyed kx l'
      else kx :: l
  end.

Definition sort_keyed {A} (l : list (string * A)) : list (string * A) :=
  foldr insert_keyed [] l.

(** Run [f] over a list, stopping at the first exception. *)
Fixpoint for_each {A B} (f : A -> result B) (l : list A) : result (list B) :=
  match l with
  | [] => Ok []
  | x :: l' => y ← f x; ys ← for_each f l'; Ok (y :: ys)
  end.

Definition sorted {A} (key : A -> result string) (l : list A)
  : result (list A) :=
  keyed ← for_each (fun x => k ← key x; Ok (k, x)) l;
  Ok (map snd (sort_keyed keyed)).

(** Thread a state through a loop body that may raise. *)
Fixpoint for_loop {S A} (body : S -> A -> result S) (s : S) (l : list A)
  : result S :=
  match l with
  | [] => Ok s
  | x :: l' => s' ← body s x; for_loop body s' l'
  end.

(** ** The "Advanced" tab: the form builder *)

Module AdvancedTab.
Record t := { l : QFormLayout; widgets : list AnyWidget }.

(** The widget classes the builder chooses from. *)
Inductive widget_class : Type := Choices | Bool | Int | Float | Text.

(** Options shown elsewhere in the panel, or not at all. *)
Definition skipped (name : string) : bool :=
  bool_decide (name ∈ ["auth"; "port"; "allow_socket_preallocation"; "userdb"]).

(** The [if opt.choices: ... elif isinstance(...)] chain. *)
Definition select (opt : Option.t) : widget_class :=
  if truthy_list (Option.choices opt) then Choices
  else if isinstance_bool (Option.default opt) then Bool
  else if isinstance_int (Option.default opt) then Int
  else if isinstance_float (Option.default opt) then Float
  else Text.

(** [w(name, l)] *)
Definition construct (w : widget_class) (options : registry) (name : string)
  (layout : QFormLayout) : result (AnyWidget * QFormLayout) :=
  match w with
  | Choices => '(x, l') ← Choices.init options name layout; Ok (WChoices x, l')
  | Bool => '(x, l') ← Bool.init options name layout; Ok (WBool x, l')
  | Int => '(x, l') ← Int.init options name layout; Ok (WInt x, l')
  | Float => '(x, l') ← Float.init options name layout; Ok (WFloat x, l')
  | Text => '(x, l') ← Text.init options name layout; Ok (WText x, l')
  end.

(** One turn of the loop of [__init__]. *)
Definition body (options : registry) (self : t) (name : string) : result t :=
  if skipped name then Ok self
  else
    opt ← getitem options name;
    '(w, l') ← construct (select opt) options name (l self);
    Ok {| l := l'; widgets := (widgets self ++ [w])%list |}.

(** The key the loop sorts the option names by. *)
Definition label_key (options : registry) (n : string) : result string :=
  opt ← getitem options n; Ok (lower (Option.shortdoc opt)).

Definition init (options : registry) : result t :=
  names ← sorted (label_key options) (keys options);
  for_loop (body options) {| l := []; widgets := [] |} names.

(** [opts] is what [server_config()] returns: the current value of every
    option, read by name ([AttributeError] when it is missing). *)
Definition genesis `{PyText} (opts : gmap string PyVal) (self : t) : result t :=
  ws ← for_each (fun w =>
          v ← or_raise AttributeError (opts !! widget_name w);
          widget_set v w) (widgets self);
  Ok {| l := l self; widgets := ws |}.

Definition restore_defaults `{PyText} (self : t) : result t :=
  ws ← for_each (fun w => widget_set (widget_default_val w) w) (widgets self);
  Ok {| l := l self; widgets := ws |}.

(** [{w.name: w.get() for w in self.widgets}] *)
Definition settings (self : t) : gmap string PyVal :=
  foldl (fun d w => <[widget_name w := widget_get w]> d) ∅ (widgets self).
End AdvancedTab.

(** ** The "Main" tab *)

(** The server object of the main window, as far as the panel reads it. *)
Record Server := { is_running : bool; exception : option string }.

(** [get_gui()]: [content_server] is [None] while no server exists. *)
Record Gui := { content_server : option Server }.

(** A Python value handed to a Qt [bool] or [int] parameter: integers
    (and so booleans) are taken, anything else is a [TypeError]. *)
Definition to_qt_bool (v : PyVal) : result bool :=
  match v with
  | PyBool b => Ok b
  | PyInt z => Ok (negb (z =? 0))
  | _ => Raise TypeError
  end.

Definition to_qt_int (v : PyVal) : result Z :=
  match v with
  | PyBool b => Ok (Z.b2z b)
  | PyInt z => to_c_int z
  | _ => Raise TypeError
  end.

Module MainTab.
Record t := {
  opt_port : QSpinBox.t;
  opt_auth : QCheckBox.t;
  auth_desc : string;
  opt_autolaunch_server : QCheckBox.t;
  start_server_button : bool;    (* enabled? *)
  stop_server_button : bool;
  test_server_button : bool }.

Definition init : t :=
  {| opt_port := QSpinBox.setRange 1 65535 QSpinBox.new;
     opt_auth := QCheckBox.new;
     auth_desc := "";
     opt_autolaunch_server := QCheckBox.new;
     start_server_button := true;
     stop_server_button := true;
     test_server_button := true |}.

Definition change_auth_desc (self : t) : t :=
  {| opt_port := opt_port self; opt_auth := opt_auth self;
     auth_desc :=
       if QCheckBox.isChecked (opt_auth self)
       then "Remember to create some user accounts in the "
            ++ dquote ++ "Users" ++ dquote ++ " tab"
       else "Requiring a username/password prevents unauthorized people from"
            ++ " accessing your calibre library. It is also needed for some features"
            ++ " such as making any changes to the library as well as"
            ++ " last read position/annotation syncing.";
     opt_autolaunch_server := opt_autolaunch_server self;
     start_server_button := start_server_button self;
     stop_server_button := stop_server_button self;
     test_server_button := test_server_button self |}.

Definition update_button_state (gui : Gui) (self : t) : t :=
  let running :=
    match content_server gui with
    | Some srv => is_running srv
    | None => false
    end in
  {| opt_port := opt_port self; opt_auth := opt_auth self;
     auth_desc := auth_desc self;
     opt_autolaunch_server := opt_autolaunch_server self;
     start_server_button := negb running;
     stop_server_button := running;
     test_server_button := running |}.

Definition genesis (opts : gmap string PyVal) (gui : Gui) (self : t) : result t :=
  a ← or_raise AttributeError (opts !! "auth");
  b ← to_qt_bool a;
  p ← or_raise AttributeError (opts !! "port");
  n ← to_qt_int p;
  let self1 :=
    {| opt_port := QSpinBox.setValue n (opt_port self);
       opt_auth := QCheckBox.setChecked b (opt_auth self);
       auth_desc := auth_desc self;
       opt_autolaunch_server := opt_autolaunch_server self;
       start_server_button := start_server_button self;
       stop_server_button := stop_server_button self;
       test_server_button := test_server_button self |} in
  Ok (update_button_state gui (change_auth_desc self1)).

(** [{'auth': ..., 'port': ...}] *)
Definition settings (self : t) : gmap string PyVal :=
  <["port" := PyInt (QSpinBox.value (opt_port self))]>
    (<["auth" := PyBool (QCheckBox.isChecked (opt_auth self))]> ∅).
End MainTab.

(** ** The user-account editor *)

Module QListWidget.
(** The texts of the items, top to bottom, and the current row (-1 when
    there is none). *)
Record t := { items : list string; currentRow : Z }.

Definition new : t := {| items := []; currentRow := -1 |}.

Definition count (w : t) : Z := Z.of_nat (length (items w)).

Definition valid (i : Z) (w : t) : bool := (0 <=? i) && (i <? count w).

(** The text of the current item, [None] when there is none. *)
Definition currentItem (w : t) : option string :=
  if valid (currentRow w) w then items w !! Z.to_nat (currentRow w) else None.

Definition addItems (l : list string) (w : t) : t :=
  {| items := (items w ++ l)%list; currentRow := currentRow w |}.

Definition setCurrentRow (i : Z) (w : t) : t :=
  {| items := items w; currentRow := if valid i w then i else -1 |}.

(** The row is forced into 0..count; a current item at or below it
    moves down with its row. *)
Definition insertItem (row : Z) (x : string) (w : t) : t :=
  let r := if row <? 0 then 0 else if count w <? row then count w else row in
  {| items := (take (Z.to_nat r) (items w) ++ x :: drop (Z.to_nat r) (items w))%list;
     currentRow :=
       if valid (currentRow w) w && (r <=? currentRow w)
       then currentRow w + 1 else currentRow w |}.

(** Removing the current item makes the item after it current, or the
    one before it when it was the last, or none when it was the only
    one. *)
Definition takeItem (row : Z) (w : t) : t :=
  if valid row w then
    {| items := delete (Z.to_nat row) (items w);
       currentRow :=
         let c := currentRow w in
         if c =? row then
           if count w <=? 1 then -1
           else if row + 1 <? count w then row else row - 1
         else if row <? c then c - 1 else c |}
  else w.
End QListWidget.

(** Calls that leave the module, in the order they are made. *)
Inductive event (R : Type) : Type :=
  | error_dialog (title msg : string)
  | warning_dialog (title msg : string)
  | changed_signal
  | ConfigWidgetBase_commit
  | change_settings (settings : gmap string PyVal)
  | set_user_data (users : gmap string R)
  | start_content_server
  | sleep.
Arguments error_dialog {R}.
Arguments warning_dialog {R}.
Arguments changed_signal {R}.
Arguments ConfigWidgetBase_commit {R}.
Arguments change_settings {R}.
Arguments set_user_data {R}.
Arguments start_content_server {R}.
Arguments sleep {R}.

(** [calibre.srv.users]: the two validators return an error text or
    nothing; [create_user_data] builds the record of a new user.  [R] is
    the type of user records. *)
Class SrvUsers (R : Type) := {
  validate_username : string -> option string;
  validate_password : string -> option string;
  create_user_data : string -> R;
}.

(** [calibre.utils.icu]: the collation key of a text, a byte string. *)
Class Icu := { primary_sort_key : string -> string }.

(** Truth value of what a validator returned. *)
Definition truthy_err (err : option string) : bool := truthy_text err.

Module NewUser.
(** The dialog in its "Add new user" form: the username field (and
    whether it is read-only, as it is when a password is changed) and
    the two password fields. *)
Record t := {
  uw : QLineEdit.t;
  uw_readOnly : bool;
  p1 : QLineEdit.t;
  p2 : QLineEdit.t }.

(** [NewUser(user_data, parent)] *)
Definition init : t :=
  {| uw := QLineEdit.new; uw_readOnly := false;
     p1 := QLineEdit.new; p2 := QLineEdit.new |}.

Definition username (self : t) : string := strip (QLineEdit.text (uw self)).
Definition password (self : t) : string := QLineEdit.text (p1 self).

(** What pressing OK leads to: the dialog closes as accepted, or an
    error dialog is shown and the dialog stays open. *)
Inductive outcome : Type :=
  | Accepted
  | Refused (title msg : string).

Section accept.
Context {R : Type} `{SrvUsers R}.

Definition check_username (user_data : gmap string R) (self : t)
  : option outcome :=
  if negb (uw_readOnly self) then
    let un := username self in
    if bool_decide (un = "") then
      Some (Refused "Empty username" "You must enter a username")
    else if bool_decide (un ∈ dom user_data) then
      Some (Refused "Username already exists"
              ("A user witht he username " ++ un
               ++ " already exists. Please choose a different username."))
    else
      let err := validate_username un in
      if truthy_err err then
        Some (Refused "Username is not valid" (default "" err))
      else None
  else None.

Definition accept (user_data : gmap string R) (self : t) : outcome :=
  match check_username user_data self with
  | Some refusal => refusal
  | None =>
      let p1 := password self in
      let p2 := QLineEdit.text (p2 self) in
      if negb (bool_decide (p1 = p2)) then
        Refused "Password do not match"
          "The two passwords you entered do not match!"
      else if bool_decide (p1 = "") then
        Refused "Empty password" "You must enter a password for this user"
      else
        let err := validate_password p1 in
        if truthy_err err then
          Refused "Invalid password" (default "" err)
        else Accepted
  end.

(** What the user does with the open dialog: fill in the three fields
    and press OK, or cancel. *)
Inductive action : Type :=
  | press_ok (username password repeat : string)
  | press_cancel.

(** Typing into the fields; a read-only username field keeps its
    text. *)
Definition fill (un pw1 pw2 : string) (self : t) : t :=
  {| uw := if uw_readOnly self then uw self
           else QLineEdit.setText un (uw self);
     uw_readOnly := uw_readOnly self;
     p1 := QLineEdit.setText pw1 (p1 self);
     p2 := QLineEdit.setText pw2 (p2 self) |}.

(** [d.exec_()]: the dialog runs until an OK is accepted or the user
    cancels (a dialog left alone is closed, which cancels too).
    Gives whether it was accepted, the dialog as it then is, and the
    error dialogs shown on the way. *)
Fixpoint exec_ (user_data : gmap string R) (script : list action)
  (self : t) : bool * t * list (event R) :=
  match script with
  | [] => (false, self, [])
  | press_cancel :: _ => (false, self, [])
  | press_ok un pw1 pw2 :: rest =>
      let d := fill un pw1 pw2 self in
      match accept user_data d with
      | Accepted => (true, d, [])
      | Refused title msg =>
          let '(r, d', evs) := exec_ user_data rest d in
          (r, d', error_dialog title msg :: evs)
      end
  end.
End accept.
End NewUser.

Module User.
(** The detail pane: the user shown, whether [user_data] refers to the
    editor's mapping (the same object, not a copy) or is [None], whether
    the "Change password" button is enabled, and the heading. *)
Record t := {
  username : option string;
  user_data : bool;
  cpb : bool;
  username_label : string }.

Definition show_user (username : option string) (user_data : bool) (self : t) : t :=
  {| username := username;
     user_data := user_data;
     cpb := bool_decide (username ≠ None);
     username_label :=
       match username with
       | Some u => if bool_decide (u = "") then "" else "<h2>" ++ u
       | None => ""
       end |}.

(** [__init__] ends with [self.show_user()]. *)
Definition init : t :=
  show_user None false
    {| username := None; user_data := false; cpb := true; username_label := "" |}.
End User.

Module Users.
Section users.
Context {R : Type} `{SrvUsers R} `{Icu}.

(** [user_data] is the working mapping (an attribute that [genesis]
    creates: nothing reads it before); [connected] tells whether the
    list's [currentItemChanged] signal is wired to
    [current_item_changed]. *)
Record t := {
  user_data : gmap string R;
  user_list : QListWidget.t;
  user_display : User.t;
  connected : bool }.

Definition init : t :=
  {| user_data := ∅; user_list := QListWidget.new;
     user_display := User.init; connected := false |}.

Definition display_user_data (username : option string) (self : t) : t :=
  {| user_data := user_data self; user_list := user_list self;
     user_display := User.show_user username true (user_display self);
     connected := connected self |}.

Definition current_item_changed (self : t) : t :=
  let item := QListWidget.currentItem (user_list self) in
  let username :=
    match item with
    | None => None
    | Some text => Some text
    end in
  let username :=
    match username with
    | Some u => if bool_decide (u ∈ dom (user_data self)) then Some u else None
    | None => None
    end in
  display_user_data username self.

(** The list widget becomes [lst]; [moved] tells whether that made
    another item (or none) the current one: if so, and if the signal
    is connected, the handler runs. *)
Definition with_user_list (moved : bool) (lst : QListWidget.t) (self : t) : t :=
  let self' :=
    {| user_data := user_data self; user_list := lst;
       user_display := user_display self; connected := connected self |} in
  if connected self && moved then current_item_changed self' else self'.

Definition addItems (l : list string) (self : t) : t :=
  with_user_list false (QListWidget.addItems l (user_list self)) self.

Definition setCurrentRow (i : Z) (self : t) : t :=
  let lst := QListWidget.setCurrentRow i (user_list self) in
  with_user_list
    (negb (QListWidget.currentRow lst =? QListWidget.currentRow (user_list self)))
    lst self.

Definition insertItem (row : Z) (x : string) (self : t) : t :=
  with_user_list false (QListWidget.insertItem row x (user_list self)) self.

Definition takeItem (row : Z) (self : t) : t :=
  with_user_list
    (QListWidget.valid row (user_list self)
     && (QListWidget.currentRow (user_list self) =? row))
    (QListWidget.takeItem row (user_list self)) self.

(** [stored] is what [UserManager().user_data] gives. *)
Definition genesis (stored : gmap string R) (self : t) : result t :=
  let self1 :=
    {| user_data := stored; user_list := user_list self;
       user_display := user_display self; connected := connected self |} in
  names ← sorted (fun u => Ok (primary_sort_key u)) (map fst (map_to_list stored));
  let self2 := addItems names self1 in
  let self3 := setCurrentRow 0 self2 in
  let self4 :=
    {| user_data := user_data self3; user_list := user_list self3;
       user_display := user_display self3; connected := true |} in
  Ok (current_item_changed self4).

(** [script] is what the user does with the dialog. *)
Definition add_user (script : list NewUser.action) (self : t)
  : t * list (event R) :=
  let '(accepted, d, evs) := NewUser.exec_ (user_data self) script NewUser.init in
  if accepted then
    let un := NewUser.username d in
    let pw := NewUser.password d in
    let self1 :=
      {| user_data := <[un := create_user_data pw]> (user_data self);
         user_list := user_list self;
         user_display := user_display self; connected := connected self |} in
    let self2 := insertItem 0 un self1 in
    let self3 := setCurrentRow 0 self2 in
    (display_user_data (Some un) self3, (evs ++ [changed_signal])%list)
  else (self, evs).

Definition remove_user (self : t) : t * list (event R) :=
  match QListWidget.currentItem (user_list self) with
  | Some un =>
      let self1 := takeItem (QListWidget.currentRow (user_list self)) self in
      let self2 :=
        {| user_data := delete un (user_data self1);
           user_list := user_list self1;
           user_display := user_display self1; connected := connected self1 |} in
      (current_item_changed self2, [changed_signal])
  | None => (self, [])
  end.
End users.
Arguments t : clear implicits.
End Users.

(** ** The panel *)

(** [d.update(e)]: the entries of [e] win. *)
Definition update {V} (d e : gmap string V) : gmap string V := e ∪ d.

Module ConfigWidget.
(** The pages of the tab widget, in the order they are added. *)
Inductive page : Type := main_page | users_page | advanced_page.

Section panel.
Context {R : Type} `{SrvUsers R} `{Icu} `{PyText}.

(** [tabs_widget] is the page shown; [log] holds the calls made to
    the outside so far, oldest first. *)
Record t := {
  tabs_widget : page;
  main_tab : MainTab.t;
  users_tab : Users.t R;
  advanced_tab : AdvancedTab.t;
  gui : Gui;
  busy_cursor : bool;
  log : list (event R) }.

Definition set_log (lg : list (event R)) (self : t) : t :=
  {| tabs_widget := tabs_widget self; main_tab := main_tab self;
     users_tab := users_tab self; advanced_tab := advanced_tab self;
     gui := gui self; busy_cursor := busy_cursor self; log := lg |}.

Definition emit (evs : list (event R)) (self : t) : t :=
  set_log (log self ++ evs)%list self.

Definition setCurrentWidget (p : page) (self : t) : t :=
  {| tabs_widget := p; main_tab := main_tab self;
     users_tab := users_tab self; advanced_tab := advanced_tab self;
     gui := gui self; busy_cursor := busy_cursor self; log := log self |}.

Definition set_cursor (busy : bool) (self : t) : t :=
  {| tabs_widget := tabs_widget self; main_tab := main_tab self;
     users_tab := users_tab self; advanced_tab := advanced_tab self;
     gui := gui self; busy_cursor := busy; log := log self |}.

Definition set_gui (g : Gui) (self : t) : t :=
  {| tabs_widget := tabs_widget self; main_tab := main_tab self;
     users_tab := users_tab self; advanced_tab := advanced_tab self;
     gui := g; busy_cursor := busy_cursor self; log := log self |}.

Definition set_main_tab (m : MainTab.t) (self : t) : t :=
  {| tabs_widget := tabs_widget self; main_tab := m;
     users_tab := users_tab self; advanced_tab := advanced_tab self;
     gui := gui self; busy_cursor := busy_cursor self; log := log self |}.

Definition init (options : registry) : result t :=
  a ← AdvancedTab.init options;
  Ok {| tabs_widget := main_page; main_tab := MainTab.init;
        users_tab := Users.init; advanced_tab := a;
        gui := {| content_server := None |};
        busy_cursor := false; log := [] |}.

Definition tabs : list page := [main_page; users_page; advanced_page].

(** [getattr(tab, 'settings', {})]: the user-accounts tab has no such
    attribute. *)
Definition tab_settings (self : t) (p : page) : gmap string PyVal :=
  match p with
  | main_page => MainTab.settings (main_tab self)
  | users_page => ∅
  | advanced_page => AdvancedTab.settings (advanced_tab self)
  end.

(** The settings snapshot: the loop at the head of [save_changes]. *)
Definition settings (self : t) : gmap string PyVal :=
  foldl (fun d p => update d (tab_settings self p)) ∅ tabs.

(** [g] is the main window, [opts] what [server_config()] returns and
    [stored] what the user manager holds. *)
Definition genesis (g : Gui) (opts : gmap string PyVal)
  (stored : gmap string R) (self : t) : result t :=
  m ← MainTab.genesis opts g (main_tab self);
  u ← Users.genesis stored (users_tab self);
  a ← AdvancedTab.genesis opts (advanced_tab self);
  Ok {| tabs_widget := tabs_widget self; main_tab := m; users_tab := u;
        advanced_tab := a; gui := g;
        busy_cursor := busy_cursor self; log := log self |}.

Definition no_users_msg : string :=
  "You have turned on the setting to require passwords to access"
  ++ " the content server, but you have not created any user accounts."
  ++ " Create at least one user account in the " ++ dquote
  ++ "User Accounts" ++ dquote ++ " tab to proceed.".

(** What the call returned or raised, and the panel as it then is. *)
Definition save_changes (self : t) : result bool * t :=
  let settings := settings self in
  let users := Users.user_data (users_tab self) in
  match settings !! "auth" with
  | None => (Raise KeyError, self)
  | Some auth =>
      if truthy auth then
        if bool_decide (users = ∅) then
          let self1 := emit [error_dialog "No users specified" no_users_msg] self in
          (Ok false, setCurrentWidget users_page self1)
        else
          (Ok true,
           emit [ConfigWidgetBase_commit; change_settings settings;
                 set_user_data users] self)
      else
        (Ok true,
         emit [ConfigWidgetBase_commit; change_settings settings;
               set_user_data users] self)
  end.

Definition commit (self : t) : result bool * t :=
  match save_changes self with
  | (Raise e, self1) => (Raise e, self1)
  | (Ok false, self1) => (Raise AbortCommit, self1)
  | (Ok true, self1) =>
      (Ok false,
       emit [warning_dialog "Restart needed"
               "You need to restart the server for changes to take effect"]
         self1)
  end.

(** The polling loop of [start_server].  [obs k] is the server object
    as the [k]-th look at it finds it; the loop sleeps until the
    server runs or has failed, and gives the number of the look that
    ended it.  [None]: the fuel ran out first. *)
Fixpoint wait_started (fuel : nat) (obs : nat -> Server) (k : nat)
  : option nat :=
  match fuel with
  | O => None
  | S fuel' =>
      if negb (is_running (obs k)) && bool_decide (exception (obs k) = None)
      then wait_started fuel' obs (S k)
      else Some k
  end.

Definition start_server (fuel : nat) (obs : nat -> Server) (self : t)
  : option (result unit * t) :=
  match save_changes self with
  | (Raise e, self1) => Some (Raise e, self1)
  | (Ok false, self1) => Some (Ok tt, self1)
  | (Ok true, self1) =>
      let self2 := set_cursor true self1 in
      let self3 := emit [start_content_server] self2 in
      k ← wait_started fuel obs 0;
      let self4 :=
        set_gui {| content_server := Some (obs k) |}
          (emit (replicate k sleep) self3) in
      match exception (obs k) with
      | Some e =>
          Some (Ok tt,
                set_cursor false
                  (emit [error_dialog "Failed to start content server" e] self4))
      | None =>
          Some (Ok tt,
                set_cursor false
                  (set_main_tab
                     (MainTab.update_button_state (gui self4) (main_tab self4))
                     self4))
      end
  end.
End panel.
Arguments t : clear implicits.
End ConfigWidget.

(** ** Changing a password *)

(** A user record is a dictionary of which the module reads and writes
    the entry ['pw'] only: [record_pw r] is [r['pw']], and
    [record_set_pw p r] is [r] after [r['pw'] = p]. *)
Class UserRecord (R : Type) := {
  record_pw : R -> string;
  record_set_pw : string -> R -> R;
}.

(** [NewUser(user_data, parent, username)] for a username that is not
    [None]: for a non-empty one the username field shows it and is
    read-only, and both password fields show the stored password
    ([KeyError] when the mapping has no such user); for the empty text
    the dialog is the "Add new user" one. *)
Definition NewUser_init_for {R} `{UserRecord R} (user_data : gmap string R)
  (username : string) : result NewUser.t :=
  if bool_decide (username = "") then Ok NewUser.init
  else
    r ← or_raise KeyError (user_data !! username);
    Ok {| NewUser.uw := QLineEdit.setText username QLineEdit.new;
          NewUser.uw_readOnly := true;
          NewUser.p1 := QLineEdit.setText (record_pw r) QLineEdit.new;
          NewUser.p2 := QLineEdit.setText (record_pw r) QLineEdit.new |}.

(** [User.change_password] on the detail pane of the editor [self], when
    the pane shows [username] (the button is enabled only then).  The
    pane's [user_data] is the editor's mapping itself, so the new
    password appears there. *)
Definition User_change_password {R} `{SrvUsers R} `{UserRecord R}
  (username : string) (script : list NewUser.action) (self : Users.t R)
  : result (Users.t R * list (event R)) :=
  d ← NewUser_init_for (Users.user_data self) username;
  let '(accepted, d', evs) := NewUser.exec_ (Users.user_data self) script d in
  if accepted then
    r ← or_raise KeyError (Users.user_data self !! username);
    Ok ({| Users.user_data :=
             <[username := record_set_pw (NewUser.password d') r]>
               (Users.user_data self);
           Users.user_list := Users.user_list self;
           Users.user_display := Users.user_display self;
           Users.connected := Users.connected self |},
        (evs ++ [changed_signal])%list)
  else Ok (self, evs).

(** ** Restoring the defaults of the "Main" tab *)

(** [opt_auth.setChecked(b)] on a tab whose [genesis] has run, so that
    [stateChanged] is connected to [auth_changed]: when the state
    changes, [auth_changed] signals the change and rewrites the
    description under the check box. *)
Definition MainTab_setChecked_auth {R} (b : bool) (self : MainTab.t)
  : MainTab.t * list (event R) :=
  let self1 :=
    {| MainTab.opt_port := MainTab.opt_port self;
       MainTab.opt_auth := QCheckBox.setChecked b (MainTab.opt_auth self);
       MainTab.auth_desc := MainTab.auth_desc self;
       MainTab.opt_autolaunch_server := MainTab.opt_autolaunch_server self;
       MainTab.start_server_button := MainTab.start_server_button self;
       MainTab.stop_server_button := MainTab.stop_server_button self;
       MainTab.test_server_button := MainTab.test_server_button self |} in
  if bool_decide (b = QCheckBox.isChecked (MainTab.opt_auth self))
  then (self1, [])
  else (MainTab.change_auth_desc self1, [changed_signal]).

(** [opt_port.setValue(n)]: [valueChanged] is connected to the change
    signal since [__init__]. *)
Definition MainTab_setValue_port {R} (n : Z) (self : MainTab.t)
  : MainTab.t * list (event R) :=
  let self1 :=
    {| MainTab.opt_port := QSpinBox.setValue n (MainTab.opt_port self);
       MainTab.opt_auth := MainTab.opt_auth self;
       MainTab.auth_desc := MainTab.auth_desc self;
       MainTab.opt_autolaunch_server := MainTab.opt_autolaunch_server self;
       MainTab.start_server_button := MainTab.start_server_button self;
       MainTab.stop_server_button := MainTab.stop_server_button self;
       MainTab.test_server_button := MainTab.test_server_button self |} in
  (self1,
   if bool_decide (QSpinBox.value (MainTab.opt_port self1)
                   = QSpinBox.value (MainTab.opt_port self))
   then [] else [changed_signal]).

(** [MainTab.restore_defaults], on a tab whose [genesis] has run. *)
Definition MainTab_restore_defaults {R} (options : registry) (self : MainTab.t)
  : result (MainTab.t * list (event R)) :=
  a ← getitem options "auth";
  b ← to_qt_bool (Option.default a);
  let '(self1, evs1) := MainTab_setChecked_auth b self in
  p ← getitem options "port";
  n ← to_qt_int (Option.default p);
  let '(self2, evs2) := MainTab_setValue_port n self1 in
  Ok (self2, (evs1 ++ evs2)%list).

(** ** Stopping the server *)

(** Calls that [stop_server] and [check_exited] make to the outside, in
    the order they are made. *)
Inductive stop_call : Type :=
  | server_stop
  | singleShot (msec : Z)
  | stopping_msg_exec
  | stopping_msg_accept.

Module Stopping.
Section stopping.
Context {R : Type}.

(** The panel while it stops the server.  [stopping_msg] is [None] until
    the "Stopping" dialog is made, then tells whether the dialog is
    open. *)
Record t := {
  panel : ConfigWidget.t R;
  stopping_msg : option bool;
  calls : list stop_call }.

Definition of_panel (p : ConfigWidget.t R) : t :=
  {| panel := p; stopping_msg := None; calls := [] |}.

(** [check_exited], with the runs that its own timer starts.  [obs k] is
    the server object as the [k]-th run finds it.  A run that finds the
    server running starts the timer again; the first that does not drops
    the server, sets the buttons and closes the dialog.  [None]: the fuel
    ran out first. *)
Fixpoint check_exited (fuel : nat) (obs : nat -> Server) (k : nat) (self : t)
  : option t :=
  match fuel with
  | O => None
  | S fuel' =>
      if is_running (obs k)
      then check_exited fuel' obs (S k)
             {| panel := panel self; stopping_msg := stopping_msg self;
                calls := (calls self ++ [singleShot 20])%list |}
      else
        let p1 := ConfigWidget.set_gui {| content_server := None |} (panel self) in
        let p2 :=
          ConfigWidget.set_main_tab
            (MainTab.update_button_state (ConfigWidget.gui p1)
               (ConfigWidget.main_tab p1)) p1 in
        Some {| panel := p2; stopping_msg := Some false;
                calls := (calls self ++ [stopping_msg_accept])%list |}
  end.

(** [stop_server].  [self.server.stop()] is an [AttributeError] when the
    main window has no server.  The dialog's [exec_()] runs the event
    loop in which the timer fires; the result is the panel as it is when
    [check_exited] has closed the dialog, the user having left the
    dialog alone until then. *)
Definition stop_server (fuel : nat) (obs : nat -> Server) (self : t)
  : option (result unit * t) :=
  match content_server (ConfigWidget.gui (panel self)) with
  | None => Some (Raise AttributeError, self)
  | Some _ =>
      self' ← check_exited fuel obs 0
                {| panel := panel self; stopping_msg := Some true;
                   calls := (calls self
                             ++ [server_stop; singleShot 500; stopping_msg_exec])%list |};
      Some (Ok tt, self')
  end.
End stopping.
Arguments t : clear implicits.
End Stopping.

(** ** Testing the server *)

(** The text a spin box shows for its value, which depends on the
    locale. *)
Class SpinText := {
  text_of_int : Z -> string;
  text_of_double : Z -> Qc -> string;   (* decimals, value *)
}.

(** [tab.opt_<name>]: [__init__] stores each widget under that attribute
    as it appends it to [widgets], a later one replacing an earlier one
    of the same name. *)
Definition AdvancedTab_opt (name : string) (tab : AdvancedTab.t)
  : result AnyWidget :=
  or_raise AttributeError
    (foldl (fun a w => if bool_decide (widget_name w = name) then Some w else a)
       None (AdvancedTab.widgets tab)).

(** [w.text()]: a line edit gives its text, a check box its label (the
    boxes of the tab are made without one), a spin box the text it
    shows; a combo box has no such method. *)
Definition widget_text `{SpinText} (w : AnyWidget) : result string :=
  match w with
  | WChoices _ => Raise AttributeError
  | WBool _ => Ok ""
  | WInt c => Ok (text_of_int (QSpinBox.value (qt c)))
  | WFloat c =>
      Ok (text_of_double (QDoubleSpinBox.decimals (qt c))
            (QDoubleSpinBox.value (qt c)))
  | WText c => Ok (QLineEdit.text (qt c))
  end.

(** [test_server]: the URL handed to [open_url]. *)
Definition ConfigWidget_test_server `{SpinText} {R} (self : ConfigWidget.t R)
  : result string :=
  w ← AdvancedTab_opt "url_prefix" (ConfigWidget.advanced_tab self);
  t ← widget_text w;
  let prefix := strip t in
  Ok ("http://127.0.0.1:"
      ++ pretty (QSpinBox.value (MainTab.opt_port (ConfigWidget.main_tab self)))
      ++ prefix).

(** ** Vocabulary of the statements *)

(** The class a widget belongs to. *)
Definition widget_class_of (w : AnyWidget) : AdvancedTab.widget_class :=
  match w with
  | WChoices _ => AdvancedTab.Choices
  | WBool _ => AdvancedTab.Bool
  | WInt _ => AdvancedTab.Int
  | WFloat _ => AdvancedTab.Float
  | WText _ => AdvancedTab.Text
  end.

(** [w] is the widget of option [o]: it carries its name and default and
    is of the class the builder selects for it. *)
Definition widget_of (w : AnyWidget) (o : Option.t) : Prop :=
  widget_name w = Option.name o
  /\ widget_default_val w = Option.default o
  /\ widget_class_of w = AdvancedTab.select o.

(** The options the tab shows: all but the four it skips. *)
Definition shown (o : Option.t) : Prop :=
  AdvancedTab.skipped (Option.name o) = false.

(** The row of the form that belongs to an option. *)
Definition row_of (o : Option.t) : string * string :=
  (Option.shortdoc o ++ ":", Option.name o).


(** Order of two keyed entries by their keys. *)
Definition key_le {A} (x y : string * A) : Prop :=
  String.leb (fst x) (fst y) = true.

(** The calls that persist something: the base-class commit (which
    stores the registered settings), the new server settings and the new
    user mapping. *)
Definition persists {R} (e : event R) : bool :=
  match e with
  | ConfigWidgetBase_commit | change_settings _ | set_user_data _ => true
  | _ => false
  end.

Definition persisted {R} (lg : list (event R)) : list (event R) :=
  List.filter persists lg.

(** The requests to start the server. *)
Definition requests_start {R} (e : event R) : bool :=
  match e with start_content_server => true | _ => false end.

Definition start_requests {R} (lg : list (event R)) : list (event R) :=
  List.filter requests_start lg.

(** What makes the "Add new user" dialog refuse an entry: the username
    (as the field holds it, stripped) is empty, is already in the working
    mapping, or is refused by the username validator; or the two password
    fields differ, the password is empty, or the password validator
    refuses it. *)
Definition bad_entry {R} `{SrvUsers R} (user_data : gmap string R)
  (d : NewUser.t) : Prop :=
  NewUser.username d = ""
  \/ NewUser.username d ∈ dom user_data
  \/ truthy_err (validate_username (NewUser.username d)) = true
  \/ NewUser.password d <> QLineEdit.text (NewUser.p2 d)
  \/ NewUser.password d = ""
  \/ truthy_err (validate_password (NewUser.password d)) = true.

(** Collation order of two usernames. *)
Definition collation_le `{Icu} (a b : string) : Prop :=
  String.leb (primary_sort_key a) (primary_sort_key b) = true.

(** The state a widget of option [o] is in once built, and ever after:
    it is the widget of [o], with the range, precision, length limit or
    entries its constructor gave it. *)
Definition built_for (w : AnyWidget) (o : Option.t) : Prop :=
  widget_of w o
  /\ match w with
     | WChoices c =>
         exists c0 cs,
           Option.choices o = Some (c0 :: cs)
           /\ Choices.choices (qt c) = c0 :: cs
           /\ QComboBox.items (Choices.combo (qt c)) = c0 :: cs
     | WBool _ => True
     | WInt c =>
         QSpinBox.minimum (qt c) = 0 /\ QSpinBox.maximum (qt c) = 10000
     | WFloat c =>
         QDoubleSpinBox.minimum (qt c) = Q2Qc (inject_Z 0)
         /\ QDoubleSpinBox.maximum (qt c) = Q2Qc (inject_Z 10000)
         /\ QDoubleSpinBox.decimals (qt c) = 1
     | WText c => QLineEdit.maxLength (qt c) = 32767
     end.

(** The values the widget of option [o] gives back unchanged: by the
    class of the widget, a listed choice; a boolean; an integer within
    0..10000; a float within 0..10000 with at most one decimal, that is,
    the float nearest to a whole number of tenths; [None] or a trimmed,
    non-empty text of at most 32767 characters. *)
Definition kept_by (o : Option.t) (v : PyVal) : Prop :=
  match AdvancedTab.select o with
  | AdvancedTab.Choices =>
      exists s cs, v = PyStr s /\ Option.choices o = Some cs /\ s ∈ cs
  | AdvancedTab.Bool => exists b, v = PyBool b
  | AdvancedTab.Int => exists z, v = PyInt z /\ 0 <= z <= 10000
  | AdvancedTab.Float =>
      exists k : Z, 0 <= k <= 100000 /\ v = PyFloat (Double.nearest (k # 10))
  | AdvancedTab.Text =>
      v = PyNone
      \/ exists s, v = PyStr s /\ strip s = s /\ s <> ""
                   /\ Z.of_nat (String.length s) <= 32767
  end.

(** The editor is consistent: the list shows each username of the
    working mapping once and nothing else, the detail pane shows the
    selected user, the "Change password" button is enabled exactly when a
    user is shown, and the selection signal is connected. *)
Definition editor_ok {R} (self : Users.t R) : Prop :=
  NoDup (QListWidget.items (Users.user_list self))
  /\ (forall u, u ∈ QListWidget.items (Users.user_list self)
                <-> u ∈ dom (Users.user_data self))
  /\ User.username (Users.user_display self)
     = QListWidget.currentItem (Users.user_list self)
  /\ User.cpb (Users.user_display self)
     = bool_decide (User.username (Users.user_display self) <> None)
  /\ Users.connected self = true.

(** The "Main" tab is consistent: the port box ranges over 1..65535 and
    the description under the check box is the one for the box's state. *)
Definition main_tab_ok (self : MainTab.t) : Prop :=
  QSpinBox.minimum (MainTab.opt_port self) = 1
  /\ QSpinBox.maximum (MainTab.opt_port self) = 65535
  /\ MainTab.auth_desc self = MainTab.auth_desc (MainTab.change_auth_desc self).

(** The "Advanced" tab holds, for the options of the registry that are
    shown, one widget each in the state its constructor and [set] keep. *)
Definition advanced_built (options : registry) (tab : AdvancedTab.t) : Prop :=
  exists os,
    os ≡ₚ filter shown options
    /\ Forall2 built_for (AdvancedTab.widgets tab) os.

(** ** Collaborators for closed examples *)

(** An interpreter in which no text reads as a number and floats print as
    the empty text.  The closed examples below never convert between text
    and numbers, so they hold for every other interpreter as well. *)
Definition no_numerals : PyText :=
  {| int_of_text := fun _ => None;
     float_of_text := fun _ => None;
     text_of_float := fun _ => "" |}.

(** A user manager whose records are the passwords themselves; it takes
    usernames made of ASCII letters, digits, spaces and underscores, and
    passwords made of ASCII characters. *)
Definition name_char (c : ascii) : bool :=
  let n := N_of_ascii c in
  ((48 <=? n) && (n <=? 57) || (65 <=? n) && (n <=? 90)
   || (97 <=? n) && (n <=? 122) || (n =? 32) || (n =? 95))%N.

Fixpoint all_chars (p : ascii -> bool) (s : string) : bool :=
  match s with
  | String c s' => p c && all_chars p s'
  | EmptyString => true
  end.

Definition plain_users : SrvUsers string :=
  {| validate_username := fun un =>
       if all_chars name_char un then None
       else Some "Use only letters, digits, spaces and underscores";
     validate_password := fun pw =>
       if all_chars (fun c => (N_of_ascii c <? 128)%N) pw then None
       else Some "The password must contain only ASCII characters";
     create_user_data := fun pw => pw |}.

(** Records that are the passwords themselves. *)
Definition plain_records : UserRecord string :=
  {| record_pw := fun r => r; record_set_pw := fun p _ => p |}.

(** A collation that ignores case and otherwise follows the code
    points. *)
Definition caseless_icu : Icu := {| primary_sort_key := lower |}.

(** A small registry: three options of the "Advanced" tab, the two that
    the main tab shows, and one with a choice list. *)
Definition compress_min_size_opt : Option.t :=
  {| Option.name := "compress_min_size";
     Option.default := PyInt 0;
     Option.longdoc := None;
     Option.shortdoc := "Minimum size for which responses use data compression";
     Option.choices := None |}.

Definition url_prefix_opt : Option.t :=
  {| Option.name := "url_prefix";
     Option.default := PyStr "";
     Option.longdoc := Some "Useful if you wish to run this server behind a reverse proxy.";
     Option.shortdoc := "A prefix to prepend to all URLs";
     Option.choices := None |}.

Definition timeout_opt : Option.t :=
  {| Option.name := "timeout";
     Option.default := PyFloat (Q2Qc (inject_Z 120));
     Option.longdoc := None;
     Option.shortdoc := "Time (in seconds) after which an idle connection is closed";
     Option.choices := None |}.

Definition auth_opt : Option.t :=
  {| Option.name := "auth";
     Option.default := PyBool false;
     Option.longdoc := None;
     Option.shortdoc := "Password based authentication to access the server";
     Option.choices := None |}.

Definition port_opt : Option.t :=
  {| Option.name := "port";
     Option.default := PyInt 8080;
     Option.longdoc := None;
     Option.shortdoc := "The port on which to listen for connections";
     Option.choices := None |}.

Definition book_list_mode_opt : Option.t :=
  {| Option.name := "book_list_mode";
     Option.default := PyStr "cover_grid";
     Option.longdoc := None;
     Option.shortdoc := "Choose the default book list mode";
     Option.choices := Some ["cover_grid"; "details_list"] |}.

Definition sample_options : registry :=
  [auth_opt; book_list_mode_opt; compress_min_size_opt; port_opt; timeout_opt; url_prefix_opt].

(** The same registry with [url_prefix] unset by default, as calibre
    has it, and a stored configuration for it. *)
Definition url_prefix_unset_opt : Option.t :=
  {| Option.name := "url_prefix";
     Option.default := PyNone;
     Option.longdoc := Some "Useful if you wish to run this server behind a reverse proxy.";
     Option.shortdoc := "A prefix to prepend to all URLs";
     Option.choices := None |}.

Definition calibre_options : registry :=
  [auth_opt; book_list_mode_opt; compress_min_size_opt; port_opt; timeout_opt;
   url_prefix_unset_opt].

Definition stored_config : gmap string PyVal :=
  <["auth" := PyBool true]>
    (<["port" := PyInt 8080]>
       (<["book_list_mode" := PyStr "details_list"]>
          (<["compress_min_size" := PyInt 1024]>
             (<["timeout" := PyFloat (Double.nearest (903 # 10))]>
                (<["url_prefix" := PyStr "/calibre"]> ∅))))).

(** An editor showing its one user, "alice". *)
Definition alice_editor : Users.t string :=
  {| Users.user_data := {["alice" := "secret"]};
     Users.user_list := {| QListWidget.items := ["alice"]; QListWidget.currentRow := 0 |};
     Users.user_display := User.show_user (Some "alice") true User.init;
     Users.connected := true |}.

(** A server that is found running at the third look, and one that is
    found failed at the second. *)
Definition slow_server (k : nat) : Server :=
  {| is_running := (2 <=? k)%nat; exception := None |}.

Definition failing_server (k : nat) : Server :=
  {| is_running := false;
     exception := if (1 <=? k)%nat then Some "Address already in use" else None |}.

(** Three option widgets: a line edit holding a padded text, and the
    spin boxes as their constructors leave them. *)
Definition padded_text_box : Text.t :=
  @Text.set no_numerals (PyStr "  /calibre ")
    (mkWidget "url_prefix" PyNone None QLineEdit.new).

Definition fresh_int_box : Int.t :=
  mkWidget "compress_min_size" (PyInt 0) None
    (QSpinBox.setRange 0 10000 QSpinBox.new).

Definition fresh_float_box : Float.t :=
  mkWidget "timeout" (PyFloat (Q2Qc (inject_Z 120))) None
    (QDoubleSpinBox.setDecimals 1
       (QDoubleSpinBox.setRange (Q2Qc (inject_Z 0)) (Q2Qc (inject_Z 10000))
          QDoubleSpinBox.new)).

(** Spin boxes that show plain decimal digits, and no fraction. *)
Definition plain_spin_text : SpinText :=
  {| text_of_int := fun z => pretty z;
     text_of_double := fun _ q => pretty (Qc_truncate q) |}.

(** The "Main" tab as it opens on the stored configuration. *)
Definition opened_main_tab : MainTab.t :=
  match MainTab.genesis stored_config {| content_server := None |} MainTab.init with
  | Ok m => m
  | Raise _ => MainTab.init
  end.

(** A server that is found running twice and stopped at the third look. *)
Definition stopping_server (k : nat) : Server :=
  {| is_running := (k <? 2)%nat; exception := None |}.

(** A panel with the "require username/password" box ticked, the given
    working mapping of users and an empty "Advanced" tab. *)
Definition panel_with_auth (users : gmap string string) : ConfigWidget.t string :=
  {| ConfigWidget.tabs_widget := ConfigWidget.main_page;
     ConfigWidget.main_tab :=
       {| MainTab.opt_port := QSpinBox.setValue 8080 (MainTab.opt_port MainTab.init);
          MainTab.opt_auth := QCheckBox.setChecked true QCheckBox.new;
          MainTab.auth_desc := "";
          MainTab.opt_autolaunch_server := QCheckBox.new;
          MainTab.start_server_button := true;
          MainTab.stop_server_button := false;
          MainTab.test_server_button := false |};
     ConfigWidget.users_tab :=
       {| Users.user_data := users;
          Users.user_list := QListWidget.new;
          Users.user_display := User.init;
          Users.connected := true |};
     ConfigWidget.advanced_tab := {| AdvancedTab.l := []; AdvancedTab.widgets := [] |};
     ConfigWidget.gui := {| content_server := None |};
     ConfigWidget.busy_cursor := false;
     ConfigWidget.log := [] |}.

(** Defaults that a freshly built widget gives back after [set]: any
    boolean and [None]; an integer within 0..10000; a float within
    0..10000 with at most one decimal, that is, the float nearest to a
    whole number of tenths (0.1, 0.3, 120.0); a text of at most 32767
    characters that is not empty and has no white space at either end. *)
Definition keeps_default (v : PyVal) : Prop :=
  match v with
  | PyNone => True
  | PyBool _ => True
  | PyInt z => 0 <= z <= 10000
  | PyFloat q => exists k : Z, 0 <= k <= 100000 /\ q = Double.nearest (k # 10)
  | PyStr s => strip s = s /\ s <> "" /\ Z.of_nat (String.length s) <= 32767
  end.

(** * Properties *)

(** ** Registry lookups *)

Lemma getitem_name (options : registry) (n : string) (opt : Option.t) :
  getitem options n = Ok opt -> Option.name opt = n.
Proof.
  induction options as [|o rest IH]; simpl; [discriminate|].
  case_bool_decide; [intros [= <-]; assumption | exact IH].
Qed.

Lemma getitem_elem (options : registry) (n : string) (opt : Option.t) :
  getitem options n = Ok opt -> opt ∈ options.
Proof.
  induction options as [|o rest IH]; simpl; [discriminate|].
  case_bool_decide; [intros [= <-]; left | intros; right; auto].
Qed.

Lemma getitem_NoDup (options : registry) (opt : Option.t) :
  NoDup (keys options) -> opt ∈ options ->
  getitem options (Option.name opt) = Ok opt.
Proof.
  induction options as [|o rest IH]; simpl; intros Hnd Hin.
  - inversion Hin.
  - apply NoDup_cons in Hnd as [Hnotin Hnd].
    case_bool_decide as Hn.
    + apply elem_of_cons in Hin as [->|Hin]; [reflexivity|].
      exfalso. apply Hnotin. rewrite Hn. unfold keys.
      apply list_elem_of_fmap. eauto.
    + apply elem_of_cons in Hin as [->|Hin]; [congruence|]. auto.
Qed.

(** ** Widget selection *)

Lemma Qc_eq_this (a b : Qc) : (this a == this b)%Q -> a = b.
Proof. apply Qc_is_canon. Qed.

(** C1.  The builder picks the widget class by the first test that
    succeeds: a non-empty choice list gives a [Choices] box; otherwise a
    default that is a boolean gives a [Bool] check box, an integer an
    [Int] spin box ranging over 0..10000, a float a [Float] spin box
    ranging over 0..10000 with one decimal, and anything else a [Text]
    line edit.  The widget carries the option's name and default. *)
Theorem widget_selection_first_match
  (options : registry) (n : string) (opt : Option.t) (layout : QFormLayout) :
  getitem options n = Ok opt ->
  exists w layout',
    AdvancedTab.construct (AdvancedTab.select opt) options n layout = Ok (w, layout')
    /\ widget_name w = Option.name opt
    /\ widget_default_val w = Option.default opt
    /\ match Option.choices opt with
       | Some (_ :: _) =>
           exists c, w = WChoices c /\ Option.choices opt = Some (Choices.choices (qt c))
       | _ =>
           match Option.default opt with
           | PyBool _ => exists c, w = WBool c
           | PyInt _ =>
               exists c, w = WInt c
                 /\ QSpinBox.minimum (qt c) = 0
                 /\ QSpinBox.maximum (qt c) = 10000
           | PyFloat _ =>
               exists c, w = WFloat c
                 /\ QDoubleSpinBox.minimum (qt c) = Q2Qc (inject_Z 0)
                 /\ QDoubleSpinBox.maximum (qt c) = Q2Qc (inject_Z 10000)
                 /\ QDoubleSpinBox.decimals (qt c) = 1
           | _ => exists c, w = WText c
           end
       end.
Proof.
  intros Hget.
  unfold AdvancedTab.construct, AdvancedTab.select.
  destruct (Option.choices opt) as [[|c0 cs]|] eqn:Hch; simpl;
    try (destruct (Option.default opt) eqn:Hdef; simpl);
    unfold Choices.init, Bool.init, Int.init, Float.init, Text.init;
    rewrite Hget; simpl; try rewrite Hch; simpl;
    do 2 eexists; (split; [reflexivity|]); simpl;
    (split; [reflexivity|]); (split; [assumption || reflexivity|]);
    eexists; repeat split; try reflexivity;
    apply Qc_eq_this; vm_compute; reflexivity.
Qed.

(** ** Binary64 rounding *)

Lemma rne_div_error (x y : Z) :
  0 < y -> - y <= 2 * (Double.rne_div x y * y - x) <= y.
Proof.
  intros Hy. unfold Double.rne_div.
  pose proof (Z.div_mod x y ltac:(lia)) as Hdm.
  pose proof (Z.mod_pos_bound x y Hy) as Hr.
  destruct (Z.compare_spec (2 * (x mod y)) y) as [He|Hl|Hg];
    [destruct (Z.even (x / y))|..]; nia.
Qed.

Lemma rne_div_ge (c x y : Z) : 0 < y -> c * y <= x -> c <= Double.rne_div x y.
Proof.
  intros Hy Hc. assert (c <= x / y) by (apply Z.div_le_lower_bound; lia).
  unfold Double.rne_div. destruct (_ ?= _); [destruct (Z.even _)|..]; lia.
Qed.

(** Below [2 ^ 14] a float has its last place at [2 ^ -39] or lower. *)
Lemma ulp_exp_small (a b : Z) :
  0 < a -> 0 < b -> a < 2 ^ 14 * b -> -1074 <= Double.ulp_exp a b <= -39.
Proof.
  intros Ha Hb Hab. unfold Double.ulp_exp.
  pose proof (Z.log2_spec a Ha) as [Hla1 Hla2].
  pose proof (Z.log2_spec b Hb) as [Hlb1 Hlb2].
  pose proof (Z.log2_nonneg a) as Hla0. pose proof (Z.log2_nonneg b) as Hlb0.
  set (la := Z.log2 a) in *. set (lb := Z.log2 b) in *.
  assert (Hl : la - lb <= 14).
  { destruct (Z_le_gt_dec (la - lb) 14) as [|Hgt]; [assumption|exfalso].
    assert (H : 2 ^ (14 + Z.succ lb) <= 2 ^ la) by (apply Z.pow_le_mono_r; lia).
    rewrite Z.pow_add_r in H by lia. nia. }
  unfold Double.scaled.
  destruct (Z.leb_spec 0 (la - lb - 53)) as [Hnn|Hneg]; [lia|].
  destruct (Z.leb_spec (2 ^ 53 * b) (a * 2 ^ (- (la - lb - 53)))) as [Hc|Hc]; [|lia].
  assert (la - lb - 53 < -39); [|lia].
  destruct (Z_lt_le_dec (la - lb - 53) (-39)) as [|Hge]; [assumption|exfalso].
  assert (He : la - lb - 53 = -39) by lia. rewrite He in Hc.
  change (- -39) with 39 in Hc.
  assert (2 ^ 53 = 2 ^ 14 * 2 ^ 39) by reflexivity. nia.
Qed.

(** A float with its last place at a non-negative exponent has a full
    mantissa. *)
Lemma ulp_exp_normal (a b : Z) :
  0 < a -> 0 < b -> 0 <= Double.ulp_exp a b ->
  2 ^ 52 * (b * 2 ^ Double.ulp_exp a b) <= a.
Proof.
  intros Ha Hb. unfold Double.ulp_exp.
  pose proof (Z.log2_spec a Ha) as [Hla1 Hla2].
  pose proof (Z.log2_spec b Hb) as [Hlb1 Hlb2].
  pose proof (Z.log2_nonneg a) as Hla0. pose proof (Z.log2_nonneg b) as Hlb0.
  set (la := Z.log2 a) in *. set (lb := Z.log2 b) in *.
  set (e0 := la - lb - 53). unfold Double.scaled.
  destruct (Z.leb_spec 0 e0) as [Hnn|Hneg].
  - destruct (Z.leb_spec (2 ^ 53 * (b * 2 ^ e0)) a) as [Hc|Hc]; intros He.
    + rewrite Z.max_l by lia. rewrite Z.pow_add_r by lia.
      change (2 ^ 53) with (2 ^ 52 * 2) in Hc. change (2 ^ 1) with 2. lia.
    + rewrite Z.max_l by lia.
      assert (Hla : 2 ^ la = 2 ^ 52 * (2 ^ Z.succ lb * 2 ^ e0)).
      { rewrite <- !Z.pow_add_r by lia. f_equal. unfold e0. lia. }
      assert (0 < 2 ^ e0) by (apply Z.pow_pos_nonneg; lia). nia.
  - destruct (Z.leb_spec (2 ^ 53 * b) (a * 2 ^ (- e0))) as [Hc|Hc]; intros He.
    + assert (E : e0 = -1) by lia. rewrite E in *.
      change (Z.max (-1 + 1) (-1074)) with 0. change (- -1) with 1 in Hc.
      change (2 ^ 1) with 2 in Hc. change (2 ^ 0) with 1.
      change (2 ^ 53) with (2 ^ 52 * 2) in Hc. lia.
    + lia.
Qed.

(** The float nearest to a positive number below [2 ^ 14]: a multiple
    [m / P] of a power of two [1 / P] not above [2 ^ -39], half a unit
    away at most. *)
Lemma of_pos_small (a b : Z) :
  0 < a -> 0 < b -> a < 2 ^ 14 * b ->
  exists m P,
    2 ^ 39 <= P
    /\ Double.of_pos a b = Some (Qmake m (Z.to_pos P))
    /\ - b <= 2 * (m * b - a * P) <= b
    /\ 0 <= m.
Proof.
  intros Ha Hb Hab. pose proof (ulp_exp_small a b Ha Hb Hab) as He.
  unfold Double.of_pos. set (e := Double.ulp_exp a b) in *.
  unfold Double.scaled, Double.ldexp.
  destruct (Z.leb_spec 0 e) as [|_]; [lia|]. cbn [andb].
  exists (Double.rne_div (a * 2 ^ (- e)) b), (2 ^ (- e)).
  assert (HP : 2 ^ 39 <= 2 ^ (- e)) by (apply Z.pow_le_mono_r; lia).
  split; [exact HP|]. split; [reflexivity|]. split.
  - apply rne_div_error. exact Hb.
  - apply rne_div_ge; [exact Hb|]. nia.
Qed.

Lemma of_pos_nonneg (a b : Z) (x : Q) :
  0 < a -> 0 < b -> Double.of_pos a b = Some x -> (0 <= x)%Q.
Proof.
  intros Ha Hb. unfold Double.of_pos, Double.scaled, Double.ldexp.
  set (e := Double.ulp_exp a b).
  destruct (Z.leb_spec 0 e) as [He|He]; cbn [andb].
  - assert (0 < 2 ^ e) by (apply Z.pow_pos_nonneg; lia).
    destruct (2 ^ 1024 <=? _); [discriminate|]. intros [= <-].
    assert (0 <= Double.rne_div a (b * 2 ^ e)) by (apply rne_div_ge; nia).
    unfold Qle, inject_Z. simpl. nia.
  - assert (0 < 2 ^ (- e)) by (apply Z.pow_pos_nonneg; lia).
    intros [= <-].
    assert (0 <= Double.rne_div (a * 2 ^ (- e)) b) by (apply rne_div_ge; nia).
    unfold Qle. simpl. lia.
Qed.

Lemma of_pos_ge_10000 (a b : Z) (x : Q) :
  0 < a -> 0 < b -> 10000 * b <= a ->
  Double.of_pos a b = Some x -> (inject_Z 10000 <= x)%Q.
Proof.
  intros Ha Hb Hab. pose proof (ulp_exp_normal a b Ha Hb) as Hnorm.
  unfold Double.of_pos, Double.scaled, Double.ldexp.
  set (e := Double.ulp_exp a b) in *.
  destruct (Z.leb_spec 0 e) as [He|He]; cbn [andb].
  - assert (HP : 0 < 2 ^ e) by (apply Z.pow_pos_nonneg; lia).
    destruct (2 ^ 1024 <=? _); [discriminate|]. intros [= <-].
    unfold Qle, inject_Z. simpl. rewrite !Z.mul_1_r.
    destruct (Z_le_gt_dec e 4) as [Hle|Hgt].
    + assert (Hc : 2 ^ e * (10000 / 2 ^ e) = 10000).
      { assert (E : e = 0 \/ e = 1 \/ e = 2 \/ e = 3 \/ e = 4) by lia.
        destruct E as [->|[->|[->|[->| ->]]]]; reflexivity. }
      assert (10000 / 2 ^ e <= Double.rne_div a (b * 2 ^ e))
        by (apply rne_div_ge; nia).
      nia.
    + assert (2 ^ 52 <= Double.rne_div a (b * 2 ^ e))
        by (apply rne_div_ge; [nia|]; specialize (Hnorm He); lia).
      assert (2 ^ 5 <= 2 ^ e) by (apply Z.pow_le_mono_r; lia).
      change (2 ^ 52) with 4503599627370496 in *. change (2 ^ 5) with 32 in *. nia.
  - assert (HP : 0 < 2 ^ (- e)) by (apply Z.pow_pos_nonneg; lia).
    intros [= <-].
    assert (10000 * 2 ^ (- e) <= Double.rne_div (a * 2 ^ (- e)) b)
      by (apply rne_div_ge; nia).
    unfold Qle, inject_Z. simpl. rewrite Z2Pos.id by exact HP. lia.
Qed.

Lemma this_Q2Qc (q : Q) : (this (Q2Qc q) == q)%Q.
Proof. apply Qred_correct. Qed.

(** Rounding takes equal numbers to the same float. *)
Lemma nearest_compat (q q' : Q) :
  (q == q')%Q -> Double.nearest q = Double.nearest q'.
Proof.
  intros Heq. unfold Double.nearest, Double.of_Q.
  rewrite (Qred_complete _ _ Heq). reflexivity.
Qed.

Lemma nearest_nonpos (q : Q) : (q <= 0)%Q -> (this (Double.nearest q) <= 0)%Q.
Proof.
  intros Hq. rewrite <- (Qred_correct q) in Hq.
  unfold Double.nearest, Double.of_Q.
  destruct (Qred q) as [[|a|a] b]; cbn [Qnum Qden] in *.
  - rewrite this_Q2Qc. apply Qle_refl.
  - exfalso. unfold Qle in Hq. simpl in Hq. lia.
  - destruct (Double.of_pos (Z.pos a) (Z.pos b)) as [x|] eqn:Hx;
      cbn [fmap option_fmap option_map].
    + pose proof (of_pos_nonneg (Z.pos a) (Z.pos b) x ltac:(lia) ltac:(lia) Hx) as Hnn.
      rewrite this_Q2Qc. clear Hx Hq. destruct x as [xn xd].
      unfold Qle, Qopp in *. cbn [Qnum Qden] in *. lia.
    + change (Z.neg a <? 0) with true. cbv iota. vm_compute. discriminate.
Qed.

Lemma nearest_ge_10000 (q : Q) :
  (inject_Z 10000 <= q)%Q -> (inject_Z 10000 <= this (Double.nearest q))%Q.
Proof.
  intros Hq. rewrite <- (Qred_correct q) in Hq.
  unfold Double.nearest, Double.of_Q.
  destruct (Qred q) as [[|a|a] b]; cbn [Qnum Qden] in *;
    try (exfalso; unfold Qle in Hq; simpl in Hq; lia).
  destruct (Double.of_pos (Z.pos a) (Z.pos b)) as [x|] eqn:Hx;
    cbn [fmap option_fmap option_map].
  - rewrite this_Q2Qc. apply (of_pos_ge_10000 (Z.pos a) (Z.pos b)); try lia; [|exact Hx].
    unfold Qle in Hq. simpl in Hq. lia.
  - change (Z.pos a <? 0) with false. cbv iota. vm_compute. discriminate.
Qed.

(** The float nearest to [k / 10], for [k] within 0..100000: a multiple
    [m / P] of a power of two not above [2 ^ -39], less than a twentieth
    away from [k / 10]. *)
Lemma nearest_tenth (k : Z) :
  0 <= k <= 100000 ->
  exists m P,
    2 ^ 39 <= P
    /\ (this (Double.nearest (k # 10)) == Qmake m (Z.to_pos P))%Q
    /\ 0 <= m <= 10000 * P
    /\ -10 <= 20 * m - 2 * k * P <= 10.
Proof.
  intros Hk. unfold Double.nearest, Double.of_Q.
  pose proof (Qred_correct (k # 10)) as Hred. unfold Qeq in Hred.
  destruct (Qred (k # 10)) as [[|a|a] b]; cbn [Qnum Qden] in *.
  - assert (k = 0) by nia. subst k.
    exists 0, (2 ^ 39). split; [lia|]. split; [|lia].
    rewrite this_Q2Qc. reflexivity.
  - destruct (of_pos_small (Z.pos a) (Z.pos b)) as (m & P & HP & Hof & Herr & Hm);
      [lia|lia|change (2 ^ 14) with 16384; nia|].
    rewrite Hof. cbn [fmap option_fmap option_map].
    exists m, P. split; [exact HP|]. split; [apply this_Q2Qc|].
    change (2 ^ 39) with 549755813888 in HP. nia.
  - exfalso. lia.
Qed.

Lemma tenth_range (k : Z) :
  0 <= k <= 100000 ->
  (0 <= this (Double.nearest (k # 10)))%Q
  /\ (this (Double.nearest (k # 10)) <= inject_Z 10000)%Q.
Proof.
  intros Hk. destruct (nearest_tenth k Hk) as (m & P & HP & Heq & Hm & _).
  change (2 ^ 39) with 549755813888 in HP.
  rewrite Heq. unfold Qle, inject_Z. simpl. rewrite Z2Pos.id by lia. lia.
Qed.

(** Written with one decimal, the float nearest to [k / 10] is the
    numeral of [k / 10]. *)
Lemma decimal_tenth (k : Z) :
  0 <= k <= 100000 ->
  (QDoubleSpinBox.decimal 1 (Double.nearest (k # 10)) == k # 10)%Q.
Proof.
  intros Hk. destruct (tenth_range k Hk) as [Hlo _].
  destruct (nearest_tenth k Hk) as (m & P & HP & Heq & Hm & Herr).
  change (2 ^ 39) with 549755813888 in HP.
  unfold QDoubleSpinBox.decimal.
  apply Qle_bool_iff in Hlo. rewrite Hlo.
  assert (Hfloor : Qfloor (this (Double.nearest (k # 10)) * inject_Z (10 ^ 1)
                           + (1 # 2))%Q = k).
  { rewrite Heq. unfold Qfloor, Qmult, Qplus, inject_Z. simpl.
    rewrite !Pos2Z.inj_mul, Z2Pos.id by lia. change (10 ^ 1) with 10.
    symmetry. apply (Z.div_unique_pos _ _ _ (20 * m + P - 2 * k * P)); lia. }
  rewrite Hfloor. unfold Qdiv, Qinv, Qmult, Qeq, inject_Z. simpl. lia.
Qed.

(** ** Reading back what was set *)

Lemma round1_tenth (k : Z) :
  0 <= k <= 100000 ->
  QDoubleSpinBox.round 1 (Double.nearest (k # 10)) = Double.nearest (k # 10).
Proof.
  intros Hk. unfold QDoubleSpinBox.round.
  apply nearest_compat, decimal_tenth, Hk.
Qed.

Lemma QDoubleSpinBox_bound_inside (mn mx q : Qc) :
  (this mn <= this q)%Q -> (this q <= this mx)%Q ->
  QDoubleSpinBox.bound mn mx q = q.
Proof.
  intros H1 H2. unfold QDoubleSpinBox.bound, QDoubleSpinBox.Qc_ltb.
  apply Qle_bool_iff in H1, H2. rewrite H1, H2. reflexivity.
Qed.

Lemma QSpinBox_bound_inside (mn mx v : Z) :
  mn <= v <= mx -> QSpinBox.bound mn mx v = v.
Proof.
  intros [H1 H2]. unfold QSpinBox.bound.
  destruct (Z.ltb_spec v mn); [lia|]. destruct (Z.ltb_spec mx v); [lia|].
  reflexivity.
Qed.

Lemma to_c_int_small (z : Z) : - 2 ^ 31 <= z < 2 ^ 31 -> to_c_int z = Ok z.
Proof.
  intros Hz. unfold to_c_int.
  destruct (Z.leb_spec (- 2 ^ 63) z); [|lia].
  destruct (Z.ltb_spec z (2 ^ 63)); [|lia]. simpl.
  rewrite Z.mod_small by lia. f_equal. lia.
Qed.

Lemma QLineEdit_left_all (s : string) (n : Z) :
  Z.of_nat (String.length s) <= n -> QLineEdit.left n s = s.
Proof.
  revert n. induction s as [|c s IH]; intros n Hn; simpl in *; [reflexivity|].
  destruct (Z.leb_spec n 0); [lia|]. rewrite IH by lia. reflexivity.
Qed.

(** A fresh line edit that is set to a trimmed, non-empty text of
    admissible length gives that text back. *)
Lemma Text_get_set_text `{PyText} (w : Text.t) (s : string) :
  QLineEdit.maxLength (qt w) = 32767 ->
  strip s = s -> s <> "" -> Z.of_nat (String.length s) <= 32767 ->
  Text.get (Text.set (PyStr s) w) = PyStr s.
Proof.
  intros Hmax Hstrip Hne Hlen.
  unfold Text.get, Text.set, py_or, QLineEdit.setText. simpl.
  rewrite (bool_decide_eq_false_2 (s = "")) by assumption. simpl.
  rewrite Hmax, QLineEdit_left_all, Hstrip by assumption.
  rewrite (bool_decide_eq_false_2 (s = "")) by assumption. reflexivity.
Qed.

(** An empty or blank text is read back as [None]. *)
Lemma Text_get_blank (w : Text.t) :
  strip (QLineEdit.text (qt w)) = "" -> Text.get w = PyNone.
Proof. intros Hs. unfold Text.get. rewrite Hs. reflexivity. Qed.

Lemma Float_fresh_range (q : Qc) (k : Z) :
  0 <= k <= 100000 -> q = Double.nearest (k # 10) ->
  QDoubleSpinBox.bound (Q2Qc (inject_Z 0)) (Q2Qc (inject_Z 10000))
    (QDoubleSpinBox.round 1 q) = q.
Proof.
  intros Hk ->. rewrite round1_tenth by lia.
  destruct (tenth_range k Hk) as [Hlo Hhi].
  apply QDoubleSpinBox_bound_inside; rewrite this_Q2Qc; assumption.
Qed.

(** The range a [Float] box is built with. *)
Lemma Float_init_qt :
  let sb := QDoubleSpinBox.setDecimals 1
              (QDoubleSpinBox.setRange (Q2Qc (inject_Z 0)) (Q2Qc (inject_Z 10000))
                 QDoubleSpinBox.new) in
  QDoubleSpinBox.minimum sb = Q2Qc (inject_Z 0)
  /\ QDoubleSpinBox.maximum sb = Q2Qc (inject_Z 10000)
  /\ QDoubleSpinBox.decimals sb = 1.
Proof. repeat split; try (apply Qc_eq_this; vm_compute; reflexivity). Qed.

(** C2, amended.  For an option without a choice list whose default is a
    boolean, [None], an integer within 0..10000, a float within 0..10000
    with at most one decimal (the binary64 number nearest to a whole
    number of tenths, such as 0.1 or 120.0), or a trimmed non-empty text
    of at most 32767 characters, [set(default)] on the widget the builder
    makes succeeds and [get()] then returns the default. *)
Theorem get_after_set_default `{PyText}
  (options : registry) (n : string) (opt : Option.t) (layout : QFormLayout) :
  getitem options n = Ok opt ->
  truthy_list (Option.choices opt) = false ->
  keeps_default (Option.default opt) ->
  exists w layout' w',
    AdvancedTab.construct (AdvancedTab.select opt) options n layout = Ok (w, layout')
    /\ widget_set (Option.default opt) w = Ok w'
    /\ widget_get w' = Option.default opt.
Proof.
  intros Hget Hch Hkeep.
  unfold AdvancedTab.construct, AdvancedTab.select. rewrite Hch.
  destruct (Option.default opt) as [|b|z|q|s] eqn:Hdef; simpl;
    unfold Bool.init, Int.init, Float.init, Text.init; rewrite Hget; simpl.
  - (* None: a line edit *)
    do 3 eexists. split; [reflexivity|]. split; [reflexivity|].
    rewrite Hdef. reflexivity.
  - (* a boolean: a check box *)
    do 3 eexists. split; [reflexivity|]. split; [reflexivity|].
    rewrite Hdef. reflexivity.
  - (* an integer: a spin box *)
    simpl in Hkeep.
    do 3 eexists. split; [reflexivity|].
    unfold widget_set, Int.set. simpl.
    rewrite to_c_int_small by lia. simpl. split; [reflexivity|].
    unfold Int.get, with_qt, QSpinBox.setValue. cbn [qt QSpinBox.value].
    rewrite QSpinBox_bound_inside, Hdef; [reflexivity|]. simpl. lia.
  - (* a float: a decimal spin box *)
    simpl in Hkeep. destruct Hkeep as (k & Hk & Hq).
    do 3 eexists. split; [reflexivity|]. split; [reflexivity|].
    unfold Float.get, QDoubleSpinBox.setValue. simpl qt.
    destruct Float_init_qt as (Hmin & Hmax & Hdec).
    cbv zeta in Hmin, Hmax, Hdec. cbn [QDoubleSpinBox.value].
    rewrite Hmin, Hmax, Hdec.
    rewrite (Float_fresh_range q k), Hdef by assumption. reflexivity.
  - (* a text: a line edit *)
    simpl in Hkeep. destruct Hkeep as (Hstrip & Hne & Hlen).
    do 3 eexists. split; [reflexivity|]. split; [reflexivity|].
    cbn [widget_get]. apply Text_get_set_text; auto.
Qed.

(** For every interpreter, a [Text] box set to the empty text reads back
    [None], not the empty text. *)
Lemma Text_empty_default_lost `{PyText} (w : Text.t) :
  Text.get (Text.set (PyStr "") w) = PyNone.
Proof.
  unfold Text.get, Text.set, py_or, QLineEdit.setText. simpl.
  destruct (QLineEdit.maxLength (qt w) <=? 0); reflexivity.
Qed.

(** ** The choice box *)

Lemma addItem_nonempty (w : QComboBox.t) (c : string) :
  QComboBox.items w <> [] ->
  QComboBox.addItem c w =
    {| QComboBox.items := (QComboBox.items w ++ [c])%list;
       QComboBox.currentIndex := QComboBox.currentIndex w |}.
Proof. unfold QComboBox.addItem. destruct (QComboBox.items w); [congruence|reflexivity]. Qed.

Lemma addItem_all_nonempty (cs : list string) (w : QComboBox.t) :
  QComboBox.items w <> [] ->
  foldl (fun w c => QComboBox.addItem c w) w cs =
    {| QComboBox.items := (QComboBox.items w ++ cs)%list;
       QComboBox.currentIndex := QComboBox.currentIndex w |}.
Proof.
  revert w. induction cs as [|c cs IH]; intros w Hne; simpl.
  - rewrite app_nil_r. destruct w; reflexivity.
  - rewrite IH, addItem_nonempty by (try rewrite addItem_nonempty by assumption;
      simpl; try assumption; destruct (QComboBox.items w); simpl; congruence).
    simpl. rewrite <- app_assoc. reflexivity.
Qed.

(** Filling a fresh box with a non-empty choice list leaves the first
    choice selected. *)
Lemma addItem_all_new (c0 : string) (cs : list string) :
  foldl (fun w c => QComboBox.addItem c w) QComboBox.new (c0 :: cs) =
    {| QComboBox.items := c0 :: cs; QComboBox.currentIndex := 0 |}.
Proof. simpl foldl at 1. rewrite addItem_all_nonempty; [reflexivity|]. discriminate. Qed.

Lemma find_from_spec (l : list string) (b : Z) (s : string) :
  s ∈ l ->
  b <= QComboBox.find_from b s l < b + Z.of_nat (length l)
  /\ nth (Z.to_nat (QComboBox.find_from b s l - b)) l "" = s.
Proof.
  revert b. induction l as [|x l IH]; intros b Hin.
  - inversion Hin.
  - simpl QComboBox.find_from. case_bool_decide as Hx.
    + split; [simpl length; lia|]. rewrite Z.sub_diag. exact Hx.
    + apply elem_of_cons in Hin as [->|Hin]; [congruence|].
      destruct (IH (b + 1) Hin) as [Hr Hn]. split; [simpl length; lia|].
      replace (Z.to_nat (QComboBox.find_from (b + 1) s l - b))
        with (S (Z.to_nat (QComboBox.find_from (b + 1) s l - (b + 1)))) by lia.
      exact Hn.
Qed.

(** The entries of the box and the [choices] attribute never change. *)
Lemma Choices_set_keeps (v : PyVal) (w : Choices.t) :
  Choices.choices (qt (Choices.set v w)) = Choices.choices (qt w)
  /\ QComboBox.items (Choices.combo (qt (Choices.set v w)))
     = QComboBox.items (Choices.combo (qt w)).
Proof.
  unfold Choices.set, QComboBox.setCurrentText, QComboBox.setCurrentIndex.
  destruct (Choices.contains v (Choices.choices (qt w))); [|split; reflexivity].
  destruct v; simpl; try (split; reflexivity).
  destruct (-1 <? _); split; reflexivity.
Qed.

Lemma Choices_sets_keep (vs : list PyVal) (w : Choices.t) :
  let w' := foldl (fun w v => Choices.set v w) w vs in
  Choices.choices (qt w') = Choices.choices (qt w)
  /\ QComboBox.items (Choices.combo (qt w')) = QComboBox.items (Choices.combo (qt w)).
Proof.
  revert w. induction vs as [|v vs IH]; intros w; simpl; [split; reflexivity|].
  destruct (IH (Choices.set v w)) as [H1 H2].
  destruct (Choices_set_keeps v w) as [H3 H4]. split; congruence.
Qed.

(** What [set] shows on a box whose entries are its non-empty choice
    list. *)
Lemma Choices_get_set (w : Choices.t) (c0 : string) (cs : list string) (v : PyVal) :
  Choices.choices (qt w) = c0 :: cs ->
  QComboBox.items (Choices.combo (qt w)) = c0 :: cs ->
  (Choices.contains v (c0 :: cs) = false ->
     Choices.get (Choices.set v w) = PyStr c0)
  /\ (forall s, v = PyStr s -> s ∈ c0 :: cs ->
        Choices.get (Choices.set v w) = PyStr s).
Proof.
  intros Hch Hit. split.
  - intros Hnot. unfold Choices.set. rewrite Hch, Hnot.
    unfold Choices.get, QComboBox.currentText, QComboBox.itemText,
      QComboBox.setCurrentIndex, QComboBox.valid, QComboBox.count. simpl.
    rewrite Hit. reflexivity.
  - intros s -> Hin. unfold Choices.set, Choices.contains. rewrite Hch.
    rewrite bool_decide_eq_true_2 by assumption.
    destruct (find_from_spec (c0 :: cs) 0 s Hin) as [Hr Hn].
    rewrite Z.sub_0_r in Hn.
    unfold Choices.get, QComboBox.currentText, QComboBox.setCurrentText,
      QComboBox.findText. simpl. rewrite Hit.
    destruct (Z.ltb_spec (-1) (QComboBox.find_from 0 s (c0 :: cs))); [|lia].
    unfold QComboBox.itemText, QComboBox.setCurrentIndex, QComboBox.valid,
      QComboBox.count. cbn [QComboBox.items QComboBox.currentIndex]. rewrite Hit.
    assert (Hv : (0 <=? QComboBox.find_from 0 s (c0 :: cs))
                 && (QComboBox.find_from 0 s (c0 :: cs) <? Z.of_nat (length (c0 :: cs)))
                 = true).
    { apply andb_true_intro. split; [apply Z.leb_le | apply Z.ltb_lt]; lia. }
    rewrite Hv. cbn [QComboBox.items QComboBox.currentIndex]. rewrite Hv.
    f_equal. exact Hn.
Qed.

(** C4.  On the choice box built for an option with a non-empty choice
    list, whatever was set before, [set(v)] never fails; with [v] outside
    the choice list the box then shows the first listed choice, and with
    [v] in the list it shows [v]. *)
Theorem Choices_set_unknown_falls_back
  (options : registry) (n : string) (layout : QFormLayout)
  (opt : Option.t) (c0 : string) (cs : list string) :
  getitem options n = Ok opt ->
  Option.choices opt = Some (c0 :: cs) ->
  exists w layout',
    Choices.init options n layout = Ok (w, layout')
    /\ forall (earlier : list PyVal) (v : PyVal),
         let w' := foldl (fun w v => Choices.set v w) w earlier in
         (Choices.contains v (c0 :: cs) = false ->
            Choices.get (Choices.set v w') = PyStr c0)
         /\ (forall s, v = PyStr s -> s ∈ c0 :: cs ->
               Choices.get (Choices.set v w') = PyStr s).
Proof.
  intros Hget Hch. unfold Choices.init. rewrite Hget. simpl. rewrite Hch. simpl.
  do 2 eexists. split; [reflexivity|]. intros earlier v.
  destruct (Choices_sets_keep earlier
              (fst (init_opt {| Choices.choices := c0 :: cs;
                                Choices.combo :=
                                  foldl (fun w c => QComboBox.addItem c w)
                                    QComboBox.new (c0 :: cs) |} opt layout)))
    as [H1 H2].
  apply Choices_get_set.
  - exact H1.
  - etransitivity; [exact H2|]. cbn [fst init_opt qt Choices.combo].
    rewrite addItem_all_new. reflexivity.
Qed.

(** ** Sorting *)

Lemma compare_refl (a : string) : String.compare a a = Eq.
Proof. apply String_as_OT.cmp_eq. reflexivity. Qed.

Lemma leb_cases (a b : string) :
  String.leb a b = true <-> a = b \/ String_as_OT.lt a b.
Proof.
  unfold String.leb. split.
  - destruct (String.compare a b) eqn:Hc; [| |discriminate]; intros _.
    + left. apply String_as_OT.cmp_eq. exact Hc.
    + right. apply String_as_OT.cmp_lt. exact Hc.
  - intros [->|Hlt].
    + rewrite compare_refl. reflexivity.
    + apply String_as_OT.cmp_lt in Hlt. unfold String_as_OT.cmp in Hlt.
      rewrite Hlt. reflexivity.
Qed.

Lemma leb_trans (a b c : string) :
  String.leb a b = true -> String.leb b c = true -> String.leb a c = true.
Proof.
  rewrite !leb_cases. intros [->|H1] [->|H2]; auto.
  right. eapply String_as_OT.lt_trans; eassumption.
Qed.

Lemma ltb_leb (a b : string) : String.ltb a b = true -> String.leb a b = true.
Proof. unfold String.ltb, String.leb. destruct (String.compare a b); auto; discriminate. Qed.

Lemma not_ltb_leb (a b : string) : String.ltb a b = false -> String.leb b a = true.
Proof.
  unfold String.ltb, String.leb. rewrite (String.compare_antisym b a).
  destruct (String.compare a b); simpl; auto; discriminate.
Qed.

Lemma insert_keyed_perm {A} (kx : string * A) (l : list (string * A)) :
  insert_keyed kx l ≡ₚ kx :: l.
Proof.
  induction l as [|ky l IH]; simpl; [reflexivity|].
  destruct (String.ltb ky.1 kx.1); [|reflexivity].
  rewrite IH. apply Permutation_swap.
Qed.

Lemma sort_keyed_perm {A} (l : list (string * A)) : sort_keyed l ≡ₚ l.
Proof.
  induction l as [|kx l IH]; simpl; [reflexivity|].
  rewrite insert_keyed_perm, IH. reflexivity.
Qed.

Lemma insert_keyed_sorted {A} (kx : string * A) (l : list (string * A)) :
  StronglySorted key_le l -> StronglySorted key_le (insert_keyed kx l).
Proof.
  induction 1 as [|ky l Hs IH Hall]; simpl.
  - repeat constructor.
  - destruct (String.ltb ky.1 kx.1) eqn:Hlt.
    + constructor; [exact IH|].
      rewrite insert_keyed_perm. constructor; [apply ltb_leb, Hlt | exact Hall].
    + apply not_ltb_leb in Hlt. constructor; [constructor; assumption|].
      constructor; [exact Hlt|].
      eapply Forall_impl; [exact Hall|]. intros z Hz. unfold key_le in *.
      eapply leb_trans; eassumption.
Qed.

Lemma sort_keyed_sorted {A} (l : list (string * A)) :
  StronglySorted key_le (sort_keyed l).
Proof.
  induction l as [|kx l IH]; simpl; [constructor|].
  apply insert_keyed_sorted, IH.
Qed.

(** Sorting commutes with a change of the payload. *)
Lemma insert_keyed_fmap {A B} (h : A -> B) (k : string) (x : A)
  (l : list (string * A)) :
  insert_keyed (k, h x) (prod_map id h <$> l)
  = prod_map id h <$> insert_keyed (k, x) l.
Proof.
  induction l as [|[k' y] l IH]; simpl; [reflexivity|].
  destruct (String.ltb k' k); simpl; [f_equal; exact IH | reflexivity].
Qed.

Lemma sort_keyed_fmap {A B} (key : A -> string) (h : A -> B) (l : list A) :
  sort_keyed ((fun x => (key x, h x)) <$> l)
  = prod_map id h <$> sort_keyed ((fun x => (key x, x)) <$> l).
Proof.
  induction l as [|x l IH]; [reflexivity|].
  change (insert_keyed (key x, h x) (sort_keyed ((fun x => (key x, h x)) <$> l))
          = prod_map id h <$> insert_keyed (key x, x)
                                (sort_keyed ((fun x => (key x, x)) <$> l))).
  rewrite IH. apply insert_keyed_fmap.
Qed.

(** The payloads of a sorted keyed list are in the order of their keys. *)
Lemma sort_keyed_snd_sorted {A} (key : A -> string) (l : list A) :
  StronglySorted (fun a b => String.leb (key a) (key b) = true)
    ((sort_keyed ((fun x => (key x, x)) <$> l)).*2).
Proof.
  assert (Hkeys : Forall (fun kx => kx.1 = key kx.2)
                    (sort_keyed ((fun x => (key x, x)) <$> l))).
  { rewrite sort_keyed_perm. apply Forall_fmap, Forall_forall. reflexivity. }
  pose proof (sort_keyed_sorted ((fun x => (key x, x)) <$> l)) as Hs.
  induction Hs as [|kx r Hs IH Hall]; simpl; [constructor|].
  apply Forall_cons in Hkeys as [Hk Hkeys]. constructor; [auto|].
  apply Forall_fmap. revert Hall Hkeys. rewrite !Forall_forall.
  intros Hall Hkeys ky Hin. unfold key_le in Hall. simpl.
  rewrite <- Hk, <- (Hkeys ky Hin). auto.
Qed.

Lemma sort_keyed_snd_perm {A} (key : A -> string) (l : list A) :
  (sort_keyed ((fun x => (key x, x)) <$> l)).*2 ≡ₚ l.
Proof.
  assert (E : ((fun x => (key x, x)) <$> l).*2 = l).
  { induction l as [|x l IH]; [reflexivity|]. simpl. f_equal. exact IH. }
  rewrite sort_keyed_perm, E. reflexivity.
Qed.

(** ** The form builder *)

Lemma map_fmap {A B} (f : A -> B) (l : list A) : map f l = f <$> l.
Proof. induction l as [|x l IH]; simpl; [|rewrite IH]; reflexivity. Qed.

Lemma for_each_fmap {A B C} (f : B -> result C) (h : A -> B) (g : A -> C)
  (l : list A) :
  (forall x, x ∈ l -> f (h x) = Ok (g x)) ->
  for_each f (h <$> l) = Ok (g <$> l).
Proof.
  induction l as [|x l IH]; intros Hf; [reflexivity|].
  change (for_each f (h <$> x :: l))
    with (y ← f (h x); ys ← for_each f (h <$> l); Ok (y :: ys)).
  rewrite Hf by left. rewrite IH; [reflexivity|].
  intros y Hy. apply Hf. right. exact Hy.
Qed.


Lemma body_skipped (options : registry) (o : Option.t) (acc : AdvancedTab.t) :
  ~ shown o -> AdvancedTab.body options acc (Option.name o) = Ok acc.
Proof.
  unfold shown, AdvancedTab.body. intros Hs.
  destruct (AdvancedTab.skipped (Option.name o)); [reflexivity|congruence].
Qed.




(** The names the builder goes through, for a registry with distinct
    names: those of its options, sorted by label. *)
Lemma sorted_names (options : registry) :
  NoDup (keys options) ->
  sorted (AdvancedTab.label_key options) (keys options)
  = Ok (Option.name <$>
          (sort_keyed ((fun o => (lower (Option.shortdoc o), o)) <$> options)).*2).
Proof.
  intros Hnd. unfold sorted, keys. rewrite map_fmap.
  rewrite (for_each_fmap _ Option.name
             (fun o => (lower (Option.shortdoc o), Option.name o))).
  - cbn [mbind result_bind]. f_equal. rewrite map_fmap.
    rewrite (sort_keyed_fmap (fun o => lower (Option.shortdoc o)) Option.name).
    rewrite <- !list_fmap_compose. reflexivity.
  - intros o Ho. unfold AdvancedTab.label_key.
    rewrite (getitem_NoDup options o Hnd Ho). reflexivity.
Qed.


(** ** Saving, committing and starting the server *)

Section panel_properties.
Context {R : Type}.
Implicit Types self : ConfigWidget.t R.

(** The snapshot always has an [auth] entry: the main tab provides one
    and later updates only add or replace entries. *)
Lemma settings_has_auth self :
  is_Some (ConfigWidget.settings self !! "auth").
Proof.
  unfold ConfigWidget.settings, ConfigWidget.tabs, update. simpl.
  apply lookup_union_is_Some. right.
  apply lookup_union_is_Some. right.
  apply lookup_union_is_Some. left.
  unfold MainTab.settings. rewrite lookup_insert_ne by discriminate.
  rewrite lookup_insert_eq. eauto.
Qed.

(** What a rejected save leaves behind. *)
Lemma save_changes_rejected self self1 :
  ConfigWidget.save_changes self = (Ok false, self1) ->
  self1 = ConfigWidget.setCurrentWidget ConfigWidget.users_page
            (ConfigWidget.emit
               [error_dialog "No users specified" ConfigWidget.no_users_msg] self)
  /\ Users.user_data (ConfigWidget.users_tab self) = ∅
  /\ exists auth, ConfigWidget.settings self !! "auth" = Some auth
                  /\ truthy auth = true.
Proof.
  unfold ConfigWidget.save_changes.
  destruct (ConfigWidget.settings self !! "auth") as [auth|] eqn:Hauth;
    [|discriminate].
  destruct (truthy auth) eqn:Ht; [|discriminate].
  case_bool_decide as Hu; [|discriminate].
  intros [= <-]. split; [reflexivity|]. split; [exact Hu|]. eauto.
Qed.

Lemma persisted_app (l1 l2 : list (event R)) :
  persisted (l1 ++ l2) = (persisted l1 ++ persisted l2)%list.
Proof. apply List.filter_app. Qed.

Lemma start_requests_app (l1 l2 : list (event R)) :
  start_requests (l1 ++ l2) = (start_requests l1 ++ start_requests l2)%list.
Proof. apply List.filter_app. Qed.

(** C3.  With [auth] true in the settings snapshot: when the user
    mapping is empty, [save_changes] returns [False] having only shown
    an error dialog, so nothing was persisted; when it holds at least
    one user, [save_changes] returns [True] having committed the base
    settings, the snapshot and the user mapping. *)
Theorem save_changes_needs_users_for_auth self (auth : PyVal) :
  ConfigWidget.settings self !! "auth" = Some auth ->
  truthy auth = true ->
  (Users.user_data (ConfigWidget.users_tab self) = ∅ ->
     exists self',
       ConfigWidget.save_changes self = (Ok false, self')
       /\ ConfigWidget.log self'
          = (ConfigWidget.log self
             ++ [error_dialog "No users specified" ConfigWidget.no_users_msg])%list
       /\ persisted (ConfigWidget.log self') = persisted (ConfigWidget.log self))
  /\ (Users.user_data (ConfigWidget.users_tab self) <> ∅ ->
        exists self',
          ConfigWidget.save_changes self = (Ok true, self')
          /\ ConfigWidget.log self'
             = (ConfigWidget.log self
                ++ [ConfigWidgetBase_commit;
                    change_settings (ConfigWidget.settings self);
                    set_user_data (Users.user_data (ConfigWidget.users_tab self))])%list).
Proof.
  intros Hauth Ht. unfold ConfigWidget.save_changes. rewrite Hauth, Ht. split.
  - intros Hu. rewrite bool_decide_eq_true_2 by assumption.
    eexists. split; [reflexivity|]. split; [reflexivity|].
    simpl. rewrite persisted_app. simpl. apply app_nil_r.
  - intros Hu. rewrite bool_decide_eq_false_2 by assumption.
    eexists. split; reflexivity.
Qed.

(** C7.  [commit] does what [save_changes] does and then: if that
    returned [True], shows the "Restart needed" warning and returns
    [False]; if it returned [False], raises [AbortCommit], and the log
    holds no more persisting call than before.  [save_changes] itself
    never raises. *)
Theorem commit_delegates_to_save_changes self :
  exists (saved : bool) self1,
    ConfigWidget.save_changes self = (Ok saved, self1)
    /\ if saved then
         ConfigWidget.commit self
         = (Ok false,
            ConfigWidget.emit
              [warning_dialog "Restart needed"
                 "You need to restart the server for changes to take effect"]
              self1)
       else
         ConfigWidget.commit self = (Raise AbortCommit, self1)
         /\ persisted (ConfigWidget.log self1) = persisted (ConfigWidget.log self).
Proof.
  destruct (settings_has_auth self) as [auth Hauth].
  destruct (ConfigWidget.save_changes self) as [[saved|e] self1] eqn:Hsave.
  - exists saved, self1. split; [reflexivity|].
    unfold ConfigWidget.commit. rewrite Hsave. destruct saved; [reflexivity|].
    split; [reflexivity|].
    apply save_changes_rejected in Hsave as (-> & _).
    simpl. rewrite persisted_app. simpl. apply app_nil_r.
  - unfold ConfigWidget.save_changes in Hsave. rewrite Hauth in Hsave.
    destruct (truthy auth); [case_bool_decide|]; discriminate.
Qed.

(** C8.  With [auth] true and no user, [start_server] stops at the
    rejected save: it returns having shown the error dialog and made
    the user-accounts page current, and no start request was issued,
    however the server would behave. *)
Theorem start_server_without_users self (auth : PyVal)
  (fuel : nat) (obs : nat -> Server) :
  ConfigWidget.settings self !! "auth" = Some auth ->
  truthy auth = true ->
  Users.user_data (ConfigWidget.users_tab self) = ∅ ->
  exists self',
    ConfigWidget.save_changes self = (Ok false, self')
    /\ ConfigWidget.start_server fuel obs self = Some (Ok tt, self')
    /\ start_requests (ConfigWidget.log self') = start_requests (ConfigWidget.log self)
    /\ ConfigWidget.tabs_widget self' = ConfigWidget.users_page
    /\ ConfigWidget.gui self' = ConfigWidget.gui self.
Proof.
  intros Hauth Ht Hu.
  assert (Hsave : ConfigWidget.save_changes self
                  = (Ok false,
                     ConfigWidget.setCurrentWidget ConfigWidget.users_page
                       (ConfigWidget.emit
                          [error_dialog "No users specified" ConfigWidget.no_users_msg]
                          self))).
  { unfold ConfigWidget.save_changes. rewrite Hauth, Ht.
    rewrite bool_decide_eq_true_2 by assumption. reflexivity. }
  eexists. split; [exact Hsave|].
  unfold ConfigWidget.start_server. rewrite Hsave.
  split; [reflexivity|]. split; [|split; reflexivity].
  simpl. rewrite start_requests_app. simpl. apply app_nil_r.
Qed.
End panel_properties.

(** ** The user-account editor *)

Section users_properties.
Context {R : Type} `{SrvUsers R} `{Icu}.
Implicit Types self : Users.t R.

Lemma check_username_bad (user_data : gmap string R) (d : NewUser.t) :
  NewUser.uw_readOnly d = false ->
  (NewUser.username d = ""
   \/ NewUser.username d ∈ dom user_data
   \/ truthy_err (validate_username (NewUser.username d)) = true)
  <-> exists title msg,
        NewUser.check_username user_data d = Some (NewUser.Refused title msg).
Proof.
  intros Hro. unfold NewUser.check_username. rewrite Hro. simpl.
  case_bool_decide as He; [split; [eauto | auto]|].
  case_bool_decide as Hin; [split; [eauto | auto]|].
  destruct (truthy_err (validate_username (NewUser.username d))) eqn:Hv.
  - split; [eauto | auto].
  - split; [intros [?|[?|?]]; [tauto|tauto|discriminate]|].
    intros (? & ? & ?). discriminate.
Qed.

Lemma check_username_cases (user_data : gmap string R) (d : NewUser.t) :
  NewUser.check_username user_data d = None
  \/ exists title msg,
       NewUser.check_username user_data d = Some (NewUser.Refused title msg).
Proof.
  unfold NewUser.check_username.
  destruct (negb (NewUser.uw_readOnly d)); [|auto].
  repeat (case_bool_decide; [right; eauto|]).
  destruct (truthy_err _); [right; eauto | auto].
Qed.

(** The dialog accepts an entry exactly when none of the six defects is
    present. *)
Lemma accept_iff (user_data : gmap string R) (d : NewUser.t) :
  NewUser.uw_readOnly d = false ->
  (bad_entry user_data d <->
     exists title msg, NewUser.accept user_data d = NewUser.Refused title msg)
  /\ (~ bad_entry user_data d <-> NewUser.accept user_data d = NewUser.Accepted).
Proof.
  intros Hro. pose proof (check_username_bad user_data d Hro) as Hname.
  unfold bad_entry, NewUser.accept.
  destruct (check_username_cases user_data d) as [Hnone|(t & m & Hsome)].
  - rewrite Hnone in *.
    assert (Hok : ~ (NewUser.username d = ""
                     \/ NewUser.username d ∈ dom user_data
                     \/ truthy_err (validate_username (NewUser.username d)) = true)).
    { intros Hb. apply Hname in Hb as (? & ? & ?). discriminate. }
    case_bool_decide as Hp; simpl.
    + case_bool_decide as He; simpl.
      * split; split; [eauto | tauto | tauto | discriminate].
      * destruct (truthy_err (validate_password (NewUser.password d))) eqn:Hv.
        -- split; split; [eauto | tauto | tauto | discriminate].
        -- split; split; [|intros (? & ? & ?); discriminate | reflexivity |].
           ++ intros [?|[?|[?|[?|[?|?]]]]]; (tauto || discriminate).
           ++ intros _ [?|[?|[?|[?|[?|?]]]]]; (tauto || discriminate).
    + split; split; [eauto | tauto | tauto | discriminate].
  - rewrite Hsome.
    assert (Hb : NewUser.username d = ""
                 \/ NewUser.username d ∈ dom user_data
                 \/ truthy_err (validate_username (NewUser.username d)) = true)
      by (apply Hname; eauto).
    split; split; [eauto | tauto | tauto | discriminate].
Qed.

(** The handler and the detail pane leave the mapping, the list and
    the wiring alone. *)
Lemma current_item_changed_frame self :
  Users.user_data (Users.current_item_changed self) = Users.user_data self
  /\ Users.user_list (Users.current_item_changed self) = Users.user_list self
  /\ Users.connected (Users.current_item_changed self) = Users.connected self.
Proof. repeat split. Qed.

Lemma with_user_list_data (moved : bool) (lst : QListWidget.t) self :
  Users.user_data (Users.with_user_list moved lst self) = Users.user_data self.
Proof.
  unfold Users.with_user_list.
  destruct (Users.connected self && moved); reflexivity.
Qed.

Lemma with_user_list_list (moved : bool) (lst : QListWidget.t) self :
  Users.user_list (Users.with_user_list moved lst self) = lst.
Proof.
  unfold Users.with_user_list.
  destruct (Users.connected self && moved); reflexivity.
Qed.

(** One refused entry, then nothing: the dialog is closed unaccepted. *)
Lemma exec_refused (user_data : gmap string R) (un pw1 pw2 title msg : string) :
  NewUser.accept user_data (NewUser.fill un pw1 pw2 NewUser.init)
  = NewUser.Refused title msg ->
  NewUser.exec_ user_data [NewUser.press_ok un pw1 pw2] NewUser.init
  = (false, NewUser.fill un pw1 pw2 NewUser.init, [error_dialog title msg]).
Proof. intros Hacc. simpl. rewrite Hacc. reflexivity. Qed.

Lemma exec_accepted (user_data : gmap string R) (un pw1 pw2 : string)
  (rest : list NewUser.action) :
  NewUser.accept user_data (NewUser.fill un pw1 pw2 NewUser.init)
  = NewUser.Accepted ->
  NewUser.exec_ user_data (NewUser.press_ok un pw1 pw2 :: rest) NewUser.init
  = (true, NewUser.fill un pw1 pw2 NewUser.init, []).
Proof. intros Hacc. simpl. rewrite Hacc. reflexivity. Qed.

(** A dialog that ends unaccepted has shown error dialogs only. *)
Lemma exec_events (user_data : gmap string R) (script : list NewUser.action)
  (d : NewUser.t) :
  Forall (fun e => exists title msg, e = error_dialog title msg)
    (NewUser.exec_ user_data script d).2.
Proof.
  revert d. induction script as [|[un pw1 pw2|] rest IH]; intros d; simpl;
    try constructor.
  destruct (NewUser.accept user_data _); [constructor|].
  specialize (IH (NewUser.fill un pw1 pw2 d)).
  destruct (NewUser.exec_ user_data rest _) as [[r d'] evs]. simpl in *.
  constructor; eauto.
Qed.

(** Inserting at the top and selecting the top row. *)
Lemma insert_select_top (x : string) (lst : QListWidget.t) :
  let lst' := QListWidget.setCurrentRow 0 (QListWidget.insertItem 0 x lst) in
  QListWidget.items lst' = x :: QListWidget.items lst
  /\ QListWidget.currentItem lst' = Some x.
Proof.
  unfold QListWidget.setCurrentRow, QListWidget.insertItem, QListWidget.currentItem,
    QListWidget.valid, QListWidget.count.
  cbn [QListWidget.items QListWidget.currentRow].
  destruct (Z.ltb_spec 0 0); [lia|].
  destruct (Z.ltb_spec (Z.of_nat (length (QListWidget.items lst))) 0); [lia|].
  change (Z.to_nat 0) with O. rewrite take_0, drop_0. simpl app.
  assert (Hv : (0 <=? 0) && (0 <? Z.of_nat (length (x :: QListWidget.items lst))) = true).
  { apply andb_true_intro. split; [reflexivity|]. apply Z.ltb_lt. simpl length. lia. }
  rewrite Hv. cbn [QListWidget.items QListWidget.currentRow]. rewrite Hv.
  split; reflexivity.
Qed.

(** What an accepted dialog makes of the editor. *)
Lemma add_user_accepted self (script : list NewUser.action) (d : NewUser.t)
  (evs : list (event R)) :
  NewUser.exec_ (Users.user_data self) script NewUser.init = (true, d, evs) ->
  exists self',
    Users.add_user script self = (self', (evs ++ [changed_signal])%list)
    /\ Users.user_data self'
       = <[NewUser.username d := create_user_data (NewUser.password d)]>
           (Users.user_data self)
    /\ QListWidget.items (Users.user_list self')
       = NewUser.username d :: QListWidget.items (Users.user_list self)
    /\ QListWidget.currentItem (Users.user_list self') = Some (NewUser.username d)
    /\ User.username (Users.user_display self') = Some (NewUser.username d)
    /\ User.cpb (Users.user_display self') = true.
Proof.
  intros Hexec. unfold Users.add_user. rewrite Hexec.
  eexists. split; [reflexivity|].
  unfold Users.display_user_data, Users.setCurrentRow, Users.insertItem.
  cbn [Users.user_data Users.user_list Users.user_display].
  rewrite !with_user_list_data, !with_user_list_list.
  cbn [Users.user_data Users.user_list].
  destruct (insert_select_top (NewUser.username d) (Users.user_list self))
    as [Hitems Hcur].
  split; [reflexivity|]. split; [exact Hitems|]. split; [exact Hcur|].
  split; reflexivity.
Qed.

Lemma add_user_unaccepted self (script : list NewUser.action) (d : NewUser.t)
  (evs : list (event R)) :
  NewUser.exec_ (Users.user_data self) script NewUser.init = (false, d, evs) ->
  Users.add_user script self = (self, evs)
  /\ Forall (fun e => exists title msg, e = error_dialog title msg) evs.
Proof.
  intros Hexec. unfold Users.add_user. rewrite Hexec. split; [reflexivity|].
  pose proof (exec_events (Users.user_data self) script NewUser.init) as Hev.
  rewrite Hexec in Hev. exact Hev.
Qed.

(** C6.  An entry in the "Add new user" dialog with an empty username,
    a username already in the working mapping, a username or password
    that its validator refuses, differing password fields or an empty
    password is answered by an error dialog; the dialog then being
    closed, the editor is exactly as before (no record added or
    changed, no change signalled).  An entry with none of these defects
    adds the record made by [create_user_data] under the username,
    puts the username on top of the list and selects it, shows it in
    the detail pane and signals the change. *)
Theorem add_user_validates self (un pw1 pw2 : string) :
  let d := NewUser.fill un pw1 pw2 NewUser.init in
  (bad_entry (Users.user_data self) d ->
     exists title msg,
       Users.add_user [NewUser.press_ok un pw1 pw2] self
       = (self, [error_dialog title msg]))
  /\ (~ bad_entry (Users.user_data self) d ->
        exists self',
          Users.add_user [NewUser.press_ok un pw1 pw2] self
          = (self', [changed_signal])
          /\ Users.user_data self'
             = <[NewUser.username d := create_user_data (NewUser.password d)]>
                 (Users.user_data self)
          /\ QListWidget.items (Users.user_list self')
             = NewUser.username d :: QListWidget.items (Users.user_list self)
          /\ QListWidget.currentItem (Users.user_list self')
             = Some (NewUser.username d)
          /\ User.username (Users.user_display self') = Some (NewUser.username d)
          /\ User.cpb (Users.user_display self') = true).
Proof.
  intros d.
  destruct (accept_iff (Users.user_data self) d eq_refl) as [Hbad Hgood].
  split.
  - intros Hb. apply Hbad in Hb as (title & msg & Hacc).
    exists title, msg.
    apply (add_user_unaccepted self _ d).
    apply exec_refused. exact Hacc.
  - intros Hg. apply Hgood in Hg.
    destruct (add_user_accepted self [NewUser.press_ok un pw1 pw2] d [])
      as (self' & Hadd & Hrest).
    { apply exec_accepted. exact Hg. }
    exists self'. split; [exact Hadd | exact Hrest].
Qed.

(** C10.  After the selection handler has run, the detail pane shows a
    username exactly when the list has a current item whose text is a
    key of the working mapping (that text is then the username shown);
    otherwise it shows none.  The "Change password" button is enabled
    exactly when a username is shown, hence only for usernames that are
    in the mapping.  The handler changes neither the mapping nor the
    list. *)
Theorem current_item_changed_normalizes self :
  let self' := Users.current_item_changed self in
  Users.user_data self' = Users.user_data self
  /\ Users.user_list self' = Users.user_list self
  /\ (forall u,
        User.username (Users.user_display self') = Some u
        <-> QListWidget.currentItem (Users.user_list self) = Some u
            /\ u ∈ dom (Users.user_data self))
  /\ (User.cpb (Users.user_display self') = true
      <-> exists u, User.username (Users.user_display self') = Some u
                    /\ u ∈ dom (Users.user_data self')).
Proof.
  intros self'. subst self'. unfold Users.current_item_changed.
  destruct (QListWidget.currentItem (Users.user_list self)) as [text|] eqn:Hcur.
  - case_bool_decide as Hin; simpl.
    + split; [reflexivity|]. split; [reflexivity|]. split.
      * intros u. split; [intros [= <-]; auto | intros [[= <-] _]; reflexivity].
      * split; [eauto | reflexivity].
    + split; [reflexivity|]. split; [reflexivity|]. split.
      * intros u. split; [discriminate | intros [[= <-] Hu]; contradiction].
      * split; [discriminate | intros (u & Hu & _); discriminate].
  - simpl. split; [reflexivity|]. split; [reflexivity|]. split.
    + intros u. split; [discriminate | intros [Hu _]; discriminate].
    + split; [discriminate | intros (u & Hu & _); discriminate].
Qed.

Lemma sorted_total {A} (key : A -> string) (l : list A) :
  sorted (fun x => Ok (key x)) l
  = Ok (sort_keyed ((fun x => (key x, x)) <$> l)).*2.
Proof.
  unfold sorted.
  assert (Hkeyed : for_each (fun x => k ← Ok (key x); Ok (k, x)) l
                   = Ok ((fun x => (key x, x)) <$> l)).
  { induction l as [|x l IH]; [reflexivity|].
    change (for_each (fun x => k ← Ok (key x); Ok (k, x)) (x :: l))
      with (ys ← for_each (fun x => k ← Ok (key x); Ok (k, x)) l;
            Ok ((key x, x) :: ys)).
    rewrite IH. reflexivity. }
  rewrite Hkeyed. cbn [mbind result_bind]. rewrite map_fmap. reflexivity.
Qed.

(** What [genesis] makes of a fresh editor. *)
Lemma genesis_fresh (stored : gmap string R) :
  exists self',
    Users.genesis stored Users.init = Ok self'
    /\ Users.user_data self' = stored
    /\ QListWidget.items (Users.user_list self')
       = (sort_keyed ((fun u => (primary_sort_key u, u))
                        <$> (map_to_list stored).*1)).*2.
Proof.
  unfold Users.genesis. rewrite map_fmap, sorted_total.
  cbn [mbind result_bind]. eexists. split; [reflexivity|].
  unfold Users.current_item_changed, Users.display_user_data,
    Users.setCurrentRow, Users.addItems.
  cbn [Users.user_data Users.user_list].
  rewrite !with_user_list_data, !with_user_list_list.
  split; reflexivity.
Qed.

(** C9, amended.  When the editor is opened, the list shows the
    usernames of the mapping in collation order.  An accepted "Add
    user" puts the new username on top of the list, wherever collation
    would place it. *)
Theorem user_list_order_at_genesis (stored : gmap string R) :
  (exists self',
     Users.genesis stored Users.init = Ok self'
     /\ Users.user_data self' = stored
     /\ QListWidget.items (Users.user_list self') ≡ₚ (map_to_list stored).*1
     /\ StronglySorted collation_le (QListWidget.items (Users.user_list self')))
  /\ (forall self (script : list NewUser.action) (d : NewUser.t)
             (evs : list (event R)),
        NewUser.exec_ (Users.user_data self) script NewUser.init = (true, d, evs) ->
        QListWidget.items (Users.user_list (Users.add_user script self).1)
        = NewUser.username d :: QListWidget.items (Users.user_list self)).
Proof.
  split.
  - destruct (genesis_fresh stored) as (self' & Hgen & Hdata & Hitems).
    exists self'. split; [exact Hgen|]. split; [exact Hdata|]. rewrite Hitems.
    split; [apply sort_keyed_snd_perm|].
    apply (sort_keyed_snd_sorted primary_sort_key).
  - intros self script d evs Hexec.
    destruct (add_user_accepted self script d evs Hexec)
      as (self' & Hadd & _ & Hitems & _).
    rewrite Hadd. exact Hitems.
Qed.
End users_properties.

(** ** Closed instances *)

(** The theorem on widget selection at the [timeout] option of the sample
    registry: a decimal box over 0..10000 with one decimal. *)
Lemma widget_selection_timeout :
  getitem sample_options "timeout" = Ok timeout_opt
  /\ exists w layout',
       AdvancedTab.construct (AdvancedTab.select timeout_opt) sample_options "timeout" []
       = Ok (w, layout')
       /\ exists c, w = WFloat c
            /\ QDoubleSpinBox.minimum (qt c) = Q2Qc (inject_Z 0)
            /\ QDoubleSpinBox.maximum (qt c) = Q2Qc (inject_Z 10000)
            /\ QDoubleSpinBox.decimals (qt c) = 1.
Proof.
  split; [reflexivity|].
  destruct (widget_selection_first_match sample_options "timeout" timeout_opt []
              eq_refl) as (w & layout' & Hc & _ & _ & Hshape).
  exists w, layout'. split; [exact Hc | exact Hshape].
Defined.

(** The round trip at the [timeout] option: 120.0 is read back. *)
Lemma get_after_set_timeout :
  getitem sample_options "timeout" = Ok timeout_opt
  /\ truthy_list (Option.choices timeout_opt) = false
  /\ keeps_default (Option.default timeout_opt)
  /\ exists w layout' w',
       AdvancedTab.construct (AdvancedTab.select timeout_opt) sample_options "timeout" []
       = Ok (w, layout')
       /\ @widget_set no_numerals (Option.default timeout_opt) w = Ok w'
       /\ widget_get w' = Option.default timeout_opt.
Proof.
  assert (Hkeep : keeps_default (Option.default timeout_opt)).
  { exists 1200. split; [lia|]. apply Qc_eq_this. reflexivity. }
  split; [reflexivity|]. split; [reflexivity|]. split; [exact Hkeep|].
  exact (@get_after_set_default no_numerals sample_options "timeout" timeout_opt []
           eq_refl eq_refl Hkeep).
Defined.

(** The float 0.1, which is not a tenth exactly, is among the defaults
    kept; a [Float] box set to it reads it back. *)
Lemma float_tenth_is_kept :
  this (Double.nearest (1 # 10)) = (3602879701896397 # 36028797018963968)%Q
  /\ keeps_default (PyFloat (Double.nearest (1 # 10)))
  /\ Float.get <$> @Float.set no_numerals (PyFloat (Double.nearest (1 # 10)))
                     fresh_float_box
     = Ok (PyFloat (Double.nearest (1 # 10))).
Proof.
  split; [vm_compute; reflexivity|]. split; [exists 1; split; [lia|reflexivity]|].
  vm_compute. reflexivity.
Qed.

(** [float()] of an integer rounds to the nearest float, ties to even,
    and overflows beyond the largest float. *)
Lemma py_float_of_large_integers :
  @py_float no_numerals (PyInt (2 ^ 53 + 1)) = Ok (Q2Qc (inject_Z (2 ^ 53)))
  /\ @py_float no_numerals (PyInt (2 ^ 53 + 3)) = Ok (Q2Qc (inject_Z (2 ^ 53 + 4)))
  /\ @py_float no_numerals (PyInt (10 ^ 400)) = Raise OverflowError.
Proof. repeat split; vm_compute; reflexivity. Qed.

(** C2 fails at the [url_prefix] option, whose default is the empty text:
    the line edit built for it, set to that default, reads back [None]. *)
Lemma empty_text_default_reads_back_None :
  exists w layout' w',
    truthy_list (Option.choices url_prefix_opt) = false
    /\ AdvancedTab.construct (AdvancedTab.select url_prefix_opt) sample_options
         "url_prefix" [] = Ok (w, layout')
    /\ @widget_set no_numerals (Option.default url_prefix_opt) w = Ok w'
    /\ widget_get w' = PyNone
    /\ widget_get w' <> Option.default url_prefix_opt.
Proof.
  do 3 eexists. split; [reflexivity|]. split; [reflexivity|].
  split; [reflexivity|]. split; [reflexivity|]. discriminate.
Qed.

(** An integer default above the fixed range is lost as well: a spin box
    set to 20000 reads back 10000. *)
Lemma large_int_default_is_clamped `{PyText} (w : Int.t) :
  QSpinBox.minimum (qt w) = 0 -> QSpinBox.maximum (qt w) = 10000 ->
  Int.get <$> Int.set (PyInt 20000) w = Ok (PyInt 10000).
Proof.
  intros Hmin Hmax. unfold Int.set, Int.get. simpl.
  unfold QSpinBox.setValue. simpl. rewrite Hmin, Hmax. reflexivity.
Qed.

(** The choice box of [book_list_mode]: an unknown value shows the first
    choice, a known one is selected. *)
Lemma Choices_set_book_list_mode :
  getitem sample_options "book_list_mode" = Ok book_list_mode_opt
  /\ Option.choices book_list_mode_opt = Some ["cover_grid"; "details_list"]
  /\ exists w layout',
       Choices.init sample_options "book_list_mode" [] = Ok (w, layout')
       /\ Choices.get (Choices.set (PyStr "mosaic") w) = PyStr "cover_grid"
       /\ Choices.get (Choices.set (PyStr "details_list") w) = PyStr "details_list".
Proof.
  split; [reflexivity|]. split; [reflexivity|].
  destruct (Choices_set_unknown_falls_back sample_options "book_list_mode" []
              book_list_mode_opt "cover_grid" ["details_list"] eq_refl eq_refl)
    as (w & layout' & Hinit & Hset).
  exists w, layout'. split; [exact Hinit|]. split.
  - apply (proj1 (Hset [] (PyStr "mosaic"))). reflexivity.
  - apply (proj2 (Hset [] (PyStr "details_list")) "details_list"); [reflexivity|].
    right. left.
Defined.


Lemma AdvancedTab_sample_widgets :
  (fun tab => (fun w => (widget_name w, widget_class_of w)) <$> AdvancedTab.widgets tab)
    <$> AdvancedTab.init sample_options
  = Ok [("url_prefix", AdvancedTab.Text);
        ("book_list_mode", AdvancedTab.Choices);
        ("compress_min_size", AdvancedTab.Int);
        ("timeout", AdvancedTab.Float)].
Proof. vm_compute. reflexivity. Qed.

(** Saving with authentication on and no user: refused, nothing
    persisted. *)
Lemma save_changes_without_users :
  ConfigWidget.settings (panel_with_auth ∅) !! "auth" = Some (PyBool true)
  /\ truthy (PyBool true) = true
  /\ exists self',
       ConfigWidget.save_changes (panel_with_auth ∅) = (Ok false, self')
       /\ ConfigWidget.log self'
          = [error_dialog "No users specified" ConfigWidget.no_users_msg]
       /\ persisted (ConfigWidget.log self') = [].
Proof.
  assert (Hauth : ConfigWidget.settings (panel_with_auth ∅) !! "auth"
                  = Some (PyBool true)) by (vm_compute; reflexivity).
  split; [exact Hauth|]. split; [reflexivity|].
  destruct (save_changes_needs_users_for_auth (panel_with_auth ∅) (PyBool true)
              Hauth eq_refl) as [Hrejected _].
  exact (Hrejected eq_refl).
Defined.

(** The same panel with one user: saved. *)
Lemma save_changes_with_one_user :
  exists self',
    ConfigWidget.save_changes (panel_with_auth {["alice" := "secret"]})
    = (Ok true, self')
    /\ persisted (ConfigWidget.log self')
       = [ConfigWidgetBase_commit;
          change_settings (ConfigWidget.settings (panel_with_auth {["alice" := "secret"]}));
          set_user_data {["alice" := "secret"]}].
Proof.
  eexists. split; [vm_compute; reflexivity|]. vm_compute. reflexivity.
Qed.

(** Starting the server from that panel, with a server that would come
    up at once: no start request, the user-accounts page is shown. *)
Lemma start_server_on_panel_without_users :
  ConfigWidget.settings (panel_with_auth ∅) !! "auth" = Some (PyBool true)
  /\ truthy (PyBool true) = true
  /\ Users.user_data (ConfigWidget.users_tab (panel_with_auth ∅)) = ∅
  /\ exists self',
       ConfigWidget.start_server 10
         (fun _ => {| is_running := true; exception := None |})
         (panel_with_auth ∅) = Some (Ok tt, self')
       /\ start_requests (ConfigWidget.log self') = []
       /\ ConfigWidget.tabs_widget self' = ConfigWidget.users_page.
Proof.
  assert (Hauth : ConfigWidget.settings (panel_with_auth ∅) !! "auth"
                  = Some (PyBool true)) by (vm_compute; reflexivity).
  split; [exact Hauth|]. split; [reflexivity|]. split; [reflexivity|].
  destruct (start_server_without_users (panel_with_auth ∅) (PyBool true) 10
              (fun _ => {| is_running := true; exception := None |})
              Hauth eq_refl eq_refl)
    as (self' & _ & Hstart & Hreq & Htab & _).
  exists self'. split; [exact Hstart|]. split; [exact Hreq | exact Htab].
Defined.

(** C9 fails once a user is added: with the mapping holding "alice", the
    list opens as [alice]; adding "bob" gives the list [bob; alice], which
    is not in collation order. *)
Lemma added_user_is_out_of_collation_order :
  exists (self0 self1 : Users.t string) (evs : list (event string)),
    @Users.genesis string caseless_icu {["alice" := "secret"]} Users.init = Ok self0
    /\ @Users.add_user string plain_users [NewUser.press_ok "bob" "pw" "pw"] self0
       = (self1, evs)
    /\ QListWidget.items (Users.user_list self0) = ["alice"]
    /\ QListWidget.items (Users.user_list self1) = ["bob"; "alice"]
    /\ ~ StronglySorted (@collation_le caseless_icu)
           (QListWidget.items (Users.user_list self1)).
Proof.
  do 3 eexists. split; [vm_compute; reflexivity|].
  split; [vm_compute; reflexivity|]. split; [reflexivity|].
  split; [reflexivity|].
  cbn [QListWidget.items Users.user_list]. intros Hsorted.
  apply StronglySorted_inv in Hsorted as [_ Hall].
  apply Forall_inv in Hall. vm_compute in Hall. discriminate.
Qed.

(** * Further properties of the option widgets *)

(** ** White space *)

Lemma lstrip_head (s : string) :
  lstrip s = "" \/ exists c t, lstrip s = String c t /\ isspace c = false.
Proof.
  induction s as [|c s IH]; simpl; [left; reflexivity|].
  destruct (isspace c) eqn:Hc; [exact IH|]. right. eauto.
Qed.

Lemma rstrip_idem (s : string) : rstrip (rstrip s) = rstrip s.
Proof.
  induction s as [|c s IH]; simpl; [reflexivity|].
  destruct (rstrip s) as [|d r] eqn:Hr.
  - destruct (isspace c) eqn:Hc; simpl; [reflexivity|]. rewrite Hc. reflexivity.
  - simpl in IH. simpl. destruct (rstrip r) as [|e r'] eqn:Hr'.
    + destruct (isspace d) eqn:Hd; [discriminate|]. injection IH as <-. reflexivity.
    + rewrite IH. reflexivity.
Qed.

Lemma rstrip_keeps_head (c : ascii) (t : string) :
  isspace c = false -> exists r, rstrip (String c t) = String c r.
Proof.
  intros Hc. simpl. destruct (rstrip t); [rewrite Hc|]; eauto.
Qed.

Lemma strip_idem (s : string) : strip (strip s) = strip s.
Proof.
  unfold strip. destruct (lstrip_head s) as [Hs|(c & t & Hs & Hc)]; rewrite Hs.
  - reflexivity.
  - destruct (rstrip_keeps_head c t Hc) as [r Hr]. rewrite Hr.
    simpl lstrip. rewrite Hc, <- Hr. apply rstrip_idem.
Qed.

Lemma lstrip_length (s : string) : (String.length (lstrip s) <= String.length s)%nat.
Proof.
  induction s as [|c s IH]; simpl; [lia|].
  destruct (isspace c); simpl; lia.
Qed.

Lemma rstrip_length (s : string) : (String.length (rstrip s) <= String.length s)%nat.
Proof.
  induction s as [|c s IH]; simpl; [lia|].
  destruct (rstrip s); [destruct (isspace c)|]; simpl in *; lia.
Qed.

Lemma strip_length (s : string) : (String.length (strip s) <= String.length s)%nat.
Proof.
  unfold strip. etransitivity; [apply rstrip_length | apply lstrip_length].
Qed.

Lemma QLineEdit_left_length (s : string) (n : Z) :
  0 <= n -> Z.of_nat (String.length (QLineEdit.left n s)) <= n.
Proof.
  revert n. induction s as [|c s IH]; intros n Hn; simpl; [lia|].
  destruct (Z.leb_spec n 0); simpl; [lia|].
  specialize (IH (n - 1)). lia.
Qed.

(** [Text.get] reads [None] when the stripped text is empty, and the
    stripped text otherwise. *)
Lemma Text_get_cases (w : Text.t) :
  Text.get w = PyNone
  \/ (Text.get w = PyStr (strip (QLineEdit.text (qt w)))
      /\ strip (QLineEdit.text (qt w)) <> "").
Proof.
  unfold Text.get, py_or. simpl.
  case_bool_decide as Hs; simpl; [left; reflexivity|].
  right. split; [reflexivity|exact Hs].
Qed.

(** X1.  What a [Text] box reads is [None] or a text that is not empty
    and has no white space at either end; it never reads an empty or a
    padded text. *)
Theorem Text_get_normal_form (w : Text.t) :
  Text.get w = PyNone
  \/ exists s, Text.get w = PyStr s /\ s <> "" /\ strip s = s.
Proof.
  destruct (Text_get_cases w) as [Hnone|[Hs Hne]]; [left; exact Hnone|].
  right. eexists. split; [exact Hs|]. split; [exact Hne | apply strip_idem].
Qed.

(** X2.  Setting a [Text] box to what it reads changes nothing in what
    it reads, as long as the box holds no more text than its length limit
    of 32767 allows (which every text put there by [setText] satisfies). *)
Theorem Text_set_get_fixpoint `{PyText} (w : Text.t) :
  QLineEdit.maxLength (qt w) = 32767 ->
  Z.of_nat (String.length (QLineEdit.text (qt w))) <= 32767 ->
  Text.get (Text.set (Text.get w) w) = Text.get w.
Proof.
  intros Hmax Hlen.
  destruct (Text_get_cases w) as [Hnone|[Hs Hne]].
  - rewrite Hnone. unfold Text.get, Text.set, py_or, QLineEdit.setText. simpl.
    destruct (QLineEdit.maxLength (qt w) <=? 0); reflexivity.
  - rewrite Hs. apply Text_get_set_text; try assumption; [apply strip_idem|].
    pose proof (strip_length (QLineEdit.text (qt w))). lia.
Qed.

(** ** The spin boxes *)

Lemma QSpinBox_bound_range (mn mx v : Z) :
  mn <= mx -> mn <= QSpinBox.bound mn mx v <= mx.
Proof.
  intros Hle. unfold QSpinBox.bound.
  destruct (Z.ltb_spec v mn); [lia|]. destruct (Z.ltb_spec mx v); lia.
Qed.

(** X3.  An [Int] box ranging over 0..10000 keeps that range under
    [set], reads an integer within it after every [set] that does not
    raise, and is left as it is when set to what it reads. *)
Theorem Int_set_stays_in_range `{PyText} (w w' : Int.t) (v : PyVal) :
  QSpinBox.minimum (qt w) = 0 ->
  QSpinBox.maximum (qt w) = 10000 ->
  Int.set v w = Ok w' ->
  QSpinBox.minimum (qt w') = 0
  /\ QSpinBox.maximum (qt w') = 10000
  /\ (exists z, Int.get w' = PyInt z /\ 0 <= z <= 10000)
  /\ Int.set (Int.get w') w' = Ok w'.
Proof.
  intros Hmin Hmax. unfold Int.set.
  destruct (py_int v) as [i|e]; [|discriminate]. simpl.
  destruct (to_c_int i) as [c|e]; [|discriminate]. simpl.
  intros [= <-]. unfold Int.get, with_qt, QSpinBox.setValue. simpl.
  rewrite Hmin, Hmax.
  pose proof (QSpinBox_bound_range 0 10000 c ltac:(lia)) as Hb.
  split; [reflexivity|]. split; [reflexivity|]. split; [eauto|].
  rewrite to_c_int_small by lia. simpl.
  rewrite QSpinBox_bound_inside by lia. reflexivity.
Qed.

Lemma round1_is_tenth (q : Qc) :
  exists m : Z, QDoubleSpinBox.round 1 q = Double.nearest (m # 10).
Proof.
  unfold QDoubleSpinBox.round, QDoubleSpinBox.decimal.
  destruct (Qle_bool 0 (this q)).
  - exists (Qfloor (this q * inject_Z (10 ^ 1) + (1 # 2))%Q).
    apply nearest_compat.
    unfold Qdiv, Qinv, Qmult, Qeq, inject_Z. simpl. lia.
  - exists (- Qfloor (- this q * inject_Z (10 ^ 1) + (1 # 2))%Q).
    apply nearest_compat.
    unfold Qdiv, Qinv, Qmult, Qopp, Qeq, inject_Z. simpl. lia.
Qed.

(** What a box ranging over 0..10000 with one decimal holds after
    [setValue]: the float nearest to a whole number of tenths within the
    range. *)
Lemma Float_value_tenths (q : Qc) :
  exists k : Z,
    0 <= k <= 100000
    /\ QDoubleSpinBox.bound (Q2Qc (inject_Z 0)) (Q2Qc (inject_Z 10000))
         (QDoubleSpinBox.round 1 q) = Double.nearest (k # 10).
Proof.
  destruct (round1_is_tenth q) as [m Hm]. rewrite Hm.
  assert (H0 : Q2Qc (inject_Z 0) = Double.nearest (0 # 10))
    by (apply Qc_eq_this; vm_compute; reflexivity).
  assert (H1 : Q2Qc (inject_Z 10000) = Double.nearest (100000 # 10))
    by (apply Qc_eq_this; vm_compute; reflexivity).
  unfold QDoubleSpinBox.bound, QDoubleSpinBox.Qc_ltb.
  destruct (Qle_bool (this (Q2Qc (inject_Z 0))) (this (Double.nearest (m # 10))))
    eqn:Hlo; cbn [negb]; [|exists 0; split; [lia|exact H0]].
  destruct (Qle_bool (this (Double.nearest (m # 10))) (this (Q2Qc (inject_Z 10000))))
    eqn:Hhi; cbn [negb]; [|exists 100000; split; [lia|exact H1]].
  apply Qle_bool_iff in Hlo, Hhi. rewrite this_Q2Qc in Hlo, Hhi.
  destruct (Z_lt_le_dec m 0) as [Hneg|Hnn];
    [|destruct (Z_le_gt_dec m 100000) as [Hle|Hgt]].
  - exists 0. split; [lia|]. rewrite <- H0. apply Qc_eq_this. rewrite this_Q2Qc.
    apply Qle_antisym; [|exact Hlo].
    apply nearest_nonpos. unfold Qle. simpl. lia.
  - exists m. split; [lia|reflexivity].
  - exists 100000. split; [lia|]. rewrite <- H1. apply Qc_eq_this. rewrite this_Q2Qc.
    apply Qle_antisym; [exact Hhi|].
    apply nearest_ge_10000. unfold Qle, inject_Z. simpl. lia.
Qed.

(** X4.  A [Float] box ranging over 0..10000 with one decimal reads,
    after every [set] that does not raise, the float nearest to a whole
    number of tenths within 0..10000 (after [set(0.25)], the float 0.3),
    and setting it to what it reads gives the same reading. *)
Theorem Float_set_stays_in_range `{PyText} (w w' : Float.t) (v : PyVal) :
  QDoubleSpinBox.minimum (qt w) = Q2Qc (inject_Z 0) ->
  QDoubleSpinBox.maximum (qt w) = Q2Qc (inject_Z 10000) ->
  QDoubleSpinBox.decimals (qt w) = 1 ->
  Float.set v w = Ok w' ->
  (exists k : Z,
     0 <= k <= 100000 /\ Float.get w' = PyFloat (Double.nearest (k # 10)))
  /\ Float.get <$> Float.set (Float.get w') w' = Ok (Float.get w').
Proof.
  intros Hmin Hmax Hdec. unfold Float.set.
  destruct (py_float v) as [f|e]; [|discriminate]. cbn [mbind result_bind].
  intros [= <-]. unfold Float.get, with_qt, QDoubleSpinBox.setValue.
  cbn [qt QDoubleSpinBox.value QDoubleSpinBox.minimum QDoubleSpinBox.maximum
       QDoubleSpinBox.decimals py_float mbind result_bind fmap result_fmap].
  rewrite Hmin, Hmax, Hdec.
  destruct (Float_value_tenths f) as (k & Hk & Hval). rewrite Hval.
  split; [eauto|]. rewrite (Float_fresh_range _ k) by (lia || reflexivity).
  reflexivity.
Qed.

(** ** The choice box *)

Lemma find_from_lower (l : list string) (b : Z) (s : string) :
  QComboBox.find_from b s l = -1 \/ b <= QComboBox.find_from b s l.
Proof.
  revert b. induction l as [|x l IH]; intros b; simpl; [left; reflexivity|].
  case_bool_decide; [right; lia|]. destruct (IH (b + 1)); [left|right]; lia.
Qed.

(** X5.  On the choice box built for an option with a non-empty choice
    list, after any sequence of [set] calls, [get] returns one of the
    listed choices. *)
Theorem Choices_get_is_a_choice
  (options : registry) (n : string) (layout : QFormLayout)
  (opt : Option.t) (c0 : string) (cs : list string) :
  getitem options n = Ok opt ->
  Option.choices opt = Some (c0 :: cs) ->
  exists w layout',
    Choices.init options n layout = Ok (w, layout')
    /\ forall (vals : list PyVal),
         exists s, Choices.get (foldl (fun w v => Choices.set v w) w vals) = PyStr s
                   /\ s ∈ c0 :: cs.
Proof.
  intros Hget Hch. unfold Choices.init. rewrite Hget. simpl. rewrite Hch. simpl.
  do 2 eexists. split; [reflexivity|]. intros vals.
  induction vals as [|v vals IH] using rev_ind.
  - exists c0. split; [|left]. unfold Choices.get. cbn [foldl qt Choices.combo].
    change (foldl (fun w c => QComboBox.addItem c w)
              (QComboBox.addItem c0 QComboBox.new) cs)
      with (foldl (fun w c => QComboBox.addItem c w) QComboBox.new (c0 :: cs)).
    rewrite addItem_all_new. reflexivity.
  - rewrite foldl_app. simpl foldl at 1.
    match goal with |- context [Choices.set v ?w0] => set (w' := w0) end.
    destruct (Choices_sets_keep vals
                (fst (init_opt {| Choices.choices := c0 :: cs;
                                  Choices.combo :=
                                    foldl (fun w c => QComboBox.addItem c w)
                                      QComboBox.new (c0 :: cs) |} opt layout)))
      as [H1 H2].
    assert (Hitems : QComboBox.items (Choices.combo (qt w')) = c0 :: cs).
    { etransitivity; [exact H2|]. cbn [fst init_opt qt Choices.combo].
      rewrite addItem_all_new. reflexivity. }
    destruct (Choices_get_set w' c0 cs v H1 Hitems) as [Hout Hin].
    destruct (Choices.contains v (c0 :: cs)) eqn:Hc.
    + destruct v as [| | | |s]; try discriminate. simpl in Hc.
      apply bool_decide_eq_true_1 in Hc. exists s. split; [|exact Hc].
      apply Hin; [reflexivity | exact Hc].
    + exists c0. split; [apply Hout; reflexivity | left].
Qed.

(** * Loading and saving the "Advanced" tab *)

Lemma construct_built (options : registry) (opt : Option.t) (layout : QFormLayout) :
  getitem options (Option.name opt) = Ok opt ->
  exists w,
    AdvancedTab.construct (AdvancedTab.select opt) options (Option.name opt) layout
    = Ok (w, (layout ++ [row_of opt])%list)
    /\ built_for w opt.
Proof.
  intros Hget. unfold AdvancedTab.construct.
  destruct (AdvancedTab.select opt) eqn:Hsel;
    unfold Choices.init, Bool.init, Int.init, Float.init, Text.init;
    rewrite Hget; cbn [mbind result_bind].
  - unfold AdvancedTab.select in Hsel.
    destruct (Option.choices opt) as [[|c0 cs]|] eqn:Hch; simpl in Hsel;
      try (repeat destruct (_ : bool); discriminate).
    cbn [or_raise mbind result_bind init_opt]. eexists. split; [reflexivity|].
    split.
    + unfold widget_of. cbn. repeat split. symmetry.
      unfold AdvancedTab.select. rewrite Hch. reflexivity.
    + exists c0, cs. cbn [qt Choices.choices Choices.combo].
      rewrite addItem_all_new. auto.
  - eexists. split; [reflexivity|]. split; [|exact I].
    unfold widget_of. cbn. auto.
  - eexists. split; [reflexivity|]. split; [|split; reflexivity].
    unfold widget_of. cbn. auto.
  - eexists. split; [reflexivity|]. split; [|exact Float_init_qt].
    unfold widget_of. cbn. auto.
  - eexists. split; [reflexivity|]. split; [|reflexivity].
    unfold widget_of. cbn. auto.
Qed.

Lemma for_loop_built (options : registry) (os : list Option.t) (acc : AdvancedTab.t) :
  (forall o, o ∈ os -> getitem options (Option.name o) = Ok o) ->
  exists ws,
    for_loop (AdvancedTab.body options) acc (Option.name <$> os)
    = Ok {| AdvancedTab.l := (AdvancedTab.l acc ++ (row_of <$> filter shown os))%list;
            AdvancedTab.widgets := (AdvancedTab.widgets acc ++ ws)%list |}
    /\ Forall2 built_for ws (filter shown os).
Proof.
  revert acc. induction os as [|o os IH]; intros acc Hget.
  - exists []. simpl. rewrite !app_nil_r. destruct acc. split; [reflexivity|constructor].
  - assert (Ho : getitem options (Option.name o) = Ok o) by (apply Hget; left).
    assert (Hos : forall o', o' ∈ os -> getitem options (Option.name o') = Ok o')
      by (intros; apply Hget; right; assumption).
    change (for_loop (AdvancedTab.body options) acc (Option.name <$> o :: os))
      with (s' ← AdvancedTab.body options acc (Option.name o);
            for_loop (AdvancedTab.body options) s' (Option.name <$> os)).
    destruct (decide (shown o)) as [Hs|Hs].
    + destruct (construct_built options o (AdvancedTab.l acc) Ho) as (w & Hc & Hw).
      assert (Hb : AdvancedTab.body options acc (Option.name o)
                   = Ok {| AdvancedTab.l := (AdvancedTab.l acc ++ [row_of o])%list;
                           AdvancedTab.widgets := (AdvancedTab.widgets acc ++ [w])%list |}).
      { unfold AdvancedTab.body. unfold shown in Hs. rewrite Hs, Ho.
        cbn [mbind result_bind]. rewrite Hc. reflexivity. }
      rewrite Hb.
      destruct (IH {| AdvancedTab.l := (AdvancedTab.l acc ++ [row_of o])%list;
                      AdvancedTab.widgets := (AdvancedTab.widgets acc ++ [w])%list |} Hos)
        as (ws & Hloop & Hws).
      exists (w :: ws). rewrite filter_cons_True by assumption. split.
      * cbn [mbind result_bind]. rewrite Hloop.
        cbn [AdvancedTab.l AdvancedTab.widgets fmap list_fmap].
        rewrite <- !app_assoc. reflexivity.
      * constructor; assumption.
    + rewrite body_skipped by assumption. cbn [mbind result_bind].
      destruct (IH acc Hos) as (ws & Hloop & Hws).
      exists ws. rewrite filter_cons_False by assumption. split; assumption.
Qed.

(** The tab the builder makes: its widgets are built for the options
    shown, which are distinct. *)
Lemma init_built (options : registry) :
  NoDup (keys options) ->
  exists (tab : AdvancedTab.t) (os : list Option.t),
    AdvancedTab.init options = Ok tab
    /\ os ≡ₚ filter shown options
    /\ Forall2 built_for (AdvancedTab.widgets tab) os.
Proof.
  intros Hnd. unfold AdvancedTab.init. rewrite sorted_names by assumption.
  cbn [mbind result_bind].
  set (sorted_os := (sort_keyed ((fun o => (lower (Option.shortdoc o), o)) <$> options)).*2).
  assert (Hperm : sorted_os ≡ₚ options) by apply sort_keyed_snd_perm.
  destruct (for_loop_built options sorted_os
              {| AdvancedTab.l := []; AdvancedTab.widgets := [] |})
    as (ws & Hloop & Hws).
  { intros o Ho. apply getitem_NoDup; [assumption|]. rewrite <- Hperm. exact Ho. }
  rewrite Hloop. eexists. exists (filter shown sorted_os).
  split; [reflexivity|]. split; [rewrite Hperm; reflexivity | exact Hws].
Qed.

Lemma widget_set_built `{PyText} (w w' : AnyWidget) (o : Option.t) (v : PyVal) :
  built_for w o -> widget_set v w = Ok w' -> built_for w' o.
Proof.
  intros [(Hn & Hd & Hc) Hst] Hset. destruct w as [c|c|c|c|c]; simpl in Hset.
  - injection Hset as <-. destruct Hst as (c0 & cs & Ho & Hch & Hit).
    destruct (Choices_set_keeps v c) as [Hch' Hit'].
    split; [|exists c0, cs; split; [exact Ho|]; split; congruence].
    unfold widget_of, Choices.set in *. cbn [widget_name widget_default_val widget_class_of] in *.
    destruct (Choices.contains v _); [destruct v|]; auto.
  - injection Hset as <-. split; [|exact I]. exact (conj Hn (conj Hd Hc)).
  - unfold Int.set in Hset.
    destruct (py_int v) as [i|]; [|discriminate]. cbn [mbind result_bind] in Hset.
    destruct (to_c_int i) as [z|]; [|discriminate]. cbn in Hset.
    injection Hset as <-. split; [exact (conj Hn (conj Hd Hc)) | exact Hst].
  - unfold Float.set in Hset.
    destruct (py_float v) as [f|]; [|discriminate]. cbn in Hset.
    injection Hset as <-. split; [exact (conj Hn (conj Hd Hc)) | exact Hst].
  - injection Hset as <-. split; [exact (conj Hn (conj Hd Hc)) | exact Hst].
Qed.

Lemma widget_set_kept `{PyText} (w : AnyWidget) (o : Option.t) (v : PyVal) :
  built_for w o -> kept_by o v ->
  exists w', widget_set v w = Ok w' /\ widget_get w' = v.
Proof.
  intros [(Hn & Hd & Hc) Hst] Hkept. unfold kept_by in Hkept. rewrite <- Hc in Hkept.
  destruct w as [c|c|c|c|c]; cbn [widget_class_of widget_set widget_get] in *.
  - destruct Hkept as (s & cs & -> & Hcs & Hin).
    destruct Hst as (c0 & cs' & Ho & Hch & Hit).
    assert (cs = c0 :: cs') by congruence. subst cs.
    eexists. split; [reflexivity|].
    apply (proj2 (Choices_get_set c c0 cs' (PyStr s) Hch Hit) s); [reflexivity|exact Hin].
  - destruct Hkept as [b ->]. eexists. split; reflexivity.
  - destruct Hkept as (z & -> & Hz). destruct Hst as [Hmin Hmax].
    unfold Int.set. cbn [py_int mbind result_bind].
    rewrite to_c_int_small by lia. cbn [mbind result_bind fmap result_fmap].
    eexists. split; [reflexivity|].
    unfold Int.get, with_qt, QSpinBox.setValue. cbn [qt QSpinBox.value].
    rewrite Hmin, Hmax, QSpinBox_bound_inside by lia. reflexivity.
  - destruct Hkept as (k & Hk & ->). destruct Hst as (Hmin & Hmax & Hdec).
    unfold Float.set. cbn [py_float mbind result_bind fmap result_fmap].
    eexists. split; [reflexivity|].
    unfold Float.get, with_qt, QDoubleSpinBox.setValue. cbn [qt QDoubleSpinBox.value].
    rewrite Hmin, Hmax, Hdec, (Float_fresh_range _ k) by (lia || reflexivity).
    reflexivity.
  - eexists. split; [reflexivity|]. destruct Hkept as [->|(s & -> & Hs & Hne & Hlen)].
    + unfold Text.get, Text.set, py_or, QLineEdit.setText. simpl.
      destruct (QLineEdit.maxLength (qt c) <=? 0); reflexivity.
    + apply Text_get_set_text; assumption.
Qed.

(** Setting every widget of a tab, each to the value [f] finds for it. *)
Lemma set_all_built `{PyText} (f : AnyWidget -> result PyVal)
  (ws ws' : list AnyWidget) (os : list Option.t) :
  Forall2 built_for ws os ->
  for_each (fun w => v ← f w; widget_set v w) ws = Ok ws' ->
  Forall2 built_for ws' os.
Proof.
  intros Hb. revert ws'. induction Hb as [|w o ws os Hw Hws IH]; intros ws' Hall.
  - injection Hall as <-. constructor.
  - cbn [for_each] in Hall.
    destruct (f w) as [v|] eqn:Hf; [|discriminate]. cbn [mbind result_bind] in Hall.
    destruct (widget_set v w) as [w1|] eqn:Hset; [|discriminate].
    cbn [mbind result_bind] in Hall.
    destruct (for_each _ ws) as [ws1|] eqn:Hrest; [|discriminate].
    injection Hall as <-. constructor; [|apply IH; reflexivity].
    eapply widget_set_built; eassumption.
Qed.

Lemma set_all_kept `{PyText} (f : AnyWidget -> result PyVal) (val : Option.t -> PyVal)
  (ws : list AnyWidget) (os : list Option.t) :
  Forall2 built_for ws os ->
  Forall2 (fun w o => f w = Ok (val o) /\ kept_by o (val o)) ws os ->
  exists ws',
    for_each (fun w => v ← f w; widget_set v w) ws = Ok ws'
    /\ Forall2 (fun w' o => built_for w' o /\ widget_get w' = val o) ws' os.
Proof.
  intros Hb. induction Hb as [|w o ws os Hw Hws IH]; intros Hv.
  - exists []. split; [reflexivity|constructor].
  - apply Forall2_cons in Hv as [[Hf Hk] Hv].
    destruct (IH Hv) as (ws' & Hall & Hres).
    destruct (widget_set_kept w o (val o) Hw Hk) as (w' & Hset & Hget).
    exists (w' :: ws'). split.
    + cbn [for_each]. rewrite Hf. cbn [mbind result_bind]. rewrite Hset.
      cbn [mbind result_bind]. rewrite Hall. reflexivity.
    + constructor; [|exact Hres]. split; [|exact Hget].
      eapply widget_set_built; eassumption.
Qed.

(** The snapshot of a tab whose widgets have distinct names holds, under
    each widget's name, what that widget reads, and nothing else. *)
Lemma settings_lookup (tab : AdvancedTab.t) (w : AnyWidget) :
  NoDup (widget_name <$> AdvancedTab.widgets tab) ->
  w ∈ AdvancedTab.widgets tab ->
  AdvancedTab.settings tab !! widget_name w = Some (widget_get w).
Proof.
  unfold AdvancedTab.settings. generalize (AdvancedTab.widgets tab) as ws.
  induction ws as [|x ws IH] using rev_ind; intros Hnd Hin; [inversion Hin|].
  rewrite foldl_app. cbn [foldl].
  rewrite fmap_app in Hnd. apply NoDup_app in Hnd as (Hnd & Hdis & _).
  apply elem_of_app in Hin as [Hin|Hin].
  - rewrite lookup_insert_ne; [apply IH; assumption|].
    intros Heq. apply (Hdis (widget_name w)).
    + apply list_elem_of_fmap. eauto.
    + rewrite <- Heq. cbn. left.
  - apply list_elem_of_singleton in Hin as ->. apply lookup_insert_eq.
Qed.

Lemma settings_keys (tab : AdvancedTab.t) (n : string) :
  is_Some (AdvancedTab.settings tab !! n)
  <-> n ∈ widget_name <$> AdvancedTab.widgets tab.
Proof.
  unfold AdvancedTab.settings. generalize (AdvancedTab.widgets tab) as ws.
  induction ws as [|x ws IH] using rev_ind.
  - cbn. rewrite lookup_empty. split; [intros [? ?]; discriminate | inversion 1].
  - rewrite foldl_app, fmap_app. cbn [foldl fmap list_fmap].
    rewrite elem_of_app, list_elem_of_singleton, <- IH.
    destruct (decide (widget_name x = n)) as [<-|Hne].
    + rewrite lookup_insert_eq. split; eauto.
    + rewrite lookup_insert_ne by assumption. split; [auto|]. intros [?|?]; congruence.
Qed.

Lemma Forall2_elem_r {A B} (P : A -> B -> Prop) (l : list A) (k : list B) (y : B) :
  Forall2 P l k -> y ∈ k -> exists x, x ∈ l /\ P x y.
Proof.
  induction 1 as [|x y' l k Hxy Hlk IH]; intros Hin; [inversion Hin|].
  apply elem_of_cons in Hin as [->|Hin]; [exists x; split; [left|assumption]|].
  destruct (IH Hin) as (x' & Hx' & HP). exists x'. split; [right|]; assumption.
Qed.

Lemma Forall2_impl_elem {A B} (P Q : A -> B -> Prop) (l : list A) (k : list B) :
  Forall2 P l k -> (forall x y, y ∈ k -> P x y -> Q x y) -> Forall2 Q l k.
Proof.
  induction 1 as [|x y l k Hxy Hlk IH]; intros Himp; constructor.
  - apply Himp; [left | assumption].
  - apply IH. intros x' y' Hy'. apply Himp. right. exact Hy'.
Qed.

Lemma built_names (ws : list AnyWidget) (os : list Option.t) :
  Forall2 (fun w o => widget_name w = Option.name o) ws os ->
  widget_name <$> ws = Option.name <$> os.
Proof. induction 1; cbn; congruence. Qed.

Lemma NoDup_names_filter (P : Option.t -> Prop) `{forall o, Decision (P o)}
  (options : list Option.t) :
  NoDup (Option.name <$> options) -> NoDup (Option.name <$> filter P options).
Proof.
  induction options as [|o os IH]; [intros _; constructor|].
  rewrite fmap_cons. intros Hnd. apply NoDup_cons in Hnd as [Hnot Hnd].
  rewrite filter_cons. destruct (decide (P o)); [|auto].
  rewrite fmap_cons. apply NoDup_cons. split; [|auto].
  intros Hin. apply Hnot. apply list_elem_of_fmap in Hin as (o' & Heq & Ho').
  apply list_elem_of_filter in Ho' as [_ Ho']. apply list_elem_of_fmap. eauto.
Qed.

(** A tab whose widgets are built for distinct options, set widget by
    widget to values that are kept: the snapshot then holds exactly those
    values, under exactly those options' names. *)
Lemma snapshot_after_set_all `{PyText} (f : AnyWidget -> result PyVal)
  (val : Option.t -> PyVal) (tab : AdvancedTab.t) (os : list Option.t) :
  NoDup (Option.name <$> os) ->
  Forall2 built_for (AdvancedTab.widgets tab) os ->
  (forall w o, o ∈ os -> built_for w o -> f w = Ok (val o) /\ kept_by o (val o)) ->
  exists ws',
    for_each (fun w => v ← f w; widget_set v w) (AdvancedTab.widgets tab) = Ok ws'
    /\ Forall2 built_for ws' os
    /\ (forall o, o ∈ os ->
          AdvancedTab.settings {| AdvancedTab.l := AdvancedTab.l tab;
                                  AdvancedTab.widgets := ws' |}
            !! Option.name o = Some (val o))
    /\ (forall n,
          is_Some (AdvancedTab.settings {| AdvancedTab.l := AdvancedTab.l tab;
                                           AdvancedTab.widgets := ws' |} !! n)
          <-> n ∈ Option.name <$> os).
Proof.
  intros Hnd Hb Hval.
  destruct (set_all_kept f val (AdvancedTab.widgets tab) os Hb) as (ws' & Hall & Hres).
  { eapply Forall2_impl_elem; [exact Hb|]. intros w o Ho Hw. apply Hval; assumption. }
  assert (Hb' : Forall2 built_for ws' os).
  { eapply Forall2_impl; [exact Hres|]. intros ? ? [? _]. assumption. }
  assert (Hnames : widget_name <$> ws' = Option.name <$> os).
  { apply built_names. eapply Forall2_impl; [exact Hb'|].
    intros w o [(Hn & _) _]. exact Hn. }
  exists ws'. split; [exact Hall|]. split; [exact Hb'|]. split.
  - intros o Ho. destruct (Forall2_elem_r _ _ _ o Hres Ho) as (w' & Hw' & [(Hn & _) _] & Hget).
    rewrite <- Hn, <- Hget. apply settings_lookup; [|exact Hw'].
    cbn [AdvancedTab.widgets]. rewrite Hnames. exact Hnd.
  - intros n. rewrite settings_keys. cbn [AdvancedTab.widgets]. rewrite Hnames.
    reflexivity.
Qed.

(** X6.  Load, then snapshot.  For a registry with distinct names and
    stored values that the widgets keep (a listed choice, a boolean, an
    integer within 0..10000, a float within 0..10000 with at most one
    decimal, that is, the binary64 number nearest to a whole number of
    tenths, [None] or a trimmed non-empty text), building the tab and
    loading the stored values
    succeeds, and the tab's settings then are exactly the stored values of
    the options shown: nothing is altered by loading and reading back, and
    no other key appears. *)
Theorem AdvancedTab_genesis_then_settings `{PyText}
  (options : registry) (opts : gmap string PyVal) :
  NoDup (keys options) ->
  (forall o, o ∈ options -> shown o ->
     exists v, opts !! Option.name o = Some v /\ kept_by o v) ->
  exists tab tab',
    AdvancedTab.init options = Ok tab
    /\ AdvancedTab.genesis opts tab = Ok tab'
    /\ (forall o, o ∈ options -> shown o ->
          AdvancedTab.settings tab' !! Option.name o = opts !! Option.name o)
    /\ (forall n, is_Some (AdvancedTab.settings tab' !! n)
                  <-> exists o, o ∈ options /\ shown o /\ Option.name o = n).
Proof.
  intros Hnd Hkept. destruct (init_built options Hnd) as (tab & os & Hinit & Hperm & Hb).
  assert (Hos : forall o, o ∈ os <-> o ∈ options /\ shown o).
  { intros o. rewrite Hperm, list_elem_of_filter. tauto. }
  assert (Hnd' : NoDup (Option.name <$> os)).
  { rewrite Hperm. apply NoDup_names_filter. unfold keys in Hnd.
    rewrite map_fmap in Hnd. exact Hnd. }
  destruct (snapshot_after_set_all
              (fun w => or_raise AttributeError (opts !! widget_name w))
              (fun o => default PyNone (opts !! Option.name o)) tab os Hnd' Hb)
    as (ws' & Hall & _ & Hlook & Hkeys).
  { intros w o Ho [(Hn & _) _]. apply Hos in Ho as [Ho Hs].
    destruct (Hkept o Ho Hs) as (v & Hv & Hk). rewrite Hn, Hv.
    split; [reflexivity | exact Hk]. }
  exists tab. eexists. split; [exact Hinit|]. split.
  { unfold AdvancedTab.genesis. rewrite Hall. reflexivity. }
  split.
  - intros o Ho Hs. rewrite Hlook by (apply Hos; auto).
    destruct (Hkept o Ho Hs) as (v & Hv & _). rewrite Hv. reflexivity.
  - intros n. rewrite Hkeys, list_elem_of_fmap. split.
    + intros (o & -> & Ho). apply Hos in Ho as [? ?]. eauto.
    + intros (o & Ho & Hs & <-). exists o. split; [reflexivity|]. apply Hos. auto.
Qed.

(** X7.  Restore defaults, then snapshot.  For a registry with distinct
    names whose defaults are values the widgets keep (for a float: the
    binary64 number nearest to a whole number of tenths within
    0..10000), whatever values were loaded into the tab before,
    [restore_defaults] succeeds and the tab's settings then give every
    option shown its default. *)
Theorem AdvancedTab_restore_defaults_then_settings `{PyText}
  (options : registry) (opts : gmap string PyVal) (tab tab1 : AdvancedTab.t) :
  NoDup (keys options) ->
  (forall o, o ∈ options -> shown o -> kept_by o (Option.default o)) ->
  AdvancedTab.init options = Ok tab ->
  AdvancedTab.genesis opts tab = Ok tab1 ->
  exists tab2,
    AdvancedTab.restore_defaults tab1 = Ok tab2
    /\ forall o, o ∈ options -> shown o ->
         AdvancedTab.settings tab2 !! Option.name o = Some (Option.default o).
Proof.
  intros Hnd Hkept Hinit Hgen.
  destruct (init_built options Hnd) as (tab0 & os & Hinit' & Hperm & Hb).
  assert (tab0 = tab) by congruence. subst tab0.
  assert (Hos : forall o, o ∈ os <-> o ∈ options /\ shown o).
  { intros o. rewrite Hperm, list_elem_of_filter. tauto. }
  assert (Hnd' : NoDup (Option.name <$> os)).
  { rewrite Hperm. apply NoDup_names_filter. unfold keys in Hnd.
    rewrite map_fmap in Hnd. exact Hnd. }
  unfold AdvancedTab.genesis in Hgen.
  destruct (for_each _ (AdvancedTab.widgets tab)) as [ws1|] eqn:Hall; [|discriminate].
  injection Hgen as <-.
  pose proof (set_all_built _ _ _ _ Hb Hall) as Hb1.
  destruct (snapshot_after_set_all (fun w => Ok (widget_default_val w))
              Option.default
              {| AdvancedTab.l := AdvancedTab.l tab; AdvancedTab.widgets := ws1 |}
              os Hnd' Hb1)
    as (ws2 & Hall2 & _ & Hlook & _).
  { intros w o Ho [(_ & Hd & _) _]. apply Hos in Ho as [Ho Hs]. rewrite Hd.
    split; [reflexivity | auto]. }
  eexists. split.
  { unfold AdvancedTab.restore_defaults. cbn [AdvancedTab.widgets AdvancedTab.l] in *.
    change (for_each (fun w => widget_set (widget_default_val w) w) ws1)
      with (for_each (fun w => v ← Ok (widget_default_val w); widget_set v w) ws1).
    rewrite Hall2. reflexivity. }
  intros o Ho Hs. apply Hlook. apply Hos. auto.
Qed.

(** * The user-account editor stays consistent *)

Section editor_invariant.
Context {R : Type} `{SrvUsers R} `{Icu}.
Implicit Types self : Users.t R.

Lemma currentItem_elem (lst : QListWidget.t) (u : string) :
  QListWidget.currentItem lst = Some u ->
  QListWidget.valid (QListWidget.currentRow lst) lst = true
  /\ QListWidget.items lst !! Z.to_nat (QListWidget.currentRow lst) = Some u
  /\ u ∈ QListWidget.items lst.
Proof.
  unfold QListWidget.currentItem.
  destruct (QListWidget.valid _ lst); [|discriminate].
  intros Hu. split; [reflexivity|]. split; [exact Hu|].
  eapply list_elem_of_lookup_2. exact Hu.
Qed.

(** When the list shows only usernames of the mapping, the handler makes
    the detail pane show the selected user. *)
Lemma current_item_changed_shows_selected self :
  (forall u, u ∈ QListWidget.items (Users.user_list self)
             -> u ∈ dom (Users.user_data self)) ->
  User.username (Users.user_display (Users.current_item_changed self))
  = QListWidget.currentItem (Users.user_list self).
Proof.
  intros Hsub. unfold Users.current_item_changed.
  destruct (QListWidget.currentItem (Users.user_list self)) as [u|] eqn:Hcur;
    [|reflexivity].
  apply currentItem_elem in Hcur as (_ & _ & Hin).
  rewrite bool_decide_eq_true_2 by auto. reflexivity.
Qed.

Lemma current_item_changed_ok self :
  NoDup (QListWidget.items (Users.user_list self)) ->
  (forall u, u ∈ QListWidget.items (Users.user_list self)
             <-> u ∈ dom (Users.user_data self)) ->
  Users.connected self = true ->
  editor_ok (Users.current_item_changed self).
Proof.
  intros Hnd Hdom Hcon. unfold editor_ok.
  change (Users.user_list (Users.current_item_changed self))
    with (Users.user_list self).
  change (Users.user_data (Users.current_item_changed self))
    with (Users.user_data self).
  split; [exact Hnd|]. split; [exact Hdom|].
  split; [apply current_item_changed_shows_selected; intros u; apply Hdom|].
  split; [reflexivity | exact Hcon].
Qed.

Lemma genesis_fresh_state (stored : gmap string R) :
  Users.genesis stored Users.init
  = Ok (Users.current_item_changed
          {| Users.user_data := stored;
             Users.user_list :=
               QListWidget.setCurrentRow 0
                 {| QListWidget.items :=
                      (sort_keyed ((fun u => (primary_sort_key u, u))
                                     <$> (map_to_list stored).*1)).*2;
                    QListWidget.currentRow := -1 |};
             Users.user_display := User.init;
             Users.connected := true |}).
Proof.
  unfold Users.genesis. rewrite map_fmap, sorted_total. reflexivity.
Qed.

(** X8.  Opening the editor on any stored mapping succeeds and leaves it
    consistent: every stored username is listed exactly once, the first
    row is selected when there is one, and the detail pane shows the
    selected user, or nothing (button disabled) when no user is stored. *)
Theorem genesis_editor_ok (stored : gmap string R) :
  exists self',
    Users.genesis stored Users.init = Ok self'
    /\ Users.user_data self' = stored
    /\ editor_ok self'
    /\ QListWidget.currentItem (Users.user_list self')
       = head (QListWidget.items (Users.user_list self')).
Proof.
  eexists. split; [apply genesis_fresh_state|]. split; [reflexivity|].
  set (names := (sort_keyed ((fun u => (primary_sort_key u, u))
                               <$> (map_to_list stored).*1)).*2).
  assert (Hperm : names ≡ₚ (map_to_list stored).*1) by apply sort_keyed_snd_perm.
  split.
  - apply current_item_changed_ok; cbn [Users.user_list Users.user_data
      Users.connected QListWidget.setCurrentRow QListWidget.items].
    + rewrite Hperm. apply NoDup_fst_map_to_list.
    + intros u. rewrite Hperm, elem_of_dom, list_elem_of_fmap. split.
      * intros ([u' r] & -> & Hin). apply elem_of_map_to_list in Hin. eauto.
      * intros [r Hr]. exists (u, r). split; [reflexivity|].
        apply elem_of_map_to_list. exact Hr.
    + reflexivity.
  - cbn [Users.current_item_changed Users.display_user_data Users.user_list].
    unfold QListWidget.currentItem, QListWidget.setCurrentRow, QListWidget.valid,
      QListWidget.count. cbn [QListWidget.items QListWidget.currentRow].
    destruct names as [|u names']; [reflexivity|].
    assert (Hv : (0 <=? 0) && (0 <? Z.of_nat (length (u :: names'))) = true).
    { apply andb_true_intro. split; [reflexivity|]. apply Z.ltb_lt. simpl length. lia. }
    rewrite Hv. cbn [QListWidget.items QListWidget.currentRow]. rewrite Hv.
    reflexivity.
Qed.

(** A dialog that closes as accepted was accepted as it then stood, and
    its username field is editable if it was at the start. *)
Lemma exec_accepted_inv (user_data : gmap string R) (script : list NewUser.action)
  (d0 d : NewUser.t) (evs : list (event R)) :
  NewUser.exec_ user_data script d0 = (true, d, evs) ->
  NewUser.accept user_data d = NewUser.Accepted
  /\ NewUser.uw_readOnly d = NewUser.uw_readOnly d0.
Proof.
  revert d0 evs. induction script as [|[un pw1 pw2|] rest IH]; intros d0 evs;
    cbn [NewUser.exec_]; try discriminate.
  destruct (NewUser.accept user_data (NewUser.fill un pw1 pw2 d0)) eqn:Hacc.
  - intros [= <- <-]. split; [exact Hacc | reflexivity].
  - destruct (NewUser.exec_ user_data rest (NewUser.fill un pw1 pw2 d0))
      as [[r d'] evs'] eqn:Hrest.
    intros [= -> -> <-]. destruct (IH _ _ Hrest) as [Ha Hro].
    split; [exact Ha | exact Hro].
Qed.

Lemma exec_cases (user_data : gmap string R) (script : list NewUser.action)
  (d0 : NewUser.t) :
  exists (accepted : bool) d evs,
    NewUser.exec_ user_data script d0 = (accepted, d, evs).
Proof. destruct (NewUser.exec_ user_data script d0) as [[a d] evs]. eauto. Qed.

Lemma add_user_connected (script : list NewUser.action) self :
  Users.connected (Users.add_user script self).1 = Users.connected self.
Proof.
  unfold Users.add_user.
  destruct (NewUser.exec_ _ script NewUser.init) as [[[|] d] evs]; [|reflexivity].
  unfold Users.display_user_data, Users.setCurrentRow, Users.insertItem,
    Users.with_user_list. cbn [fst Users.connected Users.user_list Users.user_data].
  repeat (destruct (_ && _); cbn [Users.connected Users.current_item_changed
                                    Users.display_user_data]); reflexivity.
Qed.

(** X9.  "Add user" keeps the editor consistent, whatever the user does
    with the dialog: cancelled or refused entries change nothing, and an
    accepted entry (whose username is new, as the dialog checked) adds
    one list item and one record and selects and shows the new user. *)
Theorem add_user_editor_ok (script : list NewUser.action) self :
  editor_ok self -> editor_ok (Users.add_user script self).1.
Proof.
  intros (Hnd & Hdom & Hshow & Hcpb & Hcon).
  destruct (exec_cases (Users.user_data self) script NewUser.init)
    as ([|] & d & evs & Hexec).
  - destruct (exec_accepted_inv _ _ _ _ _ Hexec) as [Hacc Hro].
    destruct (accept_iff (Users.user_data self) d Hro) as [_ Hgood].
    apply Hgood in Hacc.
    assert (Hnew : NewUser.username d ∉ dom (Users.user_data self)).
    { intros Hin. apply Hacc. right. left. exact Hin. }
    pose proof (add_user_connected script self) as Hcon'.
    destruct (add_user_accepted self script d evs Hexec)
      as (self' & Hadd & Hdata & Hitems & Hcur & Huser & Hbtn).
    rewrite Hadd in *. cbn [fst] in *. unfold editor_ok.
    rewrite Hitems, Hdata, Hcur, Huser, Hbtn, Hcon'.
    split; [|split; [|split; [reflexivity|split; [reflexivity|exact Hcon]]]].
    + apply NoDup_cons. split; [|exact Hnd]. intros Hin. apply Hnew, Hdom, Hin.
    + intros u. rewrite elem_of_cons, dom_insert, elem_of_union, elem_of_singleton, Hdom.
      reflexivity.
  - destruct (add_user_unaccepted self script d evs Hexec) as [Hadd _].
    rewrite Hadd. cbn [fst]. unfold editor_ok. auto.
Qed.

Lemma elem_of_delete_NoDup (l : list string) (i : nat) (x y : string) :
  NoDup l -> l !! i = Some x -> (y ∈ delete i l <-> y ∈ l /\ y <> x).
Proof.
  intros Hnd Hi. rewrite delete_take_drop.
  rewrite <- (take_drop_middle l i x Hi) in Hnd |- * at 1.
  apply NoDup_app in Hnd as (_ & Hdis & Hnd2). apply NoDup_cons in Hnd2 as [Hx _].
  rewrite (take_drop_middle l i x Hi) in *.
  rewrite <- (take_drop_middle l i x Hi) at 3.
  rewrite !elem_of_app, elem_of_cons. split.
  - intros [Hy|Hy].
    + split; [auto|]. intros ->. apply (Hdis x Hy). left.
    + split; [auto|]. intros ->. contradiction.
  - intros [[Hy|[->|Hy]] Hne]; [auto|contradiction|auto].
Qed.

Lemma NoDup_delete_at (l : list string) (i : nat) : NoDup l -> NoDup (delete i l).
Proof. intros Hnd. exact (sublist_NoDup _ _ Hnd (sublist_delete l i)). Qed.

(** X10.  "Remove user" with nothing selected does nothing and signals
    nothing.  With a user selected it removes exactly that user, from the
    mapping and from the list, signals the change, and leaves the editor
    consistent, the detail pane showing the item that is then current. *)
Theorem remove_user_editor_ok self :
  editor_ok self ->
  match QListWidget.currentItem (Users.user_list self) with
  | None => Users.remove_user self = (self, [])
  | Some u =>
      exists self',
        Users.remove_user self = (self', [changed_signal])
        /\ Users.user_data self' = delete u (Users.user_data self)
        /\ (forall v, v ∈ QListWidget.items (Users.user_list self')
                      <-> v ∈ QListWidget.items (Users.user_list self) /\ v <> u)
        /\ editor_ok self'
  end.
Proof.
  intros (Hnd & Hdom & Hshow & Hcpb & Hcon). unfold Users.remove_user.
  destruct (QListWidget.currentItem (Users.user_list self)) as [u|] eqn:Hcur;
    [|reflexivity].
  destruct (currentItem_elem _ _ Hcur) as (Hvalid & Hrow & Hin).
  eexists. split; [reflexivity|].
  unfold Users.takeItem.
  change (Users.user_data (Users.current_item_changed ?s)) with (Users.user_data s).
  change (Users.user_list (Users.current_item_changed ?s)) with (Users.user_list s).
  cbn [Users.user_data Users.user_list Users.connected].
  rewrite with_user_list_data, with_user_list_list.
  assert (Hitems : QListWidget.items
                     (QListWidget.takeItem (QListWidget.currentRow (Users.user_list self))
                        (Users.user_list self))
                   = delete (Z.to_nat (QListWidget.currentRow (Users.user_list self)))
                       (QListWidget.items (Users.user_list self))).
  { unfold QListWidget.takeItem. rewrite Hvalid. reflexivity. }
  assert (Hmem : forall v,
            v ∈ QListWidget.items
                  (QListWidget.takeItem (QListWidget.currentRow (Users.user_list self))
                     (Users.user_list self))
            <-> v ∈ QListWidget.items (Users.user_list self) /\ v <> u).
  { intros v. rewrite Hitems. apply elem_of_delete_NoDup; assumption. }
  split; [reflexivity|]. split; [exact Hmem|].
  apply current_item_changed_ok; cbn [Users.user_data Users.user_list Users.connected].
  - rewrite Hitems. apply NoDup_delete_at, Hnd.
  - intros v. rewrite Hmem, dom_delete, elem_of_difference, elem_of_singleton, Hdom.
    reflexivity.
  - unfold Users.with_user_list.
    destruct (Users.connected self && _); cbn; exact Hcon.
Qed.
End editor_invariant.

(** * Starting the server *)

Section start_server_properties.
Context {R : Type}.
Implicit Types self : ConfigWidget.t R.

(** The polling loop ends at the first look that finds the server
    running or failed, if the fuel reaches that far. *)
Lemma wait_started_finds (obs : nat -> Server) (k b fuel : nat) :
  (forall j, (j < k)%nat ->
     is_running (obs (b + j)%nat) = false /\ exception (obs (b + j)%nat) = None) ->
  is_running (obs (b + k)%nat) = true \/ exception (obs (b + k)%nat) <> None ->
  (k < fuel)%nat ->
  @ConfigWidget.wait_started fuel obs b = Some (b + k)%nat.
Proof.
  revert b fuel. induction k as [|k IH]; intros b fuel Hwait Hend Hfuel;
    (destruct fuel as [|fuel]; [lia|]); cbn [ConfigWidget.wait_started].
  - rewrite Nat.add_0_r in *. destruct Hend as [Hrun|Hexc].
    + rewrite Hrun. reflexivity.
    + rewrite (bool_decide_eq_false_2 _ Hexc), andb_false_r. reflexivity.
  - destruct (Hwait O ltac:(lia)) as [Hrun Hexc]. rewrite Nat.add_0_r in Hrun, Hexc.
    rewrite Hrun, Hexc. cbn [negb andb]. rewrite bool_decide_eq_true_2 by reflexivity.
    rewrite (IH (S b) fuel).
    + f_equal. lia.
    + intros j Hj. replace (S b + j)%nat with (b + S j)%nat by lia. apply Hwait. lia.
    + replace (S b + k)%nat with (b + S k)%nat by lia. exact Hend.
    + lia.
Qed.

Lemma save_changes_accepted self (auth : PyVal) :
  ConfigWidget.settings self !! "auth" = Some auth ->
  truthy auth = false \/ Users.user_data (ConfigWidget.users_tab self) <> ∅ ->
  ConfigWidget.save_changes self
  = (Ok true,
     ConfigWidget.emit
       [ConfigWidgetBase_commit; change_settings (ConfigWidget.settings self);
        set_user_data (Users.user_data (ConfigWidget.users_tab self))] self).
Proof.
  intros Hauth Hok. unfold ConfigWidget.save_changes. rewrite Hauth.
  destruct (truthy auth); [|reflexivity].
  destruct Hok as [?|Hu]; [discriminate|].
  rewrite bool_decide_eq_false_2 by assumption. reflexivity.
Qed.

(** X11.  When the save is accepted and the server is found running, with
    no exception, at the [k]-th look after [k] looks that found it
    neither running nor failed, [start_server] (given fuel beyond [k])
    returns having persisted the settings, requested the start once and
    slept [k] times; the Start button is then disabled, Stop and Test are
    enabled, and the busy cursor is gone. *)
Theorem start_server_comes_up self (auth : PyVal) (obs : nat -> Server)
  (k fuel : nat) :
  ConfigWidget.settings self !! "auth" = Some auth ->
  truthy auth = false \/ Users.user_data (ConfigWidget.users_tab self) <> ∅ ->
  (forall j, (j < k)%nat ->
     is_running (obs j) = false /\ exception (obs j) = None) ->
  is_running (obs k) = true ->
  exception (obs k) = None ->
  (k < fuel)%nat ->
  exists self',
    ConfigWidget.start_server fuel obs self = Some (Ok tt, self')
    /\ ConfigWidget.log self'
       = (ConfigWidget.log self
          ++ [ConfigWidgetBase_commit; change_settings (ConfigWidget.settings self);
              set_user_data (Users.user_data (ConfigWidget.users_tab self));
              start_content_server]
          ++ replicate k sleep)%list
    /\ MainTab.start_server_button (ConfigWidget.main_tab self') = false
    /\ MainTab.stop_server_button (ConfigWidget.main_tab self') = true
    /\ MainTab.test_server_button (ConfigWidget.main_tab self') = true
    /\ ConfigWidget.busy_cursor self' = false
    /\ ConfigWidget.gui self' = {| content_server := Some (obs k) |}.
Proof.
  intros Hauth Hok Hwait Hrun Hexc Hfuel.
  unfold ConfigWidget.start_server.
  rewrite (save_changes_accepted self auth Hauth Hok).
  rewrite (wait_started_finds obs k 0 fuel) by (cbn; auto).
  cbn [mbind option_bind Nat.add]. rewrite Hexc.
  eexists. split; [reflexivity|].
  cbn [ConfigWidget.log ConfigWidget.set_cursor ConfigWidget.set_main_tab
       ConfigWidget.set_gui ConfigWidget.emit ConfigWidget.set_log
       ConfigWidget.main_tab ConfigWidget.gui ConfigWidget.busy_cursor
       MainTab.update_button_state MainTab.start_server_button
       MainTab.stop_server_button MainTab.test_server_button content_server].
  rewrite Hrun. rewrite <- !app_assoc. repeat split.
Qed.

(** X12.  When the save is accepted and the server is found with an
    exception at the [k]-th look, [start_server] returns having shown the
    error dialog with the exception's text; the buttons are left as they
    were and the busy cursor is gone. *)
Theorem start_server_reports_failure self (auth : PyVal) (obs : nat -> Server)
  (k fuel : nat) (e : string) :
  ConfigWidget.settings self !! "auth" = Some auth ->
  truthy auth = false \/ Users.user_data (ConfigWidget.users_tab self) <> ∅ ->
  (forall j, (j < k)%nat ->
     is_running (obs j) = false /\ exception (obs j) = None) ->
  exception (obs k) = Some e ->
  (k < fuel)%nat ->
  exists self',
    ConfigWidget.start_server fuel obs self = Some (Ok tt, self')
    /\ ConfigWidget.log self'
       = (ConfigWidget.log self
          ++ [ConfigWidgetBase_commit; change_settings (ConfigWidget.settings self);
              set_user_data (Users.user_data (ConfigWidget.users_tab self));
              start_content_server]
          ++ replicate k sleep
          ++ [error_dialog "Failed to start content server" e])%list
    /\ ConfigWidget.main_tab self' = ConfigWidget.main_tab self
    /\ ConfigWidget.busy_cursor self' = false.
Proof.
  intros Hauth Hok Hwait Hexc Hfuel.
  unfold ConfigWidget.start_server.
  rewrite (save_changes_accepted self auth Hauth Hok).
  rewrite (wait_started_finds obs k 0 fuel);
    [|cbn; auto | right; cbn; rewrite Hexc; discriminate | exact Hfuel].
  cbn [mbind option_bind Nat.add]. rewrite Hexc.
  eexists. split; [reflexivity|].
  cbn [ConfigWidget.log ConfigWidget.set_cursor ConfigWidget.set_gui
       ConfigWidget.emit ConfigWidget.set_log ConfigWidget.main_tab
       ConfigWidget.busy_cursor].
  rewrite <- !app_assoc. repeat split.
Qed.

(** X13.  Whenever [start_server] returns, the busy cursor is not left
    on by it: it is off, or (the save having been refused or having
    raised) as it was. *)
Theorem start_server_resets_cursor self (fuel : nat) (obs : nat -> Server)
  (r : result unit) (self' : ConfigWidget.t R) :
  ConfigWidget.start_server fuel obs self = Some (r, self') ->
  ConfigWidget.busy_cursor self' = false
  \/ ConfigWidget.busy_cursor self' = ConfigWidget.busy_cursor self.
Proof.
  unfold ConfigWidget.start_server.
  destruct (ConfigWidget.save_changes self) as [[[|]|e] self1] eqn:Hsave.
  - destruct (ConfigWidget.wait_started fuel obs 0) as [k|]; [|discriminate].
    cbn [mbind option_bind].
    destruct (exception (obs k)); intros [= <- <-]; left; reflexivity.
  - intros [= <- <-]. right.
    apply save_changes_rejected in Hsave as (-> & _). reflexivity.
  - intros [= <- <-]. right. unfold ConfigWidget.save_changes in Hsave.
    destruct (ConfigWidget.settings self !! "auth") as [a|];
      [destruct (truthy a); [case_bool_decide|]; discriminate|].
    injection Hsave as _ <-. reflexivity.
Qed.
End start_server_properties.

(** * Opening the panel, then saving *)

Section open_then_save.
Context {R : Type} `{Icu} `{PyText}.

Lemma skipped_not_in_tab (tab : AdvancedTab.t) (os : list Option.t) (n : string) :
  Forall2 built_for (AdvancedTab.widgets tab) os ->
  Forall shown os ->
  AdvancedTab.skipped n = true ->
  AdvancedTab.settings tab !! n = None.
Proof.
  intros Hb Hshown Hskip. apply eq_None_not_Some. rewrite settings_keys.
  rewrite (built_names _ os).
  - intros Hin. apply list_elem_of_fmap in Hin as (o & -> & Ho).
    rewrite Forall_forall in Hshown. specialize (Hshown o Ho).
    unfold shown in Hshown. congruence.
  - eapply Forall2_impl; [exact Hb|]. intros w o [(Hn & _) _]. exact Hn.
Qed.

(** The snapshot of a panel: the main tab's two entries, overridden by
    nothing when the "Advanced" tab holds none of the skipped names. *)
Lemma settings_main_entry (self : ConfigWidget.t R) (n : string) :
  AdvancedTab.settings (ConfigWidget.advanced_tab self) !! n = None ->
  ConfigWidget.settings self !! n = MainTab.settings (ConfigWidget.main_tab self) !! n.
Proof.
  intros Hnone. unfold ConfigWidget.settings, ConfigWidget.tabs, update.
  cbn [foldl ConfigWidget.tab_settings].
  rewrite lookup_union_r by exact Hnone.
  rewrite lookup_union_r by apply lookup_empty.
  rewrite lookup_union_l by apply lookup_empty. reflexivity.
Qed.

(** X14.  Opening the panel on a registry with distinct names: if
    [genesis] succeeds, the stored configuration had an [auth] flag and a
    [port] number, and the settings snapshot then holds that flag and
    that port forced into 1..65535 (no "Advanced" widget overrides
    them); the editor's working mapping is the stored one; and a save is
    accepted exactly when authentication is off or a user is stored. *)
Theorem open_panel_then_snapshot (options : registry) (g : Gui)
  (opts : gmap string PyVal) (stored : gmap string R)
  (p0 p : ConfigWidget.t R) :
  NoDup (keys options) ->
  ConfigWidget.init options = Ok p0 ->
  ConfigWidget.genesis g opts stored p0 = Ok p ->
  exists (a pv : PyVal) (b : bool) (n : Z),
    opts !! "auth" = Some a /\ to_qt_bool a = Ok b
    /\ opts !! "port" = Some pv /\ to_qt_int pv = Ok n
    /\ ConfigWidget.settings p !! "auth" = Some (PyBool b)
    /\ ConfigWidget.settings p !! "port" = Some (PyInt (QSpinBox.bound 1 65535 n))
    /\ 1 <= QSpinBox.bound 1 65535 n <= 65535
    /\ Users.user_data (ConfigWidget.users_tab p) = stored
    /\ (ConfigWidget.save_changes p).1
       = Ok (negb (b && bool_decide (stored = ∅))).
Proof.
  intros Hnd Hinit Hgen. unfold ConfigWidget.init in Hinit.
  destruct (init_built options Hnd) as (tab & os & Htab & Hperm & Hb).
  rewrite Htab in Hinit. cbn [mbind result_bind] in Hinit. injection Hinit as <-.
  unfold ConfigWidget.genesis in Hgen.
  cbn [ConfigWidget.main_tab ConfigWidget.users_tab ConfigWidget.advanced_tab] in Hgen.
  destruct (MainTab.genesis opts g MainTab.init) as [m|] eqn:Hm; [|discriminate].
  cbn [mbind result_bind] in Hgen.
  rewrite genesis_fresh_state in Hgen. cbn [mbind result_bind] in Hgen.
  destruct (AdvancedTab.genesis opts tab) as [adv|] eqn:Hadv; [|discriminate].
  cbn [mbind result_bind] in Hgen. injection Hgen as <-.
  (* the main tab *)
  unfold MainTab.genesis in Hm.
  destruct (opts !! "auth") as [a|] eqn:Hoa; [|discriminate]. cbn [or_raise mbind result_bind] in Hm.
  destruct (to_qt_bool a) as [b|] eqn:Hbool; [|discriminate]. cbn [mbind result_bind] in Hm.
  destruct (opts !! "port") as [pv|] eqn:Hop; [|discriminate]. cbn [or_raise mbind result_bind] in Hm.
  destruct (to_qt_int pv) as [n|] eqn:Hint; [|discriminate]. cbn [mbind result_bind] in Hm.
  injection Hm as <-.
  (* the "Advanced" tab holds no skipped name *)
  assert (Hb' : Forall2 built_for (AdvancedTab.widgets adv) os).
  { unfold AdvancedTab.genesis in Hadv.
    destruct (for_each _ (AdvancedTab.widgets tab)) as [ws|] eqn:Hall; [|discriminate].
    injection Hadv as <-. exact (set_all_built _ _ _ _ Hb Hall). }
  assert (Hshown : Forall shown os).
  { rewrite Forall_forall. intros o Ho. rewrite Hperm in Ho.
    apply list_elem_of_filter in Ho as [Hs _]. exact Hs. }
  exists a, pv, b, n.
  split; [reflexivity|]. split; [exact Hbool|].
  split; [reflexivity|]. split; [exact Hint|].
  match goal with
  | |- ConfigWidget.settings ?panel !! "auth" = _ /\ _ =>
      assert (Hauth : ConfigWidget.settings panel !! "auth" = Some (PyBool b))
  end.
  { rewrite settings_main_entry
      by (eapply skipped_not_in_tab; [exact Hb' | exact Hshown | reflexivity]).
    reflexivity. }
  split; [exact Hauth|]. split.
  { rewrite settings_main_entry
      by (eapply skipped_not_in_tab; [exact Hb' | exact Hshown | reflexivity]).
    reflexivity. }
  split; [apply QSpinBox_bound_range; lia|]. split; [reflexivity|].
  unfold ConfigWidget.save_changes. rewrite Hauth. cbn [truthy].
  cbn [ConfigWidget.users_tab Users.user_data Users.current_item_changed
       Users.display_user_data].
  destruct b; [|reflexivity]. case_bool_decide; reflexivity.
Qed.
End open_then_save.

(** * Changing a password *)

Section change_password_properties.
Context {R : Type} `{SrvUsers R} `{UserRecord R}.
Implicit Types self : Users.t R.

(** A dialog whose username field is read-only checks the passwords
    only. *)
Lemma accept_readOnly (user_data : gmap string R) (d : NewUser.t) :
  NewUser.uw_readOnly d = true ->
  (NewUser.password d <> QLineEdit.text (NewUser.p2 d)
   \/ NewUser.password d = ""
   \/ truthy_err (validate_password (NewUser.password d)) = true
   <-> exists title msg, NewUser.accept user_data d = NewUser.Refused title msg)
  /\ (~ (NewUser.password d <> QLineEdit.text (NewUser.p2 d)
         \/ NewUser.password d = ""
         \/ truthy_err (validate_password (NewUser.password d)) = true)
      <-> NewUser.accept user_data d = NewUser.Accepted).
Proof.
  intros Hro. unfold NewUser.accept, NewUser.check_username. rewrite Hro.
  cbn [negb]. case_bool_decide as Hp; cbn [negb].
  - case_bool_decide as He.
    + split; split; [eauto | tauto | tauto | discriminate].
    + destruct (truthy_err (validate_password (NewUser.password d))) eqn:Hv.
      * split; split; [eauto | tauto | tauto | discriminate].
      * split; split; [|intros (? & ? & ?); discriminate | reflexivity |].
        -- intros [?|[?|?]]; (tauto || discriminate).
        -- intros _ [?|[?|?]]; (tauto || discriminate).
  - split; split; [eauto | tauto | tauto | discriminate].
Qed.

(** X15.  Changing the password of a user who is shown and stored: the
    username is not checked again; an entry whose two password fields
    differ, whose password is empty or which the password validator
    refuses is answered by an error dialog and, the dialog then being
    closed, changes nothing; any other entry replaces the ['pw'] entry of
    that user's record, leaves every other record, the list and the
    selection as they are, and signals the change. *)
Theorem change_password_validates self (u un pw1 pw2 : string) (r : R) :
  u <> "" ->
  Users.user_data self !! u = Some r ->
  exists d0,
    NewUser_init_for (Users.user_data self) u = Ok d0
    /\ let d := NewUser.fill un pw1 pw2 d0 in
       let bad :=
         NewUser.password d <> QLineEdit.text (NewUser.p2 d)
         \/ NewUser.password d = ""
         \/ truthy_err (validate_password (NewUser.password d)) = true in
       NewUser.username d = NewUser.username d0
       /\ (bad ->
           exists title msg,
             User_change_password u [NewUser.press_ok un pw1 pw2] self
             = Ok (self, [error_dialog title msg]))
       /\ (~ bad ->
           User_change_password u [NewUser.press_ok un pw1 pw2] self
           = Ok ({| Users.user_data :=
                      <[u := record_set_pw (NewUser.password d) r]>
                        (Users.user_data self);
                    Users.user_list := Users.user_list self;
                    Users.user_display := Users.user_display self;
                    Users.connected := Users.connected self |},
                 [changed_signal])).
Proof.
  intros Hne Hr. unfold User_change_password, NewUser_init_for.
  rewrite (bool_decide_eq_false_2 _ Hne), Hr. cbn [or_raise mbind result_bind].
  eexists. split; [reflexivity|]. cbv zeta.
  match goal with |- context [NewUser.fill un pw1 pw2 ?x] => set (dlg := x) end.
  destruct (accept_readOnly (Users.user_data self) (NewUser.fill un pw1 pw2 dlg) eq_refl)
    as [Hbad Hgood].
  split; [reflexivity|]. split.
  - intros Hb. apply Hbad in Hb as (title & msg & Hacc).
    exists title, msg. cbn [NewUser.exec_]. rewrite Hacc. reflexivity.
  - intros Hg. apply Hgood in Hg. cbn [NewUser.exec_]. rewrite Hg. reflexivity.
Qed.
End change_password_properties.

(** * What the editor and the loader never do *)

(** X16.  "Add user" never touches an existing record: whatever the user
    does with the dialog, every record of the working mapping is still
    there afterwards, unchanged. *)
Theorem add_user_keeps_records {R : Type} `{SrvUsers R}
  (script : list NewUser.action) (self : Users.t R) (u : string) (r : R) :
  Users.user_data self !! u = Some r ->
  Users.user_data (Users.add_user script self).1 !! u = Some r.
Proof.
  intros Hr.
  destruct (exec_cases (Users.user_data self) script NewUser.init)
    as ([|] & d & evs & Hexec).
  - destruct (exec_accepted_inv _ _ _ _ _ Hexec) as [Hacc Hro].
    destruct (accept_iff (Users.user_data self) d Hro) as [_ Hgood].
    apply Hgood in Hacc.
    destruct (add_user_accepted self script d evs Hexec) as (self' & Hadd & Hdata & _).
    rewrite Hadd. cbn [fst]. rewrite Hdata, lookup_insert_ne; [exact Hr|].
    intros Heq. apply Hacc. right. left. rewrite Heq. apply elem_of_dom. eauto.
  - destruct (add_user_unaccepted self script d evs Hexec) as [Hadd _].
    rewrite Hadd. exact Hr.
Qed.

Lemma for_each_Ok_inv {A B} (f : A -> result B) (l : list A) (l' : list B) (x : A) :
  for_each f l = Ok l' -> x ∈ l -> exists y, f x = Ok y.
Proof.
  revert l'. induction l as [|a l IH]; intros l' Hall Hin; [inversion Hin|].
  cbn [for_each] in Hall. destruct (f a) as [b|] eqn:Hfa; [|discriminate].
  cbn [mbind result_bind] in Hall.
  destruct (for_each f l) as [bs|] eqn:Hrest; [|discriminate].
  apply elem_of_cons in Hin as [->|Hin]; [eauto|]. eapply IH; [reflexivity|exact Hin].
Qed.

(** X17.  Loading the "Advanced" tab succeeds only if the stored
    configuration has a value for every option shown: with one missing,
    [genesis] raises. *)
Theorem AdvancedTab_genesis_needs_every_value `{PyText}
  (options : registry) (opts : gmap string PyVal) (tab tab' : AdvancedTab.t) :
  NoDup (keys options) ->
  AdvancedTab.init options = Ok tab ->
  AdvancedTab.genesis opts tab = Ok tab' ->
  forall o, o ∈ options -> shown o -> is_Some (opts !! Option.name o).
Proof.
  intros Hnd Hinit Hgen o Ho Hs.
  destruct (init_built options Hnd) as (tab0 & os & Hinit' & Hperm & Hb).
  assert (tab0 = tab) by congruence. subst tab0.
  assert (Hin : o ∈ os) by (rewrite Hperm; apply list_elem_of_filter; auto).
  destruct (Forall2_elem_r _ _ _ o Hb Hin) as (w & Hw & [(Hn & _) _]).
  unfold AdvancedTab.genesis in Hgen.
  destruct (for_each _ (AdvancedTab.widgets tab)) as [ws|] eqn:Hall; [|discriminate].
  destruct (for_each_Ok_inv _ _ _ w Hall Hw) as [w1 Hf].
  rewrite Hn in Hf. destruct (opts !! Option.name o); [eauto | discriminate].
Qed.

(** * Closed instances of the further properties *)

Lemma Text_fixpoint_on_padded_text :
  QLineEdit.maxLength (qt padded_text_box) = 32767
  /\ Z.of_nat (String.length (QLineEdit.text (qt padded_text_box))) <= 32767
  /\ Text.get padded_text_box = PyStr "/calibre"
  /\ Text.get (@Text.set no_numerals (Text.get padded_text_box) padded_text_box)
     = Text.get padded_text_box.
Proof.
  assert (Hlen : Z.of_nat (String.length (QLineEdit.text (qt padded_text_box)))
                 <= 32767) by (vm_compute; discriminate).
  split; [reflexivity|]. split; [exact Hlen|]. split; [reflexivity|].
  exact (@Text_set_get_fixpoint no_numerals padded_text_box eq_refl Hlen).
Defined.

Lemma Int_set_20000_stays_in_range :
  exists w',
    @Int.set no_numerals (PyInt 20000) fresh_int_box = Ok w'
    /\ Int.get w' = PyInt 10000
    /\ QSpinBox.minimum (qt w') = 0
    /\ QSpinBox.maximum (qt w') = 10000
    /\ (exists z, Int.get w' = PyInt z /\ 0 <= z <= 10000)
    /\ @Int.set no_numerals (Int.get w') w' = Ok w'.
Proof.
  eexists. split; [reflexivity|]. split; [reflexivity|].
  exact (@Int_set_stays_in_range no_numerals fresh_int_box _ (PyInt 20000)
           eq_refl eq_refl eq_refl).
Defined.

Lemma Float_set_quarter_is_rounded :
  exists w',
    @Float.set no_numerals (PyFloat (Q2Qc (25 # 100))) fresh_float_box = Ok w'
    /\ Float.get w' = PyFloat (Double.nearest (3 # 10))
    /\ this (Double.nearest (3 # 10))
       = (5404319552844595 # 18014398509481984)%Q
    /\ (exists k : Z,
          0 <= k <= 100000 /\ Float.get w' = PyFloat (Double.nearest (k # 10)))
    /\ Float.get <$> @Float.set no_numerals (Float.get w') w' = Ok (Float.get w').
Proof.
  eexists. split; [reflexivity|]. split.
  { vm_compute. reflexivity. }
  split; [vm_compute; reflexivity|].
  destruct Float_init_qt as (Hmin & Hmax & Hdec).
  exact (@Float_set_stays_in_range no_numerals fresh_float_box _
           (PyFloat (Q2Qc (25 # 100))) Hmin Hmax Hdec eq_refl).
Defined.

Lemma Choices_get_book_list_mode :
  getitem sample_options "book_list_mode" = Ok book_list_mode_opt
  /\ Option.choices book_list_mode_opt = Some ["cover_grid"; "details_list"]
  /\ exists w layout',
       Choices.init sample_options "book_list_mode" [] = Ok (w, layout')
       /\ exists s,
            Choices.get (foldl (fun w v => Choices.set v w) w
                           [PyStr "details_list"; PyNone; PyInt 3])
            = PyStr s
            /\ s ∈ ["cover_grid"; "details_list"].
Proof.
  split; [reflexivity|]. split; [reflexivity|].
  destruct (Choices_get_is_a_choice sample_options "book_list_mode" []
              book_list_mode_opt "cover_grid" ["details_list"] eq_refl eq_refl)
    as (w & layout' & Hinit & Hget).
  exists w, layout'. split; [exact Hinit|]. apply Hget.
Defined.

Lemma calibre_options_NoDup : NoDup (keys calibre_options).
Proof. apply (bool_decide_unpack (NoDup (keys calibre_options))). vm_compute. exact I. Qed.

Lemma sample_options_NoDup : NoDup (keys sample_options).
Proof. apply (bool_decide_unpack (NoDup (keys sample_options))). vm_compute. exact I. Qed.

(** The stored configuration holds, for each option shown, a value that
    its widget keeps. *)
Lemma stored_config_kept (o : Option.t) :
  o ∈ calibre_options -> shown o ->
  exists v, stored_config !! Option.name o = Some v /\ kept_by o v.
Proof.
  intros Ho Hs. unfold calibre_options in Ho.
  repeat (apply elem_of_cons in Ho as [->|Ho]); try discriminate Hs.
  - eexists. split; [reflexivity|]. exists "details_list", ["cover_grid"; "details_list"].
    split; [reflexivity|]. split; [reflexivity|]. right. left.
  - eexists. split; [reflexivity|]. exists 1024. split; [reflexivity|lia].
  - eexists. split; [reflexivity|]. exists 903. split; [lia|reflexivity].
  - eexists. split; [reflexivity|]. right. exists "/calibre".
    split; [reflexivity|]. split; [reflexivity|]. split; [discriminate|].
    vm_compute. discriminate.
  - inversion Ho.
Qed.

Lemma calibre_defaults_kept (o : Option.t) :
  o ∈ calibre_options -> shown o -> kept_by o (Option.default o).
Proof.
  intros Ho Hs. unfold calibre_options in Ho.
  repeat (apply elem_of_cons in Ho as [->|Ho]); try discriminate Hs.
  - exists "cover_grid", ["cover_grid"; "details_list"].
    split; [reflexivity|]. split; [reflexivity|]. left.
  - exists 0. split; [reflexivity|lia].
  - exists 1200. split; [lia|]. cbn [Option.default timeout_opt]. f_equal.
    apply Qc_eq_this. reflexivity.
  - left. reflexivity.
  - inversion Ho.
Qed.

Lemma load_then_snapshot_calibre_options :
  NoDup (keys calibre_options)
  /\ exists tab tab',
       AdvancedTab.init calibre_options = Ok tab
       /\ @AdvancedTab.genesis no_numerals stored_config tab = Ok tab'
       /\ AdvancedTab.settings tab' !! "timeout" = Some (PyFloat (Double.nearest (903 # 10)))
       /\ AdvancedTab.settings tab' !! "url_prefix" = Some (PyStr "/calibre")
       /\ ~ is_Some (AdvancedTab.settings tab' !! "port").
Proof.
  split; [exact calibre_options_NoDup|].
  destruct (@AdvancedTab_genesis_then_settings no_numerals calibre_options
              stored_config calibre_options_NoDup stored_config_kept)
    as (tab & tab' & Hinit & Hgen & Hvals & Hkeys).
  exists tab, tab'. split; [exact Hinit|]. split; [exact Hgen|]. split; [|split].
  - apply (Hvals timeout_opt); [|reflexivity]. do 4 right. left.
  - apply (Hvals url_prefix_unset_opt); [|reflexivity]. do 5 right. left.
  - intros Hport. apply Hkeys in Hport as (o & Ho & Hs & Hn).
    unfold calibre_options in Ho.
    repeat (apply elem_of_cons in Ho as [->|Ho]); try discriminate Hs;
      try discriminate Hn. inversion Ho.
Defined.

Lemma restore_defaults_calibre_options :
  NoDup (keys calibre_options)
  /\ exists tab tab1 tab2,
       AdvancedTab.init calibre_options = Ok tab
       /\ @AdvancedTab.genesis no_numerals stored_config tab = Ok tab1
       /\ @AdvancedTab.restore_defaults no_numerals tab1 = Ok tab2
       /\ AdvancedTab.settings tab2 !! "url_prefix" = Some PyNone
       /\ AdvancedTab.settings tab2 !! "book_list_mode" = Some (PyStr "cover_grid").
Proof.
  split; [exact calibre_options_NoDup|].
  destruct (AdvancedTab.init calibre_options) as [tab|] eqn:Hinit;
    [|vm_compute in Hinit; discriminate].
  destruct (@AdvancedTab.genesis no_numerals stored_config tab) as [tab1|] eqn:Hgen.
  - destruct (@AdvancedTab_restore_defaults_then_settings no_numerals calibre_options
                stored_config tab tab1 calibre_options_NoDup calibre_defaults_kept
                Hinit Hgen) as (tab2 & Hrestore & Hvals).
    exists tab, tab1, tab2. split; [reflexivity|]. split; [exact Hgen|].
    split; [exact Hrestore|]. split.
    + apply (Hvals url_prefix_unset_opt); [|reflexivity]. do 5 right. left.
    + apply (Hvals book_list_mode_opt); [|reflexivity]. right. left.
  - exfalso. vm_compute in Hinit. injection Hinit as <-.
    vm_compute in Hgen. discriminate.
Defined.

Lemma genesis_needs_every_value_calibre_options :
  NoDup (keys calibre_options)
  /\ exists tab tab',
       AdvancedTab.init calibre_options = Ok tab
       /\ @AdvancedTab.genesis no_numerals stored_config tab = Ok tab'
       /\ is_Some (stored_config !! "timeout").
Proof.
  split; [exact calibre_options_NoDup|].
  destruct (AdvancedTab.init calibre_options) as [tab|] eqn:Hinit;
    [|vm_compute in Hinit; discriminate].
  destruct (@AdvancedTab.genesis no_numerals stored_config tab) as [tab'|] eqn:Hgen.
  - exists tab, tab'. split; [reflexivity|]. split; [exact Hgen|].
    apply (@AdvancedTab_genesis_needs_every_value no_numerals calibre_options
             stored_config tab tab' calibre_options_NoDup Hinit Hgen timeout_opt);
      [|reflexivity]. do 4 right. left.
  - exfalso. vm_compute in Hinit. injection Hinit as <-.
    vm_compute in Hgen. discriminate.
Defined.

Lemma alice_editor_ok : editor_ok alice_editor.
Proof.
  unfold editor_ok, alice_editor.
  cbn [Users.user_data Users.user_list Users.user_display Users.connected
       QListWidget.items].
  split; [|split; [|split; [reflexivity|split; reflexivity]]].
  - apply NoDup_singleton.
  - intros u. rewrite dom_singleton, elem_of_singleton, list_elem_of_singleton.
    reflexivity.
Qed.

Lemma add_bob_keeps_editor_ok :
  editor_ok alice_editor
  /\ editor_ok
       (@Users.add_user string plain_users [NewUser.press_ok "bob" "pw" "pw"]
          alice_editor).1.
Proof.
  split; [exact alice_editor_ok|].
  exact (@add_user_editor_ok string plain_users [NewUser.press_ok "bob" "pw" "pw"]
           alice_editor alice_editor_ok).
Defined.

Lemma remove_alice_keeps_editor_ok :
  editor_ok alice_editor
  /\ QListWidget.currentItem (Users.user_list alice_editor) = Some "alice"
  /\ exists self' : Users.t string,
       Users.remove_user alice_editor = (self', [changed_signal])
       /\ Users.user_data self' = delete "alice" (Users.user_data alice_editor)
       /\ editor_ok self'.
Proof.
  split; [exact alice_editor_ok|]. split; [reflexivity|].
  pose proof (remove_user_editor_ok alice_editor alice_editor_ok) as Hrm.
  change (QListWidget.currentItem (Users.user_list alice_editor))
    with (Some "alice") in Hrm.
  destruct Hrm as (self' & Hrm & Hdata & _ & Hok).
  exists self'. split; [exact Hrm|]. split; [exact Hdata|exact Hok].
Defined.

Lemma slow_server_comes_up :
  exists self',
    ConfigWidget.start_server 5 slow_server (panel_with_auth {["alice" := "secret"]})
    = Some (Ok tt, self')
    /\ start_requests (ConfigWidget.log self') = [start_content_server]
    /\ MainTab.start_server_button (ConfigWidget.main_tab self') = false
    /\ MainTab.stop_server_button (ConfigWidget.main_tab self') = true
    /\ MainTab.test_server_button (ConfigWidget.main_tab self') = true
    /\ ConfigWidget.busy_cursor self' = false.
Proof.
  assert (Hauth : ConfigWidget.settings (panel_with_auth {["alice" := "secret"]})
                  !! "auth" = Some (PyBool true)) by (vm_compute; reflexivity).
  assert (Husers : truthy (PyBool true) = false
                   \/ Users.user_data
                        (ConfigWidget.users_tab (panel_with_auth {["alice" := "secret"]}))
                      <> ∅).
  { right. apply insert_non_empty. }
  assert (Hdown : forall j, (j < 2)%nat ->
            is_running (slow_server j) = false /\ exception (slow_server j) = None).
  { intros [|[|j]] Hj; [split; reflexivity|split; reflexivity|lia]. }
  destruct (start_server_comes_up (panel_with_auth {["alice" := "secret"]})
              (PyBool true) slow_server 2 5 Hauth Husers Hdown eq_refl eq_refl
              ltac:(lia))
    as (self' & Hstart & Hlog & Hb1 & Hb2 & Hb3 & Hcur & _).
  exists self'. split; [exact Hstart|]. split.
  - rewrite Hlog. reflexivity.
  - repeat split; assumption.
Defined.

Lemma failing_server_is_reported :
  exists self',
    ConfigWidget.start_server 5 failing_server
      (panel_with_auth {["alice" := "secret"]})
    = Some (Ok tt, self')
    /\ last (ConfigWidget.log self')
       = Some (error_dialog "Failed to start content server" "Address already in use")
    /\ ConfigWidget.main_tab self'
       = ConfigWidget.main_tab (panel_with_auth {["alice" := "secret"]})
    /\ ConfigWidget.busy_cursor self' = false.
Proof.
  assert (Hauth : ConfigWidget.settings (panel_with_auth {["alice" := "secret"]})
                  !! "auth" = Some (PyBool true)) by (vm_compute; reflexivity).
  assert (Husers : truthy (PyBool true) = false
                   \/ Users.user_data
                        (ConfigWidget.users_tab (panel_with_auth {["alice" := "secret"]}))
                      <> ∅).
  { right. apply insert_non_empty. }
  assert (Hdown : forall j, (j < 1)%nat ->
            is_running (failing_server j) = false
            /\ exception (failing_server j) = None).
  { intros [|j] Hj; [split; reflexivity|lia]. }
  destruct (start_server_reports_failure (panel_with_auth {["alice" := "secret"]})
              (PyBool true) failing_server 1 5 "Address already in use"
              Hauth Husers Hdown eq_refl ltac:(lia))
    as (self' & Hstart & Hlog & Htab & Hcur).
  exists self'. split; [exact Hstart|]. split.
  - rewrite Hlog. reflexivity.
  - split; assumption.
Defined.

Lemma start_server_cursor_on_failing_server :
  exists r self',
    ConfigWidget.start_server 5 failing_server
      (panel_with_auth {["alice" := "secret"]})
    = Some (r, self')
    /\ (ConfigWidget.busy_cursor self' = false
        \/ ConfigWidget.busy_cursor self'
           = ConfigWidget.busy_cursor (panel_with_auth {["alice" := "secret"]})).
Proof.
  destruct (ConfigWidget.start_server 5 failing_server
              (panel_with_auth {["alice" := "secret"]})) as [[r self']|] eqn:Hstart.
  - exists r, self'. split; [reflexivity|].
    exact (start_server_resets_cursor _ _ _ _ _ Hstart).
  - exfalso. vm_compute in Hstart. discriminate.
Defined.

Lemma open_panel_on_calibre_options :
  NoDup (keys calibre_options)
  /\ exists p0 p : ConfigWidget.t string,
       @ConfigWidget.init string calibre_options = Ok p0
       /\ @ConfigWidget.genesis string caseless_icu no_numerals
            {| content_server := None |} stored_config
            {["alice" := "secret"]} p0 = Ok p
       /\ ConfigWidget.settings p !! "auth" = Some (PyBool true)
       /\ ConfigWidget.settings p !! "port" = Some (PyInt 8080)
       /\ Users.user_data (ConfigWidget.users_tab p) = {["alice" := "secret"]}
       /\ (ConfigWidget.save_changes p).1 = Ok true.
Proof.
  split; [exact calibre_options_NoDup|].
  destruct (@ConfigWidget.init string calibre_options) as [p0|] eqn:Hinit;
    [|vm_compute in Hinit; discriminate].
  destruct (@ConfigWidget.genesis string caseless_icu no_numerals
              {| content_server := None |} stored_config
              {["alice" := "secret"]} p0) as [p|] eqn:Hgen.
  - destruct (@open_panel_then_snapshot string caseless_icu no_numerals
                calibre_options {| content_server := None |} stored_config
                {["alice" := "secret"]} p0 p calibre_options_NoDup Hinit Hgen)
      as (a & pv & b & n & Ha & Hb & Hpv & Hn & Hauth & Hport & _ & Hdata & Hsave).
    assert (Ea : a = PyBool true) by (vm_compute in Ha; congruence).
    assert (Epv : pv = PyInt 8080) by (vm_compute in Hpv; congruence).
    subst a pv.
    assert (Eb : b = true) by (vm_compute in Hb; congruence).
    assert (En : n = 8080) by (vm_compute in Hn; congruence).
    subst b n.
    exists p0, p. split; [reflexivity|]. split; [exact Hgen|].
    split; [exact Hauth|]. split; [exact Hport|]. split; [exact Hdata|].
    rewrite Hsave. rewrite bool_decide_eq_false_2 by apply insert_non_empty.
    reflexivity.
  - exfalso. vm_compute in Hinit. injection Hinit as <-.
    vm_compute in Hgen. discriminate.
Defined.

Lemma change_password_of_alice :
  "alice" <> ""
  /\ Users.user_data alice_editor !! "alice" = Some "secret"
  /\ (exists self' : Users.t string,
        @User_change_password string plain_users plain_records "alice"
          [NewUser.press_ok "mallory" "hunter2" "hunter2"] alice_editor
        = Ok (self', [changed_signal])
        /\ Users.user_data self' = {["alice" := "hunter2"]}
        /\ Users.user_list self' = Users.user_list alice_editor)
  /\ (exists title msg,
        @User_change_password string plain_users plain_records "alice"
          [NewUser.press_ok "alice" "hunter2" "hunter3"] alice_editor
        = Ok (alice_editor, [error_dialog title msg])).
Proof.
  assert (Hne : "alice" <> "") by discriminate.
  assert (Hr : Users.user_data alice_editor !! "alice" = Some "secret")
    by apply lookup_singleton_eq.
  split; [exact Hne|]. split; [exact Hr|]. split.
  - destruct (@change_password_validates string plain_users plain_records
                alice_editor "alice" "mallory" "hunter2" "hunter2" "secret" Hne Hr)
      as (d0 & Hd0 & _ & _ & Hgood).
    vm_compute in Hd0. injection Hd0 as <-.
    eexists. split.
    + apply Hgood. intros [Hbad|[Hbad|Hbad]]; vm_compute in Hbad;
        first [discriminate Hbad | apply Hbad; reflexivity].
    + split; [|reflexivity].
      cbn [Users.user_data]. unfold alice_editor. cbn [Users.user_data].
      rewrite insert_singleton_eq. reflexivity.
  - destruct (@change_password_validates string plain_users plain_records
                alice_editor "alice" "alice" "hunter2" "hunter3" "secret" Hne Hr)
      as (d0 & Hd0 & _ & Hbad & _).
    vm_compute in Hd0. injection Hd0 as <-.
    apply Hbad. left. vm_compute. discriminate.
Defined.

Lemma add_bob_keeps_alice_record :
  Users.user_data alice_editor !! "alice" = Some "secret"
  /\ Users.user_data
       (@Users.add_user string plain_users
          [NewUser.press_ok "alice" "other" "other"; NewUser.press_ok "bob" "pw" "pw"]
          alice_editor).1 !! "alice" = Some "secret".
Proof.
  assert (Hr : Users.user_data alice_editor !! "alice" = Some "secret")
    by apply lookup_singleton_eq.
  split; [exact Hr|].
  exact (@add_user_keeps_records string plain_users _ alice_editor "alice" "secret" Hr).
Defined.

(** * Restoring the defaults of the "Main" tab *)

Section main_tab_defaults.
Context {R : Type}.

Lemma MainTab_settings_inj (m m' : MainTab.t) :
  MainTab.settings m = MainTab.settings m'
  <-> QCheckBox.isChecked (MainTab.opt_auth m) = QCheckBox.isChecked (MainTab.opt_auth m')
      /\ QSpinBox.value (MainTab.opt_port m) = QSpinBox.value (MainTab.opt_port m').
Proof.
  unfold MainTab.settings. split.
  - intros Heq. split.
    + assert (Hl := f_equal (fun d : gmap string PyVal => d !! "auth") Heq).
      cbn beta in Hl.
      do 2 (rewrite lookup_insert_ne, lookup_insert_eq in Hl by discriminate).
      congruence.
    + assert (Hl := f_equal (fun d : gmap string PyVal => d !! "port") Heq).
      cbn beta in Hl. rewrite !lookup_insert_eq in Hl. congruence.
  - intros [-> ->]. reflexivity.
Qed.

(** What ticking or clearing the [auth] box does to a tab. *)
Lemma MainTab_setChecked_auth_spec (b : bool) (self : MainTab.t) :
  let s := (MainTab_setChecked_auth (R := R) b self).1 in
  let evs := (MainTab_setChecked_auth (R := R) b self).2 in
  MainTab.opt_port s = MainTab.opt_port self
  /\ QCheckBox.isChecked (MainTab.opt_auth s) = b
  /\ (MainTab.auth_desc self = MainTab.auth_desc (MainTab.change_auth_desc self) ->
      MainTab.auth_desc s = MainTab.auth_desc (MainTab.change_auth_desc s))
  /\ MainTab.start_server_button s = MainTab.start_server_button self
  /\ MainTab.stop_server_button s = MainTab.stop_server_button self
  /\ MainTab.test_server_button s = MainTab.test_server_button self
  /\ (evs = [] <-> b = QCheckBox.isChecked (MainTab.opt_auth self))
  /\ (forall e, e ∈ evs -> e = changed_signal).
Proof.
  unfold MainTab_setChecked_auth. case_bool_decide as Hbe; cbn [fst snd].
  - split; [reflexivity|]. split; [reflexivity|]. split.
    { intros Hdesc.
      cbn [MainTab.auth_desc MainTab.change_auth_desc MainTab.opt_auth
           QCheckBox.setChecked QCheckBox.isChecked QCheckBox.checked].
      rewrite Hdesc, Hbe. reflexivity. }
    split; [reflexivity|]. split; [reflexivity|]. split; [reflexivity|].
    split; [tauto|]. intros e He. inversion He.
  - split; [reflexivity|]. split; [reflexivity|]. split; [reflexivity|].
    split; [reflexivity|]. split; [reflexivity|]. split; [reflexivity|].
    split; [split; [discriminate|tauto]|].
    intros e He. apply list_elem_of_singleton in He. exact He.
Qed.

(** X18.  On a consistent "Main" tab and a registry whose [auth] and
    [port] defaults Qt takes as a boolean and an integer,
    [restore_defaults] succeeds; the tab's settings are then the default
    flag and the default port forced into 1..65535, the description
    matches the flag, the three server buttons are as they were, and the
    change signal was emitted exactly if one of the two settings
    changed. *)
Theorem MainTab_restore_defaults_then_settings
  (options : registry) (self : MainTab.t) (a p : Option.t) (b : bool) (n : Z) :
  main_tab_ok self ->
  getitem options "auth" = Ok a ->
  to_qt_bool (Option.default a) = Ok b ->
  getitem options "port" = Ok p ->
  to_qt_int (Option.default p) = Ok n ->
  exists self' (evs : list (event R)),
    MainTab_restore_defaults options self = Ok (self', evs)
    /\ MainTab.settings self'
       = <["port" := PyInt (QSpinBox.bound 1 65535 n)]> (<["auth" := PyBool b]> ∅)
    /\ main_tab_ok self'
    /\ MainTab.start_server_button self' = MainTab.start_server_button self
    /\ MainTab.stop_server_button self' = MainTab.stop_server_button self
    /\ MainTab.test_server_button self' = MainTab.test_server_button self
    /\ (evs = [] <-> MainTab.settings self' = MainTab.settings self)
    /\ (forall e, e ∈ evs -> e = changed_signal).
Proof.
  intros (Hmin & Hmax & Hdesc) Ha Hb Hp Hn.
  unfold MainTab_restore_defaults. rewrite Ha. cbn [mbind result_bind].
  rewrite Hb. cbn [mbind result_bind].
  pose proof (MainTab_setChecked_auth_spec b self) as Hspec.
  destruct (MainTab_setChecked_auth (R := R) b self) as [self1 evs1].
  cbn [fst snd] in Hspec.
  destruct Hspec as (Hport1 & Hauth1 & Hdesc1 & Hs & Ht & Hu & Hevs1 & Hsig1).
  specialize (Hdesc1 Hdesc).
  rewrite Hp. cbn [mbind result_bind]. rewrite Hn. cbn [mbind result_bind].
  unfold MainTab_setValue_port. eexists _, _. split; [reflexivity|].
  cbn [MainTab.settings MainTab.opt_port MainTab.opt_auth MainTab.auth_desc
       MainTab.start_server_button MainTab.stop_server_button
       MainTab.test_server_button].
  rewrite Hport1.
  split.
  { unfold MainTab.settings, QSpinBox.setValue.
    cbn [MainTab.opt_port MainTab.opt_auth QSpinBox.value].
    rewrite Hmin, Hmax, Hauth1. reflexivity. }
  split.
  { unfold main_tab_ok.
    cbn [MainTab.opt_port MainTab.auth_desc MainTab.change_auth_desc MainTab.opt_auth
         QSpinBox.setValue QSpinBox.minimum QSpinBox.maximum].
    split; [exact Hmin|]. split; [exact Hmax|]. exact Hdesc1. }
  split; [exact Hs|]. split; [exact Ht|]. split; [exact Hu|]. split.
  - rewrite MainTab_settings_inj.
    cbn [MainTab.opt_port MainTab.opt_auth]. rewrite Hauth1.
    split.
    + intros Hnil. apply app_eq_nil in Hnil as [Hn1 Hn2].
      split; [apply Hevs1, Hn1|]. case_bool_decide; [assumption|discriminate].
    + intros [Hbe Hv]. apply Hevs1 in Hbe. rewrite Hbe.
      rewrite bool_decide_eq_true_2 by exact Hv. reflexivity.
  - intros e He. apply elem_of_app in He as [He|He]; [apply Hsig1, He|].
    case_bool_decide; [inversion He | apply list_elem_of_singleton in He; exact He].
Qed.
End main_tab_defaults.

(** * Stopping the server *)

Section stop_server_properties.
Context {R : Type}.
Implicit Types self : Stopping.t R.

(** The panel once [check_exited] has found the server stopped. *)
Lemma check_exited_finds (obs : nat -> Server) (k b fuel : nat) self :
  (forall j, (j < k)%nat -> is_running (obs (b + j)%nat) = true) ->
  is_running (obs (b + k)%nat) = false ->
  (k < fuel)%nat ->
  Stopping.check_exited fuel obs b self
  = Some {| Stopping.panel :=
              ConfigWidget.set_main_tab
                (MainTab.update_button_state {| content_server := None |}
                   (ConfigWidget.main_tab (Stopping.panel self)))
                (ConfigWidget.set_gui {| content_server := None |}
                   (Stopping.panel self));
            Stopping.stopping_msg := Some false;
            Stopping.calls :=
              (Stopping.calls self ++ replicate k (singleShot 20)
               ++ [stopping_msg_accept])%list |}.
Proof.
  revert b fuel self. induction k as [|k IH]; intros b fuel self Hrun Hend Hfuel;
    (destruct fuel as [|fuel]; [lia|]); cbn [Stopping.check_exited].
  - rewrite Nat.add_0_r in Hend. rewrite Hend. reflexivity.
  - pose proof (Hrun O ltac:(lia)) as H0. rewrite Nat.add_0_r in H0. rewrite H0.
    rewrite (IH (S b) fuel).
    + cbn [Stopping.panel Stopping.calls replicate]. rewrite <- app_assoc. reflexivity.
    + intros j Hj. replace (S b + j)%nat with (b + S j)%nat by lia. apply Hrun. lia.
    + replace (S b + k)%nat with (b + S k)%nat by lia. exact Hend.
    + lia.
Qed.

(** Setting the buttons and the server leaves the settings snapshot as
    it is. *)
Lemma settings_after_buttons (p : ConfigWidget.t R) (g g' : Gui) :
  ConfigWidget.settings
    (ConfigWidget.set_main_tab
       (MainTab.update_button_state g (ConfigWidget.main_tab p))
       (ConfigWidget.set_gui g' p))
  = ConfigWidget.settings p.
Proof. reflexivity. Qed.

(** X19.  With a server present that is found running at [k] looks and
    stopped at the next, [stop_server] (given fuel beyond [k]) asks the
    server to stop once, opens the "Stopping" dialog, starts the timer
    once for 500 ms and [k] times for 20 ms, and then closes the dialog;
    the main window then has no server, Start is enabled, Stop and Test
    are disabled, and nothing was saved or changed in the settings or
    the user accounts. *)
Theorem stop_server_completes self (srv : Server) (obs : nat -> Server)
  (k fuel : nat) :
  content_server (ConfigWidget.gui (Stopping.panel self)) = Some srv ->
  (forall j, (j < k)%nat -> is_running (obs j) = true) ->
  is_running (obs k) = false ->
  (k < fuel)%nat ->
  exists self',
    Stopping.stop_server fuel obs self = Some (Ok tt, self')
    /\ Stopping.calls self'
       = (Stopping.calls self ++ [server_stop; singleShot 500; stopping_msg_exec]
          ++ replicate k (singleShot 20) ++ [stopping_msg_accept])%list
    /\ Stopping.stopping_msg self' = Some false
    /\ ConfigWidget.gui (Stopping.panel self') = {| content_server := None |}
    /\ MainTab.start_server_button (ConfigWidget.main_tab (Stopping.panel self')) = true
    /\ MainTab.stop_server_button (ConfigWidget.main_tab (Stopping.panel self')) = false
    /\ MainTab.test_server_button (ConfigWidget.main_tab (Stopping.panel self')) = false
    /\ ConfigWidget.log (Stopping.panel self') = ConfigWidget.log (Stopping.panel self)
    /\ ConfigWidget.settings (Stopping.panel self')
       = ConfigWidget.settings (Stopping.panel self)
    /\ ConfigWidget.users_tab (Stopping.panel self')
       = ConfigWidget.users_tab (Stopping.panel self).
Proof.
  intros Hsrv Hrun Hend Hfuel. unfold Stopping.stop_server. rewrite Hsrv.
  rewrite (check_exited_finds obs k 0 fuel) by (cbn; auto).
  cbn [mbind option_bind Stopping.panel Stopping.calls Stopping.stopping_msg].
  eexists. split; [reflexivity|].
  cbn [Stopping.panel Stopping.calls Stopping.stopping_msg].
  rewrite <- !app_assoc. repeat split.
Qed.

(** X20.  Start, then stop.  After a start that found the server running
    and a stop that found it stopped, the panel is ready for another
    start: the main window has no server, Start is enabled and Stop and
    Test are disabled, the busy cursor is off, the settings and the user
    accounts are those saved by the start, and that save and the one
    start request are all that reached the outside. *)
Theorem start_then_stop_server (p : ConfigWidget.t R) (auth : PyVal)
  (obs obs' : nat -> Server) (k fuel k' fuel' : nat) :
  ConfigWidget.settings p !! "auth" = Some auth ->
  truthy auth = false \/ Users.user_data (ConfigWidget.users_tab p) <> ∅ ->
  (forall j, (j < k)%nat ->
     is_running (obs j) = false /\ exception (obs j) = None) ->
  is_running (obs k) = true ->
  exception (obs k) = None ->
  (k < fuel)%nat ->
  (forall j, (j < k')%nat -> is_running (obs' j) = true) ->
  is_running (obs' k') = false ->
  (k' < fuel')%nat ->
  exists p1 s2,
    ConfigWidget.start_server fuel obs p = Some (Ok tt, p1)
    /\ Stopping.stop_server fuel' obs' (Stopping.of_panel p1) = Some (Ok tt, s2)
    /\ ConfigWidget.gui (Stopping.panel s2) = {| content_server := None |}
    /\ MainTab.start_server_button (ConfigWidget.main_tab (Stopping.panel s2)) = true
    /\ MainTab.stop_server_button (ConfigWidget.main_tab (Stopping.panel s2)) = false
    /\ MainTab.test_server_button (ConfigWidget.main_tab (Stopping.panel s2)) = false
    /\ ConfigWidget.busy_cursor (Stopping.panel s2) = false
    /\ ConfigWidget.settings (Stopping.panel s2) = ConfigWidget.settings p
    /\ ConfigWidget.users_tab (Stopping.panel s2) = ConfigWidget.users_tab p
    /\ persisted (ConfigWidget.log (Stopping.panel s2))
       = (persisted (ConfigWidget.log p)
          ++ [ConfigWidgetBase_commit; change_settings (ConfigWidget.settings p);
              set_user_data (Users.user_data (ConfigWidget.users_tab p))])%list
    /\ start_requests (ConfigWidget.log (Stopping.panel s2))
       = (start_requests (ConfigWidget.log p) ++ [start_content_server])%list.
Proof.
  intros Hauth Hok Hwait Hrun Hexc Hfuel Hrun' Hend' Hfuel'.
  unfold ConfigWidget.start_server.
  rewrite (save_changes_accepted p auth Hauth Hok).
  rewrite (wait_started_finds obs k 0 fuel) by (cbn; auto).
  cbn [mbind option_bind Nat.add]. rewrite Hexc.
  eexists. eexists. split; [reflexivity|].
  unfold Stopping.stop_server, Stopping.of_panel.
  cbn [Stopping.panel ConfigWidget.gui ConfigWidget.set_cursor
       ConfigWidget.set_main_tab ConfigWidget.set_gui content_server].
  rewrite (check_exited_finds obs' k' 0 fuel') by (cbn; auto).
  cbn [mbind option_bind]. split; [reflexivity|].
  cbn [Stopping.panel ConfigWidget.gui ConfigWidget.set_cursor
       ConfigWidget.set_main_tab ConfigWidget.set_gui ConfigWidget.main_tab
       ConfigWidget.busy_cursor ConfigWidget.users_tab ConfigWidget.emit
       ConfigWidget.set_log ConfigWidget.log
       MainTab.update_button_state MainTab.start_server_button
       MainTab.stop_server_button MainTab.test_server_button content_server].
  split; [reflexivity|]. split; [reflexivity|]. split; [reflexivity|].
  split; [reflexivity|]. split; [reflexivity|]. split; [reflexivity|].
  split; [reflexivity|]. split.
  - rewrite !persisted_app. cbn [persisted List.filter persists].
    assert (Hs : forall n, persisted (replicate n (@sleep R)) = []).
    { induction n as [|n IHn]; [reflexivity|exact IHn]. }
    unfold persisted in *. rewrite Hs, !app_nil_r. reflexivity.
  - rewrite !start_requests_app. cbn [start_requests List.filter requests_start].
    assert (Hs : forall n, start_requests (replicate n (@sleep R)) = []).
    { induction n as [|n IHn]; [reflexivity|exact IHn]. }
    unfold start_requests in *. rewrite Hs, !app_nil_r. reflexivity.
Qed.
End stop_server_properties.

(** * The "Main" tab stays consistent *)

Section main_tab_invariant.
Context {R : Type}.

Lemma MainTab_genesis_ok (opts : gmap string PyVal) (gui : Gui) (self : MainTab.t) :
  MainTab.genesis opts gui MainTab.init = Ok self ->
  main_tab_ok self /\ 1 <= QSpinBox.value (MainTab.opt_port self) <= 65535.
Proof.
  unfold MainTab.genesis.
  destruct (opts !! "auth") as [a|]; [|discriminate]. cbn [or_raise mbind result_bind].
  destruct (to_qt_bool a) as [b|]; [|discriminate]. cbn [mbind result_bind].
  destruct (opts !! "port") as [p|]; [|discriminate]. cbn [or_raise mbind result_bind].
  destruct (to_qt_int p) as [n|]; [|discriminate]. cbn [mbind result_bind].
  intros [= <-]. split.
  - split; [reflexivity|]. split; reflexivity.
  - apply (QSpinBox_bound_range 1 65535 n). lia.
Qed.

(** X21.  From the moment the "Main" tab has opened, whatever the user
    then ticks, clears or types: the port box still ranges over 1..65535
    and holds a port within that range, and the description under the
    check box is the one for the box's state. *)
Theorem MainTab_stays_consistent (opts : gmap string PyVal) (gui : Gui)
  (self : MainTab.t) (edits : list (bool + Z)) :
  MainTab.genesis opts gui MainTab.init = Ok self ->
  let self' :=
    foldl (fun m e =>
             match e with
             | inl b => (MainTab_setChecked_auth (R := R) b m).1
             | inr n => (MainTab_setValue_port (R := R) n m).1
             end) self edits in
  main_tab_ok self' /\ 1 <= QSpinBox.value (MainTab.opt_port self') <= 65535.
Proof.
  intros Hgen. apply MainTab_genesis_ok in Hgen. cbn zeta.
  induction edits as [|e edits IH] using rev_ind; [exact Hgen|].
  rewrite foldl_app. cbn [foldl].
  destruct IH as [(Hmin & Hmax & Hdesc) Hval].
  set (m := foldl _ self edits) in *. destruct e as [b|n].
  - destruct (MainTab_setChecked_auth_spec (R := R) b m)
      as (Hport & _ & Hd & _).
    split; [|rewrite Hport; exact Hval].
    split; [rewrite Hport; exact Hmin|]. split; [rewrite Hport; exact Hmax|].
    apply Hd, Hdesc.
  - unfold MainTab_setValue_port. cbn [fst]. split.
    + split; [exact Hmin|]. split; [exact Hmax|]. exact Hdesc.
    + cbn [MainTab.opt_port QSpinBox.setValue QSpinBox.value].
      rewrite Hmin, Hmax. apply QSpinBox_bound_range. lia.
Qed.
End main_tab_invariant.

(** * Closed instances: the "Main" tab and stopping the server *)

Lemma opened_main_tab_ok : main_tab_ok opened_main_tab.
Proof. split; [reflexivity|]. split; reflexivity. Qed.

Lemma restore_defaults_on_opened_main_tab :
  main_tab_ok opened_main_tab
  /\ MainTab.settings opened_main_tab
     = <["port" := PyInt 8080]> (<["auth" := PyBool true]> ∅)
  /\ exists self' (evs : list (event string)),
       MainTab_restore_defaults calibre_options opened_main_tab = Ok (self', evs)
       /\ MainTab.settings self'
          = <["port" := PyInt 8080]> (<["auth" := PyBool false]> ∅)
       /\ main_tab_ok self'
       /\ evs <> [].
Proof.
  split; [exact opened_main_tab_ok|]. split; [reflexivity|].
  destruct (@MainTab_restore_defaults_then_settings string calibre_options
              opened_main_tab auth_opt port_opt false 8080 opened_main_tab_ok
              eq_refl eq_refl eq_refl eq_refl)
    as (self' & evs & Hrestore & Hset & Hok & _ & _ & _ & Hevs & _).
  exists self', evs. split; [exact Hrestore|]. split; [exact Hset|].
  split; [exact Hok|]. intros Hnil. apply Hevs in Hnil. rewrite Hset in Hnil.
  assert (Hl := f_equal (fun d : gmap string PyVal => d !! "auth") Hnil).
  vm_compute in Hl. discriminate Hl.
Defined.

Lemma stop_server_on_stopping_server :
  exists self',
    Stopping.stop_server 5 stopping_server
      (Stopping.of_panel
         (ConfigWidget.set_gui
            {| content_server := Some {| is_running := true; exception := None |} |}
            (panel_with_auth {["alice" := "secret"]})))
    = Some (Ok tt, self')
    /\ Stopping.calls self'
       = [server_stop; singleShot 500; stopping_msg_exec;
          singleShot 20; singleShot 20; stopping_msg_accept]
    /\ Stopping.stopping_msg self' = Some false
    /\ ConfigWidget.gui (Stopping.panel self') = {| content_server := None |}
    /\ MainTab.start_server_button (ConfigWidget.main_tab (Stopping.panel self')) = true.
Proof.
  assert (Hrun : forall j, (j < 2)%nat -> is_running (stopping_server j) = true).
  { intros [|[|j]] Hj; [reflexivity|reflexivity|lia]. }
  destruct (stop_server_completes
              (Stopping.of_panel
                 (ConfigWidget.set_gui
                    {| content_server := Some {| is_running := true; exception := None |} |}
                    (panel_with_auth {["alice" := "secret"]})))
              {| is_running := true; exception := None |} stopping_server 2 5
              eq_refl Hrun eq_refl ltac:(lia))
    as (self' & Hstop & Hcalls & Hmsg & Hgui & Hstart & _).
  exists self'. split; [exact Hstop|]. split; [exact Hcalls|].
  split; [exact Hmsg|]. split; [exact Hgui|exact Hstart].
Defined.

Lemma start_then_stop_on_panel :
  exists p1 s2,
    ConfigWidget.start_server 5 slow_server (panel_with_auth {["alice" := "secret"]})
    = Some (Ok tt, p1)
    /\ Stopping.stop_server 5 stopping_server (Stopping.of_panel p1)
       = Some (Ok tt, s2)
    /\ ConfigWidget.gui (Stopping.panel s2) = {| content_server := None |}
    /\ MainTab.start_server_button (ConfigWidget.main_tab (Stopping.panel s2)) = true
    /\ MainTab.stop_server_button (ConfigWidget.main_tab (Stopping.panel s2)) = false
    /\ start_requests (ConfigWidget.log (Stopping.panel s2)) = [start_content_server].
Proof.
  assert (Hauth : ConfigWidget.settings (panel_with_auth {["alice" := "secret"]})
                  !! "auth" = Some (PyBool true)) by (vm_compute; reflexivity).
  assert (Husers : truthy (PyBool true) = false
                   \/ Users.user_data
                        (ConfigWidget.users_tab (panel_with_auth {["alice" := "secret"]}))
                      <> ∅).
  { right. apply insert_non_empty. }
  assert (Hdown : forall j, (j < 2)%nat ->
            is_running (slow_server j) = false /\ exception (slow_server j) = None).
  { intros [|[|j]] Hj; [split; reflexivity|split; reflexivity|lia]. }
  assert (Hrun : forall j, (j < 2)%nat -> is_running (stopping_server j) = true).
  { intros [|[|j]] Hj; [reflexivity|reflexivity|lia]. }
  destruct (start_then_stop_server (panel_with_auth {["alice" := "secret"]})
              (PyBool true) slow_server stopping_server 2 5 2 5
              Hauth Husers Hdown eq_refl eq_refl ltac:(lia) Hrun eq_refl ltac:(lia))
    as (p1 & s2 & Hstart & Hstop & Hgui & Hb1 & Hb2 & _ & _ & _ & _ & _ & Hreq).
  exists p1, s2. split; [exact Hstart|]. split; [exact Hstop|].
  split; [exact Hgui|]. split; [exact Hb1|]. split; [exact Hb2|exact Hreq].
Defined.

Lemma opened_main_tab_stays_consistent :
  MainTab.genesis stored_config {| content_server := None |} MainTab.init
  = Ok opened_main_tab
  /\ exists self',
       foldl (fun m e =>
                match e with
                | inl b => (MainTab_setChecked_auth (R := string) b m).1
                | inr n => (MainTab_setValue_port (R := string) n m).1
                end) opened_main_tab [inl false; inr 70000; inl true] = self'
       /\ main_tab_ok self'
       /\ 1 <= QSpinBox.value (MainTab.opt_port self') <= 65535.
Proof.
  split; [reflexivity|]. eexists. split; [reflexivity|].
  exact (@MainTab_stays_consistent string stored_config {| content_server := None |}
           opened_main_tab [inl false; inr 70000; inl true] eq_refl).
Defined.

(** * Testing the server *)

Section test_server_properties.
Context {R : Type} `{SpinText}.

Lemma AdvancedTab_opt_missing (tab : AdvancedTab.t) (n : string) :
  n ∉ widget_name <$> AdvancedTab.widgets tab ->
  AdvancedTab_opt n tab = Raise AttributeError.
Proof.
  unfold AdvancedTab_opt. generalize (AdvancedTab.widgets tab) as ws.
  induction ws as [|x ws IH] using rev_ind; intros Hnot; [reflexivity|].
  rewrite foldl_app. cbn [foldl].
  rewrite fmap_app, elem_of_app in Hnot. cbn [fmap list_fmap] in Hnot.
  rewrite bool_decide_eq_false_2.
  - apply IH. tauto.
  - intros Heq. apply Hnot. right. rewrite Heq. left.
Qed.

Lemma AdvancedTab_opt_found (tab : AdvancedTab.t) (w : AnyWidget) :
  NoDup (widget_name <$> AdvancedTab.widgets tab) ->
  w ∈ AdvancedTab.widgets tab ->
  AdvancedTab_opt (widget_name w) tab = Ok w.
Proof.
  unfold AdvancedTab_opt. generalize (AdvancedTab.widgets tab) as ws.
  induction ws as [|x ws IH] using rev_ind; intros Hnd Hin; [inversion Hin|].
  rewrite foldl_app. cbn [foldl].
  rewrite fmap_app in Hnd. apply NoDup_app in Hnd as (Hnd & Hdis & _).
  apply elem_of_app in Hin as [Hin|Hin].
  - rewrite bool_decide_eq_false_2; [apply IH; assumption|].
    intros Heq. apply (Hdis (widget_name w)).
    + apply list_elem_of_fmap. eauto.
    + rewrite <- Heq. left.
  - apply list_elem_of_singleton in Hin as ->.
    rewrite bool_decide_eq_true_2 by reflexivity. reflexivity.
Qed.

(** The widgets of a built tab are named after the options shown, each
    once. *)
Lemma advanced_built_names (options : registry) (tab : AdvancedTab.t) :
  NoDup (keys options) ->
  advanced_built options tab ->
  NoDup (widget_name <$> AdvancedTab.widgets tab)
  /\ (forall n, n ∈ widget_name <$> AdvancedTab.widgets tab
                <-> exists o, o ∈ options /\ shown o /\ Option.name o = n)
  /\ (forall o, o ∈ options -> shown o ->
        exists w, w ∈ AdvancedTab.widgets tab /\ built_for w o).
Proof.
  intros Hnd (os & Hperm & Hb).
  assert (Hnames : widget_name <$> AdvancedTab.widgets tab = Option.name <$> os).
  { apply built_names. eapply Forall2_impl; [exact Hb|].
    intros w o [(Hn & _) _]. exact Hn. }
  rewrite Hnames. split; [|split].
  - rewrite Hperm. apply NoDup_names_filter. exact Hnd.
  - intros n. rewrite list_elem_of_fmap. split.
    + intros (o & -> & Ho). rewrite Hperm in Ho.
      apply list_elem_of_filter in Ho as [Hs Ho]. eauto.
    + intros (o & Ho & Hs & <-). exists o. split; [reflexivity|].
      rewrite Hperm. apply list_elem_of_filter. auto.
  - intros o Ho Hs. apply (Forall2_elem_r _ _ _ o Hb).
    rewrite Hperm. apply list_elem_of_filter. auto.
Qed.

(** X22.  On a panel whose registry (of distinct names) has a
    [url_prefix] option shown as a text box, "Test server" opens
    [http://127.0.0.1:] followed by the port and the URL prefix of the
    settings snapshot, that is, the values the panel shows, saved or not;
    it does not look at the server. *)
Theorem test_server_opens_settings_url (options : registry)
  (self : ConfigWidget.t R) (o : Option.t) :
  NoDup (keys options) ->
  advanced_built options (ConfigWidget.advanced_tab self) ->
  getitem options "url_prefix" = Ok o ->
  AdvancedTab.select o = AdvancedTab.Text ->
  exists (port : Z) (prefix : string),
    ConfigWidget.settings self !! "port" = Some (PyInt port)
    /\ (ConfigWidget.settings self !! "url_prefix" = Some (PyStr prefix)
        \/ (ConfigWidget.settings self !! "url_prefix" = Some PyNone /\ prefix = ""))
    /\ ConfigWidget_test_server self
       = Ok ("http://127.0.0.1:" ++ pretty port ++ prefix).
Proof.
  intros Hnd Hbuilt Hget Hsel.
  destruct (advanced_built_names options _ Hnd Hbuilt) as (Hndw & Hnames & Hwid).
  pose proof (getitem_name _ _ _ Hget) as Hname.
  pose proof (getitem_elem _ _ _ Hget) as Hin.
  assert (Hshown : shown o) by (unfold shown; rewrite Hname; reflexivity).
  destruct (Hwid o Hin Hshown) as (w & Hw & [(Hn & _ & Hc) Hst]).
  rewrite Hsel in Hc. rewrite Hname in Hn.
  destruct w as [c|c|c|c|c]; try discriminate Hc.
  cbn [widget_name] in Hn.
  exists (QSpinBox.value (MainTab.opt_port (ConfigWidget.main_tab self))).
  assert (Hport : ConfigWidget.settings self !! "port"
                  = Some (PyInt (QSpinBox.value
                                   (MainTab.opt_port (ConfigWidget.main_tab self))))).
  { rewrite settings_main_entry.
    - unfold MainTab.settings. apply lookup_insert_eq.
    - apply eq_None_not_Some. rewrite settings_keys, Hnames.
      intros (o' & _ & Hs' & Hn'). unfold shown in Hs'. rewrite Hn' in Hs'.
      discriminate Hs'. }
  assert (Hurl : ConfigWidget.settings self !! "url_prefix" = Some (Text.get c)).
  { unfold ConfigWidget.settings, ConfigWidget.tabs, update.
    cbn [foldl ConfigWidget.tab_settings].
    apply lookup_union_Some_l.
    pose proof (settings_lookup _ (WText c) Hndw Hw) as Hl.
    cbn [widget_name widget_get] in Hl. rewrite Hn in Hl. exact Hl. }
  assert (Htest : ConfigWidget_test_server self
                  = Ok ("http://127.0.0.1:"
                        ++ pretty (QSpinBox.value
                                     (MainTab.opt_port (ConfigWidget.main_tab self)))
                        ++ strip (QLineEdit.text (qt c)))).
  { unfold ConfigWidget_test_server.
    pose proof (AdvancedTab_opt_found _ (WText c) Hndw Hw) as Hattr.
    cbn [widget_name] in Hattr. rewrite Hn in Hattr. rewrite Hattr. reflexivity. }
  destruct (Text_get_cases c) as [Hnone|[Hs Hne]].
  - exists "". split; [exact Hport|]. split.
    + right. split; [rewrite Hurl, Hnone; reflexivity|reflexivity].
    + rewrite Htest. unfold Text.get, py_or in Hnone. simpl in Hnone.
      destruct (bool_decide (strip (QLineEdit.text (qt c)) = "")) eqn:Hemp;
        [|discriminate Hnone].
      apply bool_decide_eq_true_1 in Hemp. rewrite Hemp. reflexivity.
  - exists (strip (QLineEdit.text (qt c))). split; [exact Hport|]. split.
    + left. rewrite Hurl, Hs. reflexivity.
    + exact Htest.
Qed.

(** X23.  "Test server" raises [AttributeError], and opens nothing, when
    the registry has no [url_prefix] option or shows that option as a
    choice box. *)
Theorem test_server_needs_a_prefix_box (options : registry)
  (self : ConfigWidget.t R) :
  NoDup (keys options) ->
  advanced_built options (ConfigWidget.advanced_tab self) ->
  "url_prefix" ∉ keys options
  \/ (exists o, getitem options "url_prefix" = Ok o
                /\ AdvancedTab.select o = AdvancedTab.Choices) ->
  ConfigWidget_test_server self = Raise AttributeError.
Proof.
  intros Hnd Hbuilt Hcase.
  destruct (advanced_built_names options _ Hnd Hbuilt) as (Hndw & Hnames & Hwid).
  unfold ConfigWidget_test_server. destruct Hcase as [Hnot|(o & Hget & Hsel)].
  - rewrite AdvancedTab_opt_missing; [reflexivity|].
    rewrite Hnames. intros (o & Ho & _ & Hn). apply Hnot. unfold keys.
    rewrite <- Hn. apply list_elem_of_fmap. eauto.
  - pose proof (getitem_name _ _ _ Hget) as Hname.
    pose proof (getitem_elem _ _ _ Hget) as Hin.
    assert (Hshown : shown o) by (unfold shown; rewrite Hname; reflexivity).
    destruct (Hwid o Hin Hshown) as (w & Hw & [(Hn & _ & Hc) Hst]).
    rewrite Hsel in Hc. rewrite Hname in Hn.
    destruct w as [c|c|c|c|c]; try discriminate Hc.
    pose proof (AdvancedTab_opt_found _ (WChoices c) Hndw Hw) as Hattr.
    rewrite Hn in Hattr. rewrite Hattr. reflexivity.
Qed.
End test_server_properties.

(** * The "Advanced" tab stays built *)

Section advanced_built_properties.
Context {R : Type} `{Icu} `{PyText}.

Lemma init_advanced_built (options : registry) (tab : AdvancedTab.t) :
  NoDup (keys options) ->
  AdvancedTab.init options = Ok tab ->
  advanced_built options tab.
Proof.
  intros Hnd Hinit. destruct (init_built options Hnd) as (tab0 & os & Htab & Hperm & Hb).
  assert (tab0 = tab) by congruence. subst tab0. exists os. auto.
Qed.

Lemma genesis_advanced_built (options : registry) (opts : gmap string PyVal)
  (tab tab' : AdvancedTab.t) :
  advanced_built options tab ->
  AdvancedTab.genesis opts tab = Ok tab' ->
  advanced_built options tab'.
Proof.
  intros (os & Hperm & Hb) Hgen. exists os. split; [exact Hperm|].
  unfold AdvancedTab.genesis in Hgen.
  destruct (for_each _ (AdvancedTab.widgets tab)) as [ws|] eqn:Hall; [|discriminate].
  injection Hgen as <-. exact (set_all_built _ _ _ _ Hb Hall).
Qed.

Lemma opened_panel_built (options : registry) (g : Gui)
  (opts : gmap string PyVal) (stored : gmap string R) (p0 p : ConfigWidget.t R) :
  NoDup (keys options) ->
  ConfigWidget.init options = Ok p0 ->
  ConfigWidget.genesis g opts stored p0 = Ok p ->
  advanced_built options (ConfigWidget.advanced_tab p).
Proof.
  intros Hnd Hinit Hgen. unfold ConfigWidget.init in Hinit.
  destruct (AdvancedTab.init options) as [tab|] eqn:Htab; [|discriminate].
  cbn [mbind result_bind] in Hinit. injection Hinit as <-.
  unfold ConfigWidget.genesis in Hgen.
  cbn [ConfigWidget.main_tab ConfigWidget.users_tab ConfigWidget.advanced_tab] in Hgen.
  destruct (MainTab.genesis opts g MainTab.init) as [m|]; [|discriminate].
  cbn [mbind result_bind] in Hgen.
  destruct (Users.genesis stored Users.init) as [u|]; [|discriminate].
  cbn [mbind result_bind] in Hgen.
  destruct (AdvancedTab.genesis opts tab) as [adv|] eqn:Hadv; [|discriminate].
  cbn [mbind result_bind] in Hgen. injection Hgen as <-.
  cbn [ConfigWidget.advanced_tab].
  exact (genesis_advanced_built options opts tab adv
           (init_advanced_built options tab Hnd Htab) Hadv).
Qed.
End advanced_built_properties.

(** * Closed instances: testing the server *)

Lemma test_server_on_calibre_options :
  NoDup (keys calibre_options)
  /\ getitem calibre_options "url_prefix" = Ok url_prefix_unset_opt
  /\ AdvancedTab.select url_prefix_unset_opt = AdvancedTab.Text
  /\ exists p0 p : ConfigWidget.t string,
       @ConfigWidget.init string calibre_options = Ok p0
       /\ @ConfigWidget.genesis string caseless_icu no_numerals
            {| content_server := None |} stored_config
            {["alice" := "secret"]} p0 = Ok p
       /\ advanced_built calibre_options (ConfigWidget.advanced_tab p)
       /\ @ConfigWidget_test_server plain_spin_text string p
          = Ok "http://127.0.0.1:8080/calibre".
Proof.
  split; [exact calibre_options_NoDup|]. split; [reflexivity|]. split; [reflexivity|].
  destruct (@ConfigWidget.init string calibre_options) as [p0|] eqn:Hinit;
    [|vm_compute in Hinit; discriminate].
  destruct (@ConfigWidget.genesis string caseless_icu no_numerals
              {| content_server := None |} stored_config
              {["alice" := "secret"]} p0) as [p|] eqn:Hgen.
  - pose proof (@opened_panel_built string caseless_icu no_numerals calibre_options
                  _ _ _ p0 p calibre_options_NoDup Hinit Hgen) as Hbuilt.
    destruct (@test_server_opens_settings_url string plain_spin_text
                calibre_options p url_prefix_unset_opt calibre_options_NoDup
                Hbuilt eq_refl eq_refl)
      as (port & prefix & Hport & Hurl & Htest).
    exists p0, p. split; [reflexivity|]. split; [exact Hgen|].
    split; [exact Hbuilt|].
    vm_compute in Hinit. injection Hinit as <-.
    vm_compute in Hgen. injection Hgen as <-.
    vm_compute in Hport. injection Hport as <-.
    destruct Hurl as [Hurl|[Hurl _]]; vm_compute in Hurl; [|discriminate Hurl].
    injection Hurl as <-. rewrite Htest. vm_compute. reflexivity.
  - exfalso. vm_compute in Hinit. injection Hinit as <-.
    vm_compute in Hgen. discriminate.
Defined.

Lemma test_server_without_url_prefix :
  NoDup (keys [auth_opt; port_opt])
  /\ exists p0 : ConfigWidget.t string,
       @ConfigWidget.init string [auth_opt; port_opt] = Ok p0
       /\ advanced_built [auth_opt; port_opt] (ConfigWidget.advanced_tab p0)
       /\ @ConfigWidget_test_server plain_spin_text string p0 = Raise AttributeError.
Proof.
  assert (Hnd : NoDup (keys [auth_opt; port_opt])).
  { apply (bool_decide_unpack (NoDup (keys [auth_opt; port_opt]))). vm_compute. exact I. }
  split; [exact Hnd|].
  destruct (@ConfigWidget.init string [auth_opt; port_opt]) as [p0|] eqn:Hinit;
    [|vm_compute in Hinit; discriminate].
  assert (Hbuilt : advanced_built [auth_opt; port_opt] (ConfigWidget.advanced_tab p0)).
  { unfold ConfigWidget.init in Hinit.
    destruct (AdvancedTab.init [auth_opt; port_opt]) as [tab|] eqn:Htab;
      [|discriminate].
    injection Hinit as <-. exact (init_advanced_built _ _ Hnd Htab). }
  exists p0. split; [reflexivity|]. split; [exact Hbuilt|].
  apply (@test_server_needs_a_prefix_box string plain_spin_text [auth_opt; port_opt]
           p0 Hnd Hbuilt).
  left. intros Hin. unfold keys in Hin. cbn in Hin.
  repeat (apply elem_of_cons in Hin as [Hin|Hin]; [discriminate Hin|]).
  inversion Hin.
Defined.
